(** * android-emulator-runner: the SDK installer ([src/sdk-installer.ts])

    A shallow embedding of [installAndroidSdk], [installBaseSdk] and
    [acceptLicenses].  The installer is a straight-line script over the
    process environment, the filesystem and external commands, so it is
    modelled in a small monad that threads a [World], collects the
    [Event]s the script emits and carries JavaScript's completions
    (normal, [return], [throw]).

    External commands ([exec.exec]) are not interpreted: what a command
    does to the host is given by a [Shell], over which every theorem is
    quantified. *)

From Stdlib Require Import Strings.Ascii.
From stdpp Require Import gmap strings list fin_maps pretty.

Local Open Scope string_scope.
Local Open Scope Z_scope.

(** ** JavaScript strings *)

Module Js.

(** The double quote and the line feed of the script's string literals. *)
Definition dquote : string := String "034"%char "".
Definition newline : string := String "010"%char "".

(** [!s] for a value that is a string or [undefined]. *)
Definition falsy (v : option string) : bool :=
  match v with
  | None => true
  | Some s => String.eqb s ""
  end.

Definition truthy (v : option string) : bool := negb (falsy v).

(** [`${v}`]: a template literal prints [undefined] by name. *)
Definition tpl (v : option string) : string := default "undefined" v.

(** [v || ''] *)
Definition or_empty (v : option string) : string := default "" v.

(** [s.includes(needle)] *)
Fixpoint includes (needle s : string) : bool :=
  String.prefix needle s
  || match s with
     | "" => false
     | String _ s' => includes needle s'
     end.

(** [s.split(c)] for a one-character separator: never the empty list. *)
Fixpoint split (c : ascii) (s : string) : list string :=
  match s with
  | "" => [""]
  | String a s' =>
      if Ascii.eqb a c then "" :: split c s'
      else match split c s' with
           | seg :: segs => String a seg :: segs
           | [] => [String a ""]
           end
  end.

(** [l.join(sep)] *)
Fixpoint join (sep : string) (l : list string) : string :=
  match l with
  | [] => ""
  | [s] => s
  | s :: l' => s +:+ sep +:+ join sep l'
  end.

(** [s.trim()].  The strings of the model are in UTF-8: white space is
    the characters U+0009 to U+000D and U+0020, and, in two or three bytes,
    U+00A0, U+1680, U+2000 to U+200A, U+2028, U+2029, U+202F, U+205F,
    U+3000 and U+FEFF. *)
Definition code (c : ascii) : N := N_of_ascii c.

Definition ws1 (c : ascii) : bool :=
  ((9 <=? code c) && (code c <=? 13) || (code c =? 32))%N.

Definition ws2 (c1 c2 : ascii) : bool :=
  ((code c1 =? 194) && (code c2 =? 160))%N.

Definition ws3 (c1 c2 c3 : ascii) : bool :=
  ((code c1 =? 225) && (code c2 =? 154) && (code c3 =? 128)
   || (code c1 =? 226) && (code c2 =? 128)
      && ((128 <=? code c3) && (code c3 <=? 138)
          || (code c3 =? 168) || (code c3 =? 169) || (code c3 =? 175))
   || (code c1 =? 226) && (code c2 =? 129) && (code c3 =? 159)
   || (code c1 =? 227) && (code c2 =? 128) && (code c3 =? 128)
   || (code c1 =? 239) && (code c2 =? 187) && (code c3 =? 191))%N.

Fixpoint trimStart (s : string) : string :=
  match s with
  | "" => ""
  | String c1 s1 =>
      if ws1 c1 then trimStart s1
      else match s1 with
           | String c2 s2 =>
               if ws2 c1 c2 then trimStart s2
               else match s2 with
                    | String c3 s3 => if ws3 c1 c2 c3 then trimStart s3 else s
                    | "" => s
                    end
           | "" => s
           end
  end.

(** Nothing but white space. *)
Fixpoint blank (s : string) : bool :=
  match s with
  | "" => true
  | String c1 s1 =>
      if ws1 c1 then blank s1
      else match s1 with
           | String c2 s2 =>
               if ws2 c1 c2 then blank s2
               else match s2 with
                    | String c3 s3 => ws3 c1 c2 c3 && blank s3
                    | "" => false
                    end
           | "" => false
           end
  end.

Fixpoint trimEnd (s : string) : string :=
  if blank s then ""
  else match s with
       | "" => ""
       | String c s' => String c (trimEnd s')
       end.

Definition trim (s : string) : string := trimEnd (trimStart s).

End Js.

(** ** The world the script runs in *)

(** A filesystem entry.  Paths are the strings the script builds; they are
    compared as written: the model does not resolve a relative path, a
    doubled slash or a link, so that two strings that name one file on the
    host are two paths here. *)
Inductive Node :=
| Dir
| File (content : string).

(** What external commands can change: the filesystem and the clock. *)
Record Host := mkHost {
  fs : gmap string Node;
  clock : Z
}.

Record World := mkWorld {
  platform : string;               (* process.platform *)
  env : gmap string string;        (* process.env *)
  inputs : gmap string string;     (* the action's inputs, as the workflow gives them *)
  host : Host
}.

Definition set_env (f : gmap string string → gmap string string) (w : World) : World :=
  mkWorld (platform w) (f (env w)) (inputs w) (host w).

Definition set_host (h : Host) (w : World) : World :=
  mkWorld (platform w) (env w) (inputs w) h.

Definition set_fs (f : gmap string Node → gmap string Node) (w : World) : World :=
  set_host (mkHost (f (fs (host w))) (clock (host w))) w.

(** An external command, as [exec.exec] sees it: its exit code and the
    host it leaves behind.  A command that cannot be run has no exit code;
    [exec.exec] rejects then as it does for an exit code other than 0, and
    the model gives such a command a code other than 0. *)
Definition Shell : Type := string → Host → Z * Host.

(** What the script does that an observer of the job can see. *)
Inductive Event :=
| Log (msg : string)                     (* console.log *)
| SetFailed (msg : string)               (* core.setFailed *)
| ExportVariable (name val : string)     (* core.exportVariable *)
| AddPath (p : string)                   (* core.addPath *)
| Exec (cmd : string)                    (* exec.exec *)
| MkdirP (p : string)                    (* io.mkdirP *)
| RmRF (p : string)                      (* io.rmRF *)
| WriteFile (p data : string).           (* fs.writeFileSync, when it succeeds *)

Inductive Error :=
| ExecFailed (cmd : string) (code : Z)   (* exec.exec rejects *)
| ENOENT (p : string)                    (* no such file or directory *)
| ENOTDIR (p : string)                   (* a directory of the path is a file *)
| EISDIR (p : string)                    (* the path is a directory *)
| EEXIST (p : string).                   (* the path is a file *)

(** How a statement ends. *)
Inductive Completion (A : Type) :=
| Normal (a : A)
| Return_
| Throw (e : Error).
Arguments Normal {A} a.
Arguments Return_ {A}.
Arguments Throw {A} e.

Record Outcome (A : Type) := mkOutcome {
  events : list Event;
  final : World;
  completion : Completion A
}.
Arguments mkOutcome {A} _ _ _.
Arguments events {A} _.
Arguments final {A} _.
Arguments completion {A} _.

Definition M (A : Type) : Type := World → Outcome A.

Definition ret {A} (a : A) : M A := λ w, mkOutcome [] w (Normal a).

Definition bind {A B} (m : M A) (k : A → M B) : M B := λ w,
  let o := m w in
  match completion o with
  | Normal a =>
      let o' := k a (final o) in
      mkOutcome (events o ++ events o')%list (final o') (completion o')
  | Return_ => mkOutcome (events o) (final o) Return_
  | Throw e => mkOutcome (events o) (final o) (Throw e)
  end.

#[global] Instance M_ret : MRet M := @ret.
#[global] Instance M_bind : MBind M := λ A B k m, bind m k.

(** [return;] *)
Definition return_ {A} : M A := λ w, mkOutcome [] w Return_.

(** A call of [installAndroidSdk], an [async function (): Promise<void>]:
    [return;] ends the call normally, an exception rejects the promise.
    (The two helpers have no [return;] but their last statement.) *)
Definition call (body : M unit) : M unit := λ w,
  let o := body w in
  match completion o with
  | Return_ => mkOutcome (events o) (final o) (Normal tt)
  | _ => o
  end.

(** [if (b) { m }] *)
Definition when_ (b : bool) (m : M unit) : M unit :=
  if b then m else mret tt.

Definition emit (e : Event) : M unit := λ w, mkOutcome [e] w (Normal tt).

(** ** The libraries the script calls *)

(** Parent directory of a path: the text before its last [/]. *)
Fixpoint dirname_aux (s : string) : option string :=
  match s with
  | "" => None
  | String c s' =>
      match dirname_aux s' with
      | Some d => Some (String c d)
      | None => if Ascii.eqb c "/" then Some "" else None
      end
  end.

Definition dirname (p : string) : string :=
  match dirname_aux p with
  | Some "" => "/"
  | Some d => d
  | None => "."
  end.

(** The directories [mkdir -p] goes through: every non-empty prefix of the
    path that ends before a [/]. *)
Fixpoint dir_prefixes (s : string) : list string :=
  match s with
  | "" => []
  | String c s' =>
      ((if Ascii.eqb c "/" then [""] else []) ++ (String c <$> dir_prefixes s'))%list
  end.

Definition ancestors (p : string) : list string :=
  filter (λ d, d ≠ "") (dir_prefixes p).

Definition is_file (n : option Node) : bool :=
  match n with Some (File _) => true | _ => false end.

Definition is_dir (n : option Node) : bool :=
  match n with Some Dir => true | _ => false end.

Definition exists_path (f : gmap string Node) (p : string) : bool :=
  bool_decide (is_Some (f !! p)).

(** [p] itself and everything below it. *)
Definition under (p k : string) : bool :=
  String.eqb k p || String.prefix (p +:+ "/") k.

Section Script.

(** The external commands of the host. *)
Variable sys : Shell.

Definition console_log (msg : string) : M unit := emit (Log msg).

Definition core_setFailed (msg : string) : M unit := emit (SetFailed msg).

(** [core.exportVariable] also sets the variable in [process.env]. *)
Definition core_exportVariable (name val : string) : M unit := λ w,
  mkOutcome [ExportVariable name val] (set_env <[name := val]> w) (Normal tt).

(** [core.addPath] prepends to [process.env.PATH]. *)
Definition core_addPath (p : string) : M unit := λ w,
  mkOutcome [AddPath p]
    (set_env (λ e, <["PATH" := p +:+ ":" +:+ Js.tpl (e !! "PATH")]> e) w)
    (Normal tt).

(** [core.getInput]: the input without the white space around it; the
    empty string when the input is not given. *)
Definition core_getInput (name : string) : M string := λ w,
  mkOutcome [] w (Normal (Js.trim (Js.or_empty (inputs w !! name)))).

Definition process_platform : M string := λ w,
  mkOutcome [] w (Normal (platform w)).

Definition process_env (name : string) : M (option string) := λ w,
  mkOutcome [] w (Normal (env w !! name)).

Definition Date_now : M Z := λ w,
  mkOutcome [] w (Normal (clock (host w))).

Definition fs_existsSync (p : string) : M bool := λ w,
  mkOutcome [] w (Normal (exists_path (fs (host w)) p)).

(** [fs.existsSync] of a value that may be [undefined]. *)
Definition fs_existsSync_val (v : option string) : M bool :=
  match v with
  | Some p => fs_existsSync p
  | None => mret false
  end.

(** [fs.writeFileSync]: creates or replaces the file; its directory has
    to be there ([ENOENT]) and to be a directory ([ENOTDIR]). *)
Definition fs_writeFileSync (p data : string) : M unit := λ w,
  if is_dir (fs (host w) !! p) then mkOutcome [] w (Throw (EISDIR p))
  else match fs (host w) !! dirname p with
       | Some Dir =>
           mkOutcome [WriteFile p data] (set_fs <[p := File data]> w) (Normal tt)
       | Some (File _) => mkOutcome [] w (Throw (ENOTDIR p))
       | None => mkOutcome [] w (Throw (ENOENT p))
       end.

(** [io.mkdirP]: the directory and its missing parents.  It is rejected
    with [ENOTDIR] when a directory above it is a regular file, and with
    [EEXIST] when the path itself is one. *)
Definition io_mkdirP (p : string) : M unit := λ w,
  let dirs := (ancestors p ++ [p])%list in
  if existsb (λ d, is_file (fs (host w) !! d)) (ancestors p)
  then mkOutcome [MkdirP p] w (Throw (ENOTDIR p))
  else if is_file (fs (host w) !! p)
  then mkOutcome [MkdirP p] w (Throw (EEXIST p))
  else
    mkOutcome [MkdirP p]
      (set_fs (λ f, foldr (λ d g, <[d := Dir]> g) f dirs) w) (Normal tt).

(** [io.rmRF]: the path, as it is written, and everything below it; no
    error when absent.  A removal that the host refuses is not modelled. *)
Definition io_rmRF (p : string) : M unit := λ w,
  mkOutcome [RmRF p]
    (set_fs (filter (λ kv : string * Node, under p kv.1 = false)) w) (Normal tt).

(** [await exec.exec(cmd)]: runs the command; the promise rejects unless
    it exits with 0, the exit code the script never looks at. *)
Definition exec_exec (cmd : string) : M unit := λ w,
  let r := sys cmd (host w) in
  mkOutcome [Exec cmd] (set_host r.2 w)
    (if decide (r.1 = 0) then Normal tt else Throw (ExecFailed cmd r.1)).

(** ** The script *)

Definition BUILD_TOOLS_VERSION : string := "30.0.0".
Definition CMDLINE_TOOLS_URL_MAC : string :=
  "https://dl.google.com/android/repository/commandlinetools-mac-6609375_latest.zip".
Definition CMDLINE_TOOLS_URL_LINUX : string :=
  "https://dl.google.com/android/repository/commandlinetools-linux-6609375_latest.zip".
Definition BASE_ANDROID_SDK_URL_MAC : string :=
  "https://dl.google.com/android/repository/sdk-tools-darwin-4333796.zip".
Definition BASE_ANDROID_SDK_URL_LINUX : string :=
  "https://dl.google.com/android/repository/sdk-tools-linux-4333796.zip".

(** [`${process.env.NAME}`], read anew wherever the script writes it. *)
Definition env_tpl (name : string) : M string :=
  v ← process_env name; mret (Js.tpl v).

(** Line 119: the tool directories of the new installation. *)
Definition extraPaths (androidHome : string) : string :=
  androidHome +:+ "/bin:" +:+ androidHome +:+ "/tools:" +:+ androidHome
  +:+ "/tools/bin:" +:+ androidHome +:+ "/platform-tools:" +:+ androidHome
  +:+ "/platform-tools/bin".

(** Lines 121-127: remove from path any Android previous installation. *)
Definition pathWithoutAndroid (path : string) : string :=
  Js.join ":"
    (filter (λ entry, Js.includes "Android" entry = false) (Js.split ":" path)).

(** sdk-installer.ts, lines 99-131. *)
Definition installBaseSdk : M bool :=
  platform ← process_platform;
  let isOnMac := String.eqb platform "darwin" in
  let baseSdkUrl :=
    if isOnMac then BASE_ANDROID_SDK_URL_MAC else BASE_ANDROID_SDK_URL_LINUX in
  let androidTmpPath := "/tmp/android-sdk.zip" in
  androidHome ← env_tpl "ANDROID_HOME";
  console_log ("Installing Android SDK on " +:+ androidHome);;
  (* Backup existing .android folder. *)
  let sdkHome := androidHome +:+ "/sdk_home" in
  core_exportVariable "ANDROID_SDK_HOME" sdkHome;;
  found ← fs_existsSync sdkHome;
  when_ found
    (now ← Date_now;
     exec_exec ("mv " +:+ sdkHome +:+ " " +:+ sdkHome +:+ ".backup." +:+ pretty now));;
  exec_exec ("curl -L " +:+ baseSdkUrl +:+ " -o " +:+ androidTmpPath +:+ " -s");;
  exec_exec ("unzip -q " +:+ androidTmpPath +:+ " -d " +:+ androidHome);;
  exec_exec ("rm " +:+ androidTmpPath);;
  exec_exec ("mkdir -p " +:+ sdkHome);;
  path ← process_env "PATH";
  let path := Js.or_empty path in
  core_exportVariable "PATH"
    (extraPaths androidHome +:+ ":" +:+ pathWithoutAndroid path);;
  mret true.

(** sdk-installer.ts, lines 133-142. *)
Definition acceptLicenses : M bool :=
  androidHome ← env_tpl "ANDROID_HOME";
  console_log ("Accepting Android SDK licenses on " +:+ androidHome);;
  sdkHome ← env_tpl "ANDROID_SDK_HOME";
  exec_exec ("mkdir -p " +:+ sdkHome);;
  sdkHome ← env_tpl "ANDROID_SDK_HOME";
  exec_exec ("touch " +:+ sdkHome +:+ "/repositories.cfg");;
  exec_exec ("mkdir -p " +:+ androidHome +:+ "/licenses");;
  exec_exec ("sh -c \" +:+ Js.dquote +:+ "yes 'y' | " +:+ androidHome
             +:+ "/tools/bin/sdkmanager --licenses > /dev/null" +:+ Js.dquote);;
  mret true.

(** [installAndroidSdk] is given block by block, in the order of the
    source; [isOnMac] is its local constant of line 17. *)

(** Lines 19-23: check if ANDROID_HOME is set. *)
Definition checkAndroidHome : M unit :=
  home ← process_env "ANDROID_HOME";
  when_ (Js.falsy home)
    (core_setFailed
       ("ANDROID_HOME is a required environment variable and is not set."
        +:+ Js.newline +:+ "Please double check your host settings.");;
     return_).

(** Lines 25-38: the base SDK, unless its directory is there. *)
Definition ensureBaseSdk : M unit :=
  home ← process_env "ANDROID_HOME";
  found ← fs_existsSync_val home;
  if found : bool then
    console_log
      "Using previous installation of base Android SDK, found on ${process.env.ANDROID_HOME}"
  else
    installed ← installBaseSdk;
    when_ (negb installed)
      (core_setFailed "Could not install base Android SDK.";; return_);;
    licenses ← acceptLicenses;
    when_ (negb installed || negb licenses)
      (core_setFailed "Could not accept Android SDK licenses.";; return_).

(** Lines 40-46: ownership of the SDK directory. *)
Definition configurePermissions (isOnMac : bool) : M unit :=
  freshInstall ← core_getInput "fresh-sdk-installation";
  when_ (negb isOnMac && Js.falsy (Some freshInstall))
    (home ← env_tpl "ANDROID_HOME";
     exec_exec ("sh -c \" +:+ Js.dquote +:+ "sudo chown $USER:$USER " +:+ home +:+ " -R")).

(** Lines 48-59: the command-line tools, unless their directory is there. *)
Definition installCmdlineTools (isOnMac : bool) : M unit :=
  home ← env_tpl "ANDROID_HOME";
  let cmdlineToolsPath := home +:+ "/cmdline-tools" in
  found ← fs_existsSync cmdlineToolsPath;
  when_ (negb found)
    (console_log "Installing new cmdline-tools.";;
     let sdkUrl := if isOnMac then CMDLINE_TOOLS_URL_MAC else CMDLINE_TOOLS_URL_LINUX in
     home ← env_tpl "ANDROID_HOME";
     io_mkdirP (home +:+ "/cmdline-tools");;
     exec_exec ("curl -fo commandlinetools.zip " +:+ sdkUrl);;
     exec_exec ("unzip -q commandlinetools.zip -d " +:+ cmdlineToolsPath);;
     io_rmRF "commandlinetools.zip";;
     (* add paths for commandline-tools and platform-tools *)
     home ← env_tpl "ANDROID_HOME";
     core_addPath (cmdlineToolsPath +:+ "/tools:" +:+ cmdlineToolsPath +:+ "/tools/bin:"
                   +:+ home +:+ "/platform-tools")).

(** Lines 61-71: the license files.  ([fs.existsSync] has no effect, so
    the short-circuit of [&&] is not shown.) *)
Definition writeLicenseFiles (isOnMac : bool) (apiLevel : Z) : M unit :=
  (* additional permission and license requirements for Linux *)
  home ← env_tpl "ANDROID_HOME";
  let sdkPreviewLicensePath := home +:+ "/licenses/android-sdk-preview-license" in
  found ← fs_existsSync sdkPreviewLicensePath;
  when_ (negb isOnMac && negb found)
    (fs_writeFileSync sdkPreviewLicensePath
       (Js.newline +:+ "84831b9409646a918e30573bab4c9c91346d8abd"));;
  (* license required for API 30 system images *)
  home ← env_tpl "ANDROID_HOME";
  let sdkArmDbtLicensePath := home +:+ "/licenses/android-sdk-arm-dbt-license" in
  found ← fs_existsSync sdkArmDbtLicensePath;
  when_ (bool_decide (apiLevel = 30) && negb found)
    (fs_writeFileSync sdkArmDbtLicensePath
       (Js.newline +:+ "859f317696f67ef3d7f30a50a5560e7834b43903")).

(** Lines 73-75. *)
Definition installBuildTools (apiLevel : Z) : M unit :=
  console_log "Installing latest build tools, platform tools, and platform.";;
  exec_exec ("sh -c \" +:+ Js.dquote +:+ "sdkmanager --install 'build-tools;"
             +:+ BUILD_TOOLS_VERSION +:+ "' platform-tools 'platforms;android-"
             +:+ pretty apiLevel +:+ "' > /dev/null" +:+ Js.dquote).

(** Lines 76-85. *)
Definition installEmulator (isOnMac : bool) (emulatorBuild : option string) : M unit :=
  if Js.truthy emulatorBuild then
    console_log ("Installing emulator build " +:+ Js.tpl emulatorBuild +:+ ".");;
    exec_exec ("curl -fo emulator.zip https://dl.google.com/android/repository/emulator-"
               +:+ (if isOnMac then "darwin" else "linux") +:+ "-"
               +:+ Js.tpl emulatorBuild +:+ ".zip");;
    home ← env_tpl "ANDROID_HOME";
    io_rmRF (home +:+ "/emulator");;
    home ← env_tpl "ANDROID_HOME";
    exec_exec ("unzip -q emulator.zip -d " +:+ home);;
    io_rmRF "emulator.zip"
  else
    console_log "Installing latest emulator.";;
    exec_exec ("sh -c \" +:+ Js.dquote +:+ "sdkmanager --install emulator > /dev/null"
               +:+ Js.dquote).

(** Lines 86-87. *)
Definition installSystemImages (apiLevel : Z) (target arch : string) : M unit :=
  console_log "Installing system images.";;
  exec_exec ("sh -c \" +:+ Js.dquote +:+ "sdkmanager --install 'system-images;android-"
             +:+ pretty apiLevel +:+ ";" +:+ target +:+ ";" +:+ arch
             +:+ "' > /dev/null" +:+ Js.dquote).

(** Lines 89-92. *)
Definition installNdk (ndkVersion : option string) : M unit :=
  when_ (Js.truthy ndkVersion)
    (console_log ("Installing NDK " +:+ Js.tpl ndkVersion +:+ ".");;
     exec_exec ("sh -c \" +:+ Js.dquote +:+ "sdkmanager --install 'ndk;"
                +:+ Js.tpl ndkVersion +:+ "' > /dev/null" +:+ Js.dquote)).

(** Lines 93-96. *)
Definition installCmake (cmakeVersion : option string) : M unit :=
  when_ (Js.truthy cmakeVersion)
    (console_log ("Installing CMake " +:+ Js.tpl cmakeVersion +:+ ".");;
     exec_exec ("sh -c \" +:+ Js.dquote +:+ "sdkmanager --install 'cmake;"
                +:+ Js.tpl cmakeVersion +:+ "' > /dev/null" +:+ Js.dquote)).

(** sdk-installer.ts, lines 16-97. *)
Definition installAndroidSdk (apiLevel : Z) (target arch : string)
    (emulatorBuild ndkVersion cmakeVersion : option string) : M unit :=
  call
    (platform ← process_platform;
     let isOnMac := String.eqb platform "darwin" in
     checkAndroidHome;;
     ensureBaseSdk;;
     configurePermissions isOnMac;;
     installCmdlineTools isOnMac;;
     writeLicenseFiles isOnMac apiLevel;;
     installBuildTools apiLevel;;
     installEmulator isOnMac emulatorBuild;;
     installSystemImages apiLevel target arch;;
     installNdk ndkVersion;;
     installCmake cmakeVersion).

End Script.

(** ** The events of the script *)

(** The commands of the script, by what they do. *)

(** Line 113: the download of the base SDK. *)
Definition base_sdk_download (url : string) : Event :=
  Exec ("curl -L " +:+ url +:+ " -o /tmp/android-sdk.zip -s").

(** Line 114: unpacking the base SDK. *)
Definition base_sdk_unpack (dir : string) : Event :=
  Exec ("unzip -q /tmp/android-sdk.zip -d " +:+ dir).

(** Line 53: the download of the command-line tools. *)
Definition cmdline_tools_download (url : string) : Event :=
  Exec ("curl -fo commandlinetools.zip " +:+ url).

(** Line 54: unpacking the command-line tools. *)
Definition cmdline_tools_unpack (dir : string) : Event :=
  Exec ("unzip -q commandlinetools.zip -d " +:+ dir).

(** Line 45: the recursive change of owner. *)
Definition chown_command (dir : string) : string :=
  "sh -c \" +:+ Js.dquote +:+ "sudo chown $USER:$USER " +:+ dir +:+ " -R".

Definition chown_step (dir : string) : Event := Exec (chown_command dir).

(** Line 78: the download of an emulator archive. *)
Definition emulator_download (url : string) : Event :=
  Exec ("curl -fo emulator.zip " +:+ url).

(** Line 80: unpacking the emulator archive. *)
Definition emulator_unpack (dir : string) : Event :=
  Exec ("unzip -q emulator.zip -d " +:+ dir).

(** Line 84: the package manager installs the latest emulator. *)
Definition sdkmanager_install_emulator : Event :=
  Exec ("sh -c \" +:+ Js.dquote +:+ "sdkmanager --install emulator > /dev/null"
        +:+ Js.dquote).

(** Lines 75, 84, 87, 91, 95 and 140: a call of the package manager. *)
Definition sdkmanager_call (e : Event) : Prop :=
  (∃ args, e = Exec ("sh -c \" +:+ Js.dquote +:+ "sdkmanager " +:+ args))
  ∨ (∃ dir, e = Exec ("sh -c \" +:+ Js.dquote +:+ "yes 'y' | " +:+ dir
                       +:+ "/tools/bin/sdkmanager --licenses > /dev/null" +:+ Js.dquote)).

(** [s] starts with [pre]. *)
Fixpoint starts_with (pre s : string) : bool :=
  match pre with
  | "" => true
  | String a pre' =>
      match s with
      | "" => false
      | String b s' => Ascii.eqb a b && starts_with pre' s'
      end
  end.

(** A command that starts with [pre]. *)
Definition runs (pre : string) (e : Event) : bool :=
  match e with
  | Exec cmd => starts_with pre cmd
  | _ => false
  end.

(** Lines 113, 114, 53 and 54, by how the command starts. *)
Definition downloads_base_sdk : Event → bool := runs "curl -L ".
Definition unpacks_base_sdk : Event → bool := runs "unzip -q /tmp/android-sdk.zip -d ".
Definition downloads_cmdline_tools : Event → bool := runs "curl -fo commandlinetools.zip ".
Definition unpacks_cmdline_tools : Event → bool := runs "unzip -q commandlinetools.zip -d ".

(** Fetching the base SDK or the command-line tools. *)
Definition fetches (e : Event) : bool :=
  downloads_base_sdk e || unpacks_base_sdk e
  || downloads_cmdline_tools e || unpacks_cmdline_tools e.

(** Lines 62-64 and 68-70: the two license files. *)
Definition sdkPreviewLicense (home : string) : Event :=
  WriteFile (home +:+ "/licenses/android-sdk-preview-license")
    (Js.newline +:+ "84831b9409646a918e30573bab4c9c91346d8abd").

Definition sdkArmDbtLicense (home : string) : Event :=
  WriteFile (home +:+ "/licenses/android-sdk-arm-dbt-license")
    (Js.newline +:+ "859f317696f67ef3d7f30a50a5560e7834b43903").

(** The events of a complete run of [installBaseSdk]: [backup] is the time
    of the backup when there is an SDK home to back up, [prior] the search
    path before. *)
Definition baseSdkEvents (isOnMac : bool) (home : string) (backup : option Z)
    (prior : string) : list Event :=
  ([ Log ("Installing Android SDK on " +:+ home);
     ExportVariable "ANDROID_SDK_HOME" (home +:+ "/sdk_home") ]
   ++ match backup with
      | Some now =>
          [ Exec ("mv " +:+ (home +:+ "/sdk_home") +:+ " " +:+ (home +:+ "/sdk_home")
                  +:+ ".backup." +:+ pretty now) ]
      | None => []
      end
   ++ [ Exec ("curl -L "
              +:+ (if isOnMac then BASE_ANDROID_SDK_URL_MAC else BASE_ANDROID_SDK_URL_LINUX)
              +:+ " -o /tmp/android-sdk.zip -s");
        Exec ("unzip -q /tmp/android-sdk.zip -d " +:+ home);
        Exec "rm /tmp/android-sdk.zip";
        Exec ("mkdir -p " +:+ (home +:+ "/sdk_home"));
        ExportVariable "PATH" (extraPaths home +:+ ":" +:+ pathWithoutAndroid prior) ])%list.

(** ** The parts of a run *)

(** The steps of a run up to the license files, lines 19-59. *)
Definition beforeLicenseFiles (sys : Shell) (isOnMac : bool) : M unit :=
  checkAndroidHome;; ensureBaseSdk sys;;
  configurePermissions sys isOnMac;; installCmdlineTools sys isOnMac.

(** What follows the license files, lines 73-96. *)
Definition afterLicenseFiles (sys : Shell) (isOnMac : bool) (apiLevel : Z)
    (target arch : string) (emulatorBuild ndkVersion cmakeVersion : option string) : M unit :=
  installBuildTools sys apiLevel;;
  installEmulator sys isOnMac emulatorBuild;;
  installSystemImages sys apiLevel target arch;;
  installNdk sys ndkVersion;;
  installCmake sys cmakeVersion.

(** What follows the command-line tools, lines 61-96. *)
Definition afterCmdlineTools (sys : Shell) (isOnMac : bool) (apiLevel : Z)
    (target arch : string) (emulatorBuild ndkVersion cmakeVersion : option string) : M unit :=
  writeLicenseFiles isOnMac apiLevel;;
  installBuildTools sys apiLevel;;
  installEmulator sys isOnMac emulatorBuild;;
  installSystemImages sys apiLevel target arch;;
  installNdk sys ndkVersion;;
  installCmake sys cmakeVersion.

(** ** Outcomes *)

(** The outcome [o] of what follows, after the events [evs]. *)
Definition prepend {A} (evs : list Event) (o : Outcome A) : Outcome A :=
  mkOutcome (evs ++ events o)%list (final o) (completion o).

(** [wp m w Q]: the outcome of [m] in [w] satisfies [Q]. *)
Definition wp {A} (m : M A) (w : World) (Q : Outcome A → Prop) : Prop := Q (m w).

(** [m], started in [w], ends normally with [a] in [w']: the run goes on
    from [w'] with what follows [m]. *)
Definition reaches {A} (m : M A) (w : World) (a : A) (w' : World) : Prop :=
  completion (m w) = Normal a ∧ final (m w) = w'.

(** How many events of a kind. *)
Fixpoint count (c : Event → bool) (evs : list Event) : nat :=
  match evs with
  | [] => 0
  | e :: evs' => (if c e then 1 else 0) + count c evs'
  end.

(** [m] emits at most [n] events of the kind [c]. *)
Definition AtMost {A} (n : nat) (c : Event → bool) (m : M A) : Prop :=
  ∀ w, (count c (events (m w)) ≤ n)%nat.

(** ** What stays fixed during a run *)

(** The script reads its platform, its inputs and [ANDROID_HOME]; it never
    changes them. *)
Record Config := mkConfig {
  cfg_platform : string;
  cfg_inputs : gmap string string;
  cfg_home : option string
}.

Definition config (w : World) : Config :=
  mkConfig (platform w) (inputs w) (env w !! "ANDROID_HOME").

(** Exporting a variable or extending the search path. *)
Definition is_export (e : Event) : Prop :=
  match e with
  | ExportVariable _ _ | AddPath _ => True
  | _ => False
  end.

(** The environment changes by exports only. *)
Definition env_kept {A} (w : World) (o : Outcome A) : Prop :=
  env (final o) = env w ∨ Exists is_export (events o).

(** [Always cfg P R m]: started in configuration [cfg], [m] emits only
    events that satisfy [P], leaves the configuration as it is, a value it
    ends normally with satisfies [R], and it changes the environment only
    if it exports. *)
Definition Always {A} (cfg : Config) (P : Event → Prop) (R : A → Prop) (m : M A) : Prop :=
  ∀ w, config w = cfg →
    Forall P (events (m w))
    ∧ config (final (m w)) = cfg
    ∧ (∀ a, completion (m w) = Normal a → R a)
    ∧ env_kept w (m w).

(** ** Properties of the events of a run *)

(** The two failure reports of lines 30 and 35. *)
Definition not_reported (e : Event) : Prop :=
  e ≠ SetFailed "Could not install base Android SDK."
  ∧ e ≠ SetFailed "Could not accept Android SDK licenses.".

(** The download addresses and the change of owner of a run. *)
Definition on_platform (base_url tools_url : string) (chown : Prop) (e : Event) : Prop :=
  (∀ url, e = base_sdk_download url → url = base_url)
  ∧ (∀ url, e = cmdline_tools_download url → url = tools_url)
  ∧ (∀ dir, e = chown_step dir → chown).

(** The address of the archive of an emulator build. *)
Definition emulator_url (isOnMac : bool) (build : string) : string :=
  "https://dl.google.com/android/repository/emulator-"
  +:+ (if isOnMac then "darwin" else "linux") +:+ "-" +:+ build +:+ ".zip".

(** Where the run changes the owner (not on macOS, and only if
    [core.getInput] gives the empty string for the fresh-sdk-installation
    input), the command of the host leaves the path [p] in place. *)
Definition chown_keeps (sys : Shell) (w : World) (home p : string) : Prop :=
  platform w ≠ "darwin" →
  Js.trim (Js.or_empty (inputs w !! "fresh-sdk-installation")) = "" →
  exists_path (fs (sys (chown_command home) (host w)).2) p = true.

(** ** More events of the script *)

(** Line 21: the report that ANDROID_HOME is missing. *)
Definition ANDROID_HOME_not_set : Event :=
  SetFailed ("ANDROID_HOME is a required environment variable and is not set."
             +:+ Js.newline +:+ "Please double check your host settings.").

(** Line 58: the directories of the command-line tools. *)
Definition cmdlineToolsPaths (home : string) : string :=
  (home +:+ "/cmdline-tools") +:+ "/tools:" +:+ (home +:+ "/cmdline-tools")
  +:+ "/tools/bin:" +:+ home +:+ "/platform-tools".

(** Line 75: build tools, platform tools and the platform of an API level. *)
Definition sdkmanager_install_build_tools (apiLevel : Z) : Event :=
  Exec ("sh -c \" +:+ Js.dquote +:+ "sdkmanager --install 'build-tools;"
        +:+ BUILD_TOOLS_VERSION +:+ "' platform-tools 'platforms;android-"
        +:+ pretty apiLevel +:+ "' > /dev/null" +:+ Js.dquote).

(** Line 87: the system image. *)
Definition sdkmanager_install_system_image (apiLevel : Z) (target arch : string) : Event :=
  Exec ("sh -c \" +:+ Js.dquote +:+ "sdkmanager --install 'system-images;android-"
        +:+ pretty apiLevel +:+ ";" +:+ target +:+ ";" +:+ arch
        +:+ "' > /dev/null" +:+ Js.dquote).

(** Line 91: the NDK. *)
Definition sdkmanager_install_ndk (version : string) : Event :=
  Exec ("sh -c \" +:+ Js.dquote +:+ "sdkmanager --install 'ndk;"
        +:+ version +:+ "' > /dev/null" +:+ Js.dquote).

(** Line 95: CMake. *)
Definition sdkmanager_install_cmake (version : string) : Event :=
  Exec ("sh -c \" +:+ Js.dquote +:+ "sdkmanager --install 'cmake;"
        +:+ version +:+ "' > /dev/null" +:+ Js.dquote).

(** Lines 75, 84, 87, 91 and 95: the package manager installs packages. *)
Definition installs_packages : Event → bool :=
  runs ("sh -c \" +:+ Js.dquote +:+ "sdkmanager --install ").

(** Line 110: a backup of the SDK home. *)
Definition backs_up : Event → bool := runs "mv ".

(** Lines 64 and 70: a file written by the script. *)
Definition is_write (e : Event) : Prop :=
  match e with
  | WriteFile _ _ => True
  | _ => False
  end.

(** ** The plans of the script *)

(** What a part of the script emits when each of its statements succeeds. *)

(** The events of a complete run of [acceptLicenses], lines 133-142. *)
Definition acceptLicensesEvents (home sdkHome : string) : list Event :=
  [ Log ("Accepting Android SDK licenses on " +:+ home);
    Exec ("mkdir -p " +:+ sdkHome);
    Exec ("touch " +:+ sdkHome +:+ "/repositories.cfg");
    Exec ("mkdir -p " +:+ home +:+ "/licenses");
    Exec ("sh -c \" +:+ Js.dquote +:+ "yes 'y' | " +:+ home
          +:+ "/tools/bin/sdkmanager --licenses > /dev/null" +:+ Js.dquote) ].

(** Lines 50-58: the installation of the command-line tools. *)
Definition cmdlineToolsEvents (isOnMac : bool) (home : string) : list Event :=
  [ Log "Installing new cmdline-tools.";
    MkdirP (home +:+ "/cmdline-tools");
    cmdline_tools_download (if isOnMac then CMDLINE_TOOLS_URL_MAC else CMDLINE_TOOLS_URL_LINUX);
    cmdline_tools_unpack (home +:+ "/cmdline-tools");
    RmRF "commandlinetools.zip";
    AddPath (cmdlineToolsPaths home) ].

(** Lines 73-96: the packages. *)
Definition packagesPlan (isOnMac : bool) (home : string) (apiLevel : Z)
    (target arch : string) (emulatorBuild ndkVersion cmakeVersion : option string)
    : list Event :=
  ([ Log "Installing latest build tools, platform tools, and platform.";
     sdkmanager_install_build_tools apiLevel ]
   ++ (if Js.truthy emulatorBuild then
         [ Log ("Installing emulator build " +:+ Js.tpl emulatorBuild +:+ ".");
           emulator_download (emulator_url isOnMac (Js.tpl emulatorBuild));
           RmRF (home +:+ "/emulator");
           emulator_unpack home;
           RmRF "emulator.zip" ]
       else
         [ Log "Installing latest emulator.";
           sdkmanager_install_emulator ])
   ++ [ Log "Installing system images.";
        sdkmanager_install_system_image apiLevel target arch ]
   ++ (if Js.truthy ndkVersion then
         [ Log ("Installing NDK " +:+ Js.tpl ndkVersion +:+ ".");
           sdkmanager_install_ndk (Js.tpl ndkVersion) ]
       else [])
   ++ (if Js.truthy cmakeVersion then
         [ Log ("Installing CMake " +:+ Js.tpl cmakeVersion +:+ ".");
           sdkmanager_install_cmake (Js.tpl cmakeVersion) ]
       else []))%list.

(** [o] follows the plan: its events are the first events of the plan,
    all of them when it ends normally, and it does not end by [return;]. *)
Definition follows {A} (plan : list Event) (o : Outcome A) : Prop :=
  events o `prefix_of` plan
  ∧ completion o ≠ Return_
  ∧ ∀ a, completion o = Normal a → events o = plan.

(** [o] starts with the plan, as far as it gets: with all of it unless it
    ends by an exception. *)
Definition starts_as {A} (plan : list Event) (o : Outcome A) : Prop :=
  (events o `prefix_of` plan ∨ plan `prefix_of` events o)
  ∧ ((∀ e, completion o ≠ Throw e) → plan `prefix_of` events o).

(** The steps of a run up to the command-line tools, lines 19-46. *)
Definition beforeCmdlineTools (sys : Shell) (isOnMac : bool) : M unit :=
  checkAndroidHome;; ensureBaseSdk sys;; configurePermissions sys isOnMac.

(** The steps of a run up to the packages, lines 19-71. *)
Definition beforePackages (sys : Shell) (isOnMac : bool) (apiLevel : Z) : M unit :=
  checkAndroidHome;; ensureBaseSdk sys;;
  configurePermissions sys isOnMac;; installCmdlineTools sys isOnMac;;
  writeLicenseFiles isOnMac apiLevel.

(** ** How a run ends *)

(** A statement that does not end normally: [None] for [return;],
    [Some e] for the exception [e]. *)
Definition abrupt {A} (c : Completion A) : option (option Error) :=
  match c with
  | Normal _ => None
  | Return_ => Some None
  | Throw e => Some (Some e)
  end.

(** [Stops cfg T m]: started in configuration [cfg], when [m] does not end
    normally, [T] holds of the events it has emitted and of how it ended. *)
Definition Stops {A} (cfg : Config) (T : list Event → option Error → Prop) (m : M A) : Prop :=
  ∀ w c, config w = cfg → abrupt (completion (m w)) = Some c → T (events (m w)) c.

(** Two ways [installAndroidSdk] ends before its last statement: the
    [return;] of line 22, and a command that has not succeeded, which is
    then the last thing the run did. *)
Definition early_end (sys : Shell) (cfg : Config)
    (evs : list Event) (c : option Error) : Prop :=
  match c with
  | None => Js.falsy (cfg_home cfg) = true
  | Some (ExecFailed cmd code) =>
      code ≠ 0 ∧ (∃ h, (sys cmd h).1 = code) ∧ last evs = Some (Exec cmd)
  | Some _ => True
  end.

(** ** What a run leaves as it is *)

(** [Changes vars m]: of the environment, [m] changes the variables [vars]
    at most. *)
Definition Changes {A} (vars : list string) (m : M A) : Prop :=
  ∀ w name, name ∉ vars → env (final (m w)) !! name = env w !! name.

(** [Keeps cfg I m]: started in configuration [cfg], [m] ends in a world
    related by [I] to the one it started in. *)
Definition Keeps {A} (cfg : Config) (I : World → World → Prop) (m : M A) : Prop :=
  ∀ w, config w = cfg → I w (final (m w)).

(** What a run exports: lines 108, 129 and 58. *)
Definition exports_of (home : string) (e : Event) : Prop :=
  match e with
  | ExportVariable name val =>
      (name = "ANDROID_SDK_HOME" ∧ val = home +:+ "/sdk_home")
      ∨ (name = "PATH" ∧ ∃ prior, val = extraPaths home +:+ ":" +:+ pathWithoutAndroid prior)
  | AddPath p => p = cmdlineToolsPaths home
  | _ => True
  end.

(** What the script asks of the file system by itself, with the paths as
    it writes them: [io.mkdirP] of line 52, [io.rmRF] of lines 55, 79 and
    81, [fs.writeFileSync] of lines 64 and 70.  Everything else is the
    commands' doing. *)
Definition own_operation (isOnMac : bool) (home : string) (apiLevel : Z)
    (emulatorBuild : option string) (e : Event) : Prop :=
  match e with
  | MkdirP p => p = home +:+ "/cmdline-tools"
  | RmRF p =>
      p = "commandlinetools.zip"
      ∨ (Js.truthy emulatorBuild = true
         ∧ (p = home +:+ "/emulator" ∨ p = "emulator.zip"))
  | WriteFile _ _ =>
      (e = sdkPreviewLicense home ∧ isOnMac = false)
      ∨ (e = sdkArmDbtLicense home ∧ apiLevel = 30)
  | _ => True
  end.

(** An optional package is asked for with the version given, and only if
    one is given. *)
Definition optional_of (ndkVersion cmakeVersion : option string) (e : Event) : Prop :=
  (∀ v, e = sdkmanager_install_ndk v → ndkVersion = Some v ∧ v ≠ "")
  ∧ (∀ v, e = sdkmanager_install_cmake v → cmakeVersion = Some v ∧ v ≠ "").

(** ** Hosts to run the script on *)

(** The rest of [s] after [pre], when [s] starts with it. *)
Fixpoint strip_prefix (pre s : string) : option string :=
  match pre, s with
  | "", _ => Some s
  | String a pre', String b s' => if Ascii.eqb a b then strip_prefix pre' s' else None
  | _, _ => None
  end.

(** A host on which [mkdir -p] makes the directory and every other command
    succeeds without touching a file; each command takes a millisecond. *)
Definition runner : Shell := λ cmd h,
  match strip_prefix "mkdir -p " cmd with
  | Some p => (0, mkHost (<[p := Dir]> (fs h)) (clock h + 1))
  | None => (0, mkHost (fs h) (clock h + 1))
  end.

(** A host on which the commands chosen by [bad] exit with 1. *)
Definition failing (bad : string → bool) : Shell := λ cmd h,
  (if bad cmd then 1 else 0, h).

(** A Linux runner without an SDK. *)
Definition linux_fresh : World :=
  mkWorld "linux" {[ "ANDROID_HOME" := "/sdk"; "PATH" := "/usr/bin:/opt/Android/tools" ]} ∅
    (mkHost ∅ 1600000000000).

(** A macOS runner whose search path already has the tools of the SDK
    directory it is about to fill. *)
Definition mac_with_old_path : World :=
  mkWorld "darwin"
    {[ "ANDROID_HOME" := "/Users/runner/Library/Android/sdk";
       "PATH" := "/Users/runner/Library/Android/sdk/tools:/usr/bin" ]} ∅
    (mkHost ∅ 1600000000000).

(** A Linux runner that has the SDK, its command-line tools and its
    licenses directory. *)
Definition linux_warm : World :=
  mkWorld "linux" {[ "ANDROID_HOME" := "/sdk"; "PATH" := "/usr/bin" ]} ∅
    (mkHost {[ "/sdk" := Dir; "/sdk/cmdline-tools" := Dir; "/sdk/licenses" := Dir ]}
       1600000000000).

(** A macOS runner that has the SDK, its command-line tools and its
    licenses directory. *)
Definition mac_warm : World :=
  mkWorld "darwin" {[ "ANDROID_HOME" := "/sdk"; "PATH" := "/usr/bin" ]} ∅
    (mkHost {[ "/sdk" := Dir; "/sdk/cmdline-tools" := Dir; "/sdk/licenses" := Dir ]}
       1600000000000).

(** A Linux runner that has the SDK and its command-line tools, but no
    licenses directory. *)
Definition linux_without_licenses : World :=
  mkWorld "linux" {[ "ANDROID_HOME" := "/sdk"; "PATH" := "/usr/bin" ]} ∅
    (mkHost {[ "/sdk" := Dir; "/sdk/cmdline-tools" := Dir ]} 1600000000000).

(** [linux_warm], with two spaces for the fresh-sdk-installation input. *)
Definition linux_warm_blank_input : World :=
  mkWorld "linux" {[ "ANDROID_HOME" := "/sdk"; "PATH" := "/usr/bin" ]}
    {[ "fresh-sdk-installation" := "  " ]}
    (mkHost {[ "/sdk" := Dir; "/sdk/cmdline-tools" := Dir; "/sdk/licenses" := Dir ]}
       1600000000000).

(** A Linux runner with an SDK directory that has an SDK home in it. *)
Definition linux_with_sdk_home : World :=
  mkWorld "linux" {[ "ANDROID_HOME" := "/sdk"; "PATH" := "/usr/bin" ]} ∅
    (mkHost {[ "/sdk" := Dir; "/sdk/sdk_home" := Dir;
               "/sdk/sdk_home/avd.ini" := File "avd" ]} 1600000000000).

(** ** Runs of the script *)

(** The end-to-end scenario: API level 30, google_apis, x86_64 on a Linux
    runner without an SDK. *)
Example installAndroidSdk_on_linux_fresh :
  let run := installAndroidSdk runner 30 "google_apis" "x86_64" None None None linux_fresh in
  completion run = Normal tt
  ∧ events run =
    [ Log "Installing Android SDK on /sdk";
      ExportVariable "ANDROID_SDK_HOME" "/sdk/sdk_home";
      Exec "curl -L https://dl.google.com/android/repository/sdk-tools-linux-4333796.zip -o /tmp/android-sdk.zip -s";
      Exec "unzip -q /tmp/android-sdk.zip -d /sdk";
      Exec "rm /tmp/android-sdk.zip";
      Exec "mkdir -p /sdk/sdk_home";
      ExportVariable "PATH"
        "/sdk/bin:/sdk/tools:/sdk/tools/bin:/sdk/platform-tools:/sdk/platform-tools/bin:/usr/bin";
      Log "Accepting Android SDK licenses on /sdk";
      Exec "mkdir -p /sdk/sdk_home";
      Exec "touch /sdk/sdk_home/repositories.cfg";
      Exec "mkdir -p /sdk/licenses";
      Exec ("sh -c \" +:+ Js.dquote
            +:+ "yes 'y' | /sdk/tools/bin/sdkmanager --licenses > /dev/null" +:+ Js.dquote);
      chown_step "/sdk";
      Log "Installing new cmdline-tools.";
      MkdirP "/sdk/cmdline-tools";
      cmdline_tools_download CMDLINE_TOOLS_URL_LINUX;
      cmdline_tools_unpack "/sdk/cmdline-tools";
      RmRF "commandlinetools.zip";
      AddPath "/sdk/cmdline-tools/tools:/sdk/cmdline-tools/tools/bin:/sdk/platform-tools";
      sdkPreviewLicense "/sdk";
      sdkArmDbtLicense "/sdk";
      Log "Installing latest build tools, platform tools, and platform.";
      Exec ("sh -c \" +:+ Js.dquote
            +:+ "sdkmanager --install 'build-tools;30.0.0' platform-tools 'platforms;android-30' > /dev/null"
            +:+ Js.dquote);
      Log "Installing latest emulator.";
      sdkmanager_install_emulator;
      Log "Installing system images.";
      Exec ("sh -c \" +:+ Js.dquote
            +:+ "sdkmanager --install 'system-images;android-30;google_apis;x86_64' > /dev/null"
            +:+ Js.dquote) ].
Proof. split; vm_compute; reflexivity. Qed.

(** A command that fails ends the run where it is. *)
Example installAndroidSdk_unzip_fails :
  let run := installAndroidSdk (failing (starts_with "unzip")) 30 "google_apis" "x86_64"
               None None None linux_fresh in
  completion run = Throw (ExecFailed "unzip -q /tmp/android-sdk.zip -d /sdk" 1)
  ∧ last (events run) = Some (base_sdk_unpack "/sdk").
Proof. split; vm_compute; reflexivity. Qed.

(** The kinds of fetch are those of the commands of lines 113, 114, 53
    and 54. *)
Lemma fetches_recognised url dir :
  downloads_base_sdk (base_sdk_download url) = true
  ∧ unpacks_base_sdk (base_sdk_unpack dir) = true
  ∧ downloads_cmdline_tools (cmdline_tools_download url) = true
  ∧ unpacks_cmdline_tools (cmdline_tools_unpack dir) = true.
Proof. repeat split. Qed.

(** ** Running a sequence *)

Lemma events_bind {A B} (m : M A) (k : A → M B) w :
  events ((m ≫= k) w) =
  (events (m w) ++
   match completion (m w) with
   | Normal a => events (k a (final (m w)))
   | _ => []
   end)%list.
Proof.
  unfold mbind, M_bind, bind.
  destruct (completion (m w)); simpl; [done | | ]; by rewrite app_nil_r.
Qed.

Lemma completion_bind {A B} (m : M A) (k : A → M B) w :
  completion ((m ≫= k) w) =
  match completion (m w) with
  | Normal a => completion (k a (final (m w)))
  | Return_ => Return_
  | Throw e => Throw e
  end.
Proof. unfold mbind, M_bind, bind. by destruct (completion (m w)). Qed.

Lemma final_bind {A B} (m : M A) (k : A → M B) w :
  final ((m ≫= k) w) =
  match completion (m w) with
  | Normal a => final (k a (final (m w)))
  | _ => final (m w)
  end.
Proof. unfold mbind, M_bind, bind. by destruct (completion (m w)). Qed.

Lemma bind_assoc {A B C} (m : M A) (k : A → M B) (h : B → M C) w :
  ((m ≫= k) ≫= h) w = (m ≫= λ a, k a ≫= h) w.
Proof.
  unfold mbind, M_bind, bind.
  destruct (completion (m w)); simpl; [ | done | done].
  destruct (completion (k a (final (m w)))); simpl; [ | done | done].
  by rewrite app_assoc.
Qed.

Lemma bind_ext {A B} (m : M A) (k k' : A → M B) w :
  (∀ a w', k a w' = k' a w') → (m ≫= k) w = (m ≫= k') w.
Proof.
  intros Hk. unfold mbind, M_bind, bind.
  destruct (completion (m w)); [by rewrite Hk | done | done].
Qed.

Lemma bind_Normal {A B} (m : M A) (k : A → M B) w evs w' a :
  m w = mkOutcome evs w' (Normal a) → (m ≫= k) w = prepend evs (k a w').
Proof. intros Hm. unfold mbind, M_bind, bind. by rewrite Hm. Qed.

Lemma bind_Return {A B} (m : M A) (k : A → M B) w evs w' :
  m w = mkOutcome evs w' Return_ → (m ≫= k) w = mkOutcome evs w' Return_.
Proof. intros Hm. unfold mbind, M_bind, bind. by rewrite Hm. Qed.

Lemma bind_Throw {A B} (m : M A) (k : A → M B) w evs w' e :
  m w = mkOutcome evs w' (Throw e) → (m ≫= k) w = mkOutcome evs w' (Throw e).
Proof. intros Hm. unfold mbind, M_bind, bind. by rewrite Hm. Qed.

Lemma bind_reaches {A B} (m : M A) (k : A → M B) w a w' :
  reaches m w a w' →
  (m ≫= k) w =
  mkOutcome (events (m w) ++ events (k a w'))%list (final (k a w')) (completion (k a w')).
Proof.
  intros [Hc <-]. unfold mbind, M_bind, bind. by rewrite Hc.
Qed.

Lemma events_call body w : events (call body w) = events (body w).
Proof. unfold call. by destruct (completion (body w)). Qed.

Lemma final_call body w : final (call body w) = final (body w).
Proof. unfold call. by destruct (completion (body w)). Qed.

Lemma completion_call body w :
  completion (call body w) =
  match completion (body w) with
  | Return_ => Normal tt
  | c => c
  end.
Proof. unfold call. by destruct (body w) as [evs w' [[]| |e]]. Qed.

(** Regrouping a sequence of statements at a point of it. *)
Ltac regroup :=
  repeat first
    [ reflexivity
    | rewrite bind_assoc
    | apply bind_ext; intros ? ? ].

Lemma prepend_nil {A} (o : Outcome A) : prepend [] o = o.
Proof. by destruct o. Qed.

Lemma bind_ret_r {A} (m : M A) w : (m ≫= mret) w = m w.
Proof.
  unfold mbind, M_bind, bind. destruct (m w) as [evs w' [a| |e]]; simpl; [ | done | done].
  by rewrite app_nil_r.
Qed.

(** ** Running the script step by step *)

Section Steps.

Variable sys : Shell.
Context {A B : Type}.
Implicit Types (k : A → M B) (h : unit → M B) (Q : Outcome B → Prop).

Lemma wp_last (m : M B) w Q : wp (m ≫= mret) w Q → wp m w Q.
Proof. unfold wp. by rewrite bind_ret_r. Qed.

Lemma wp_assoc {C} (m : M C) (f : C → M A) k w Q :
  wp (m ≫= λ c, f c ≫= k) w Q → wp ((m ≫= f) ≫= k) w Q.
Proof. unfold wp. by rewrite bind_assoc. Qed.

Lemma wp_ret (b : B) w Q : Q (mkOutcome [] w (Normal b)) → wp (mret b) w Q.
Proof. done. Qed.

Lemma wp_bind_ret (a : A) k w Q : wp (k a) w Q → wp (mret a ≫= k) w Q.
Proof. unfold wp. by rewrite (bind_Normal _ _ w [] w a), prepend_nil. Qed.

Lemma wp_bind_return k w Q : Q (mkOutcome [] w Return_) → wp (return_ ≫= k) w Q.
Proof. unfold wp. by rewrite (bind_Return _ _ w [] w). Qed.

Lemma wp_bind_emit e h w Q :
  wp (h tt) w (λ o, Q (prepend [e] o)) → wp (emit e ≫= h) w Q.
Proof. unfold wp. by rewrite (bind_Normal _ _ w [e] w tt). Qed.

Lemma wp_bind_exportVariable name val h w Q :
  wp (h tt) (set_env <[name := val]> w) (λ o, Q (prepend [ExportVariable name val] o)) →
  wp (core_exportVariable name val ≫= h) w Q.
Proof. unfold wp. by rewrite (bind_Normal _ _ w _ _ tt eq_refl). Qed.

Lemma wp_bind_addPath p h w Q :
  wp (h tt) (set_env (λ e, <["PATH" := p +:+ ":" +:+ Js.tpl (e !! "PATH")]> e) w)
    (λ o, Q (prepend [AddPath p] o)) →
  wp (core_addPath p ≫= h) w Q.
Proof. unfold wp. by rewrite (bind_Normal _ _ w _ _ tt eq_refl). Qed.

Lemma wp_bind_rmRF p h w Q :
  wp (h tt) (set_fs (filter (λ kv : string * Node, under p kv.1 = false)) w)
    (λ o, Q (prepend [RmRF p] o)) →
  wp (io_rmRF p ≫= h) w Q.
Proof. unfold wp. by rewrite (bind_Normal _ _ w _ _ tt eq_refl). Qed.

Lemma wp_bind_exec cmd h w Q :
  ((sys cmd (host w)).1 = 0 →
   wp (h tt) (set_host (sys cmd (host w)).2 w) (λ o, Q (prepend [Exec cmd] o))) →
  (∀ code, (sys cmd (host w)).1 = code → code ≠ 0 →
   Q (mkOutcome [Exec cmd] (set_host (sys cmd (host w)).2 w)
        (Throw (ExecFailed cmd code)))) →
  wp (exec_exec sys cmd ≫= h) w Q.
Proof.
  intros Hok Hfail. unfold wp.
  destruct (decide ((sys cmd (host w)).1 = 0)) as [Hz|Hnz].
  - rewrite (bind_Normal _ _ w [Exec cmd] (set_host (sys cmd (host w)).2 w) tt).
    + by apply Hok.
    + unfold exec_exec. by rewrite decide_True.
  - rewrite (bind_Throw _ _ w [Exec cmd] (set_host (sys cmd (host w)).2 w)
               (ExecFailed cmd (sys cmd (host w)).1)).
    + by apply Hfail.
    + unfold exec_exec. by rewrite decide_False.
Qed.

End Steps.

Section PureSteps.

Context {B : Type}.
Implicit Types (Q : Outcome B → Prop).

Lemma wp_bind_when (b : bool) (m : M unit) (h : unit → M B) w Q :
  (b = true → wp (m ≫= h) w Q) → (b = false → wp (h tt) w Q) →
  wp (when_ b m ≫= h) w Q.
Proof. destruct b; simpl; [auto | ]. intros _ Hf. apply wp_bind_ret. auto. Qed.

Lemma wp_bind_platform (k : string → M B) w Q :
  wp (k (platform w)) w Q → wp (process_platform ≫= k) w Q.
Proof. unfold wp. by rewrite (bind_Normal _ _ w [] w (platform w)), prepend_nil. Qed.

Lemma wp_bind_env name (k : option string → M B) w Q :
  wp (k (env w !! name)) w Q → wp (process_env name ≫= k) w Q.
Proof. unfold wp. by rewrite (bind_Normal _ _ w [] w (env w !! name)), prepend_nil. Qed.

Lemma wp_bind_env_tpl name (k : string → M B) w Q :
  wp (k (Js.tpl (env w !! name))) w Q → wp (env_tpl name ≫= k) w Q.
Proof.
  unfold wp. by rewrite (bind_Normal _ _ w [] w (Js.tpl (env w !! name))), prepend_nil.
Qed.

Lemma wp_bind_getInput name (k : string → M B) w Q :
  wp (k (Js.trim (Js.or_empty (inputs w !! name)))) w Q →
  wp (core_getInput name ≫= k) w Q.
Proof.
  unfold wp.
  by rewrite (bind_Normal _ _ w [] w (Js.trim (Js.or_empty (inputs w !! name)))),
       prepend_nil.
Qed.

Lemma wp_bind_now (k : Z → M B) w Q :
  wp (k (clock (host w))) w Q → wp (Date_now ≫= k) w Q.
Proof. unfold wp. by rewrite (bind_Normal _ _ w [] w (clock (host w))), prepend_nil. Qed.

Lemma wp_bind_existsSync p (k : bool → M B) w Q :
  wp (k (exists_path (fs (host w)) p)) w Q → wp (fs_existsSync p ≫= k) w Q.
Proof.
  unfold wp.
  by rewrite (bind_Normal _ _ w [] w (exists_path (fs (host w)) p)), prepend_nil.
Qed.

Lemma wp_bind_existsSync_val v (k : bool → M B) w Q :
  wp (k (match v with
         | Some p => exists_path (fs (host w)) p
         | None => false
         end)) w Q →
  wp (fs_existsSync_val v ≫= k) w Q.
Proof. destruct v; [apply wp_bind_existsSync | apply wp_bind_ret]. Qed.

Lemma wp_bind_mkdirP p (h : unit → M B) w Q :
  wp (h tt)
    (set_fs (λ f, foldr (λ d g, <[d := Dir]> g) f (ancestors p ++ [p])%list) w)
    (λ o, Q (prepend [MkdirP p] o)) →
  (∀ e, Q (mkOutcome [MkdirP p] w (Throw e))) →
  wp (io_mkdirP p ≫= h) w Q.
Proof.
  intros Hok Hfail. unfold wp.
  destruct (existsb (λ d, is_file (fs (host w) !! d)) (ancestors p)) eqn:Hfind.
  - rewrite (bind_Throw _ _ w [MkdirP p] w (ENOTDIR p)); [by apply Hfail | ].
    unfold io_mkdirP. by rewrite Hfind.
  - destruct (is_file (fs (host w) !! p)) eqn:Hp.
    + rewrite (bind_Throw _ _ w [MkdirP p] w (EEXIST p)); [by apply Hfail | ].
      unfold io_mkdirP. by rewrite Hfind, Hp.
    + rewrite (bind_Normal _ _ w [MkdirP p]
                 (set_fs (λ f, foldr (λ d g, <[d := Dir]> g) f (ancestors p ++ [p])%list) w)
                 tt); [by apply Hok | ].
      unfold io_mkdirP. by rewrite Hfind, Hp.
Qed.

Lemma wp_bind_writeFileSync p data (h : unit → M B) w Q :
  is_dir (fs (host w) !! p) = false →
  (is_dir (fs (host w) !! dirname p) = true →
   wp (h tt) (set_fs <[p := File data]> w) (λ o, Q (prepend [WriteFile p data] o))) →
  (fs (host w) !! dirname p = None → Q (mkOutcome [] w (Throw (ENOENT p)))) →
  (is_file (fs (host w) !! dirname p) = true → Q (mkOutcome [] w (Throw (ENOTDIR p)))) →
  wp (fs_writeFileSync p data ≫= h) w Q.
Proof.
  intros Hp Hok Hnone Hfile. unfold wp.
  destruct (fs (host w) !! dirname p) as [[|c]|] eqn:Hd.
  - rewrite (bind_Normal _ _ w [WriteFile p data] (set_fs <[p := File data]> w) tt).
    + by apply Hok.
    + unfold fs_writeFileSync. by rewrite Hp, Hd.
  - rewrite (bind_Throw _ _ w [] w (ENOTDIR p)).
    + by apply Hfile.
    + unfold fs_writeFileSync. by rewrite Hp, Hd.
  - rewrite (bind_Throw _ _ w [] w (ENOENT p)).
    + by apply Hnone.
    + unfold fs_writeFileSync. by rewrite Hp, Hd.
Qed.

End PureSteps.

(** One statement of the script. *)
Ltac wp_step :=
  cbv beta zeta iota;
  lazymatch goal with
  | |- wp ((_ ≫= _) ≫= _) _ _ => apply wp_assoc
  | |- wp (mret _ ≫= _) _ _ => apply wp_bind_ret
  | |- wp (return_ ≫= _) _ _ => apply wp_bind_return
  | |- wp (process_platform ≫= _) _ _ => apply wp_bind_platform
  | |- wp (process_env _ ≫= _) _ _ => apply wp_bind_env
  | |- wp (env_tpl _ ≫= _) _ _ => apply wp_bind_env_tpl
  | |- wp (core_getInput _ ≫= _) _ _ => apply wp_bind_getInput
  | |- wp (Date_now ≫= _) _ _ => apply wp_bind_now
  | |- wp (fs_existsSync _ ≫= _) _ _ => apply wp_bind_existsSync
  | |- wp (fs_existsSync_val _ ≫= _) _ _ => apply wp_bind_existsSync_val
  | |- wp (console_log _ ≫= _) _ _ => apply wp_bind_emit
  | |- wp (core_setFailed _ ≫= _) _ _ => apply wp_bind_emit
  | |- wp (emit _ ≫= _) _ _ => apply wp_bind_emit
  | |- wp (core_exportVariable _ _ ≫= _) _ _ => apply wp_bind_exportVariable
  | |- wp (core_addPath _ ≫= _) _ _ => apply wp_bind_addPath
  | |- wp (io_rmRF _ ≫= _) _ _ => apply wp_bind_rmRF
  | |- wp (mret _) _ _ => apply wp_ret
  end.

Ltac wp_steps := repeat wp_step.

Ltac outcome_simpl :=
  cbn [prepend events final completion app
       platform env inputs host fs clock set_env set_host set_fs].

(** A command: goes on when it exits with 0; [fin] proves the goal for the
    run that ends there otherwise. *)
Ltac wp_exec fin :=
  cbv zeta; apply wp_bind_exec;
  [ intros _ | intros ? _ _; fin ].

(** ** Invariants of a run *)

Section Always.

Variable sys : Shell.
Variable cfg : Config.
Variable P : Event → Prop.

Lemma Always_bind {A B} (R : A → Prop) (R' : B → Prop) (m : M A) (k : A → M B) :
  Always cfg P R m → (∀ a, R a → Always cfg P R' (k a)) → Always cfg P R' (m ≫= k).
Proof.
  intros Hm Hk w Hw. destruct (Hm w Hw) as (He & Hf & Hr & Henv).
  unfold env_kept. rewrite events_bind, completion_bind, final_bind.
  destruct (completion (m w)) as [a| |e] eqn:Hc.
  - destruct (Hk a (Hr a eq_refl) _ Hf) as (He' & Hf' & Hr' & Henv').
    split; [by apply Forall_app | ]. split; [done | ]. split; [done | ].
    destruct Henv' as [Henv' | Hx]; [ | right; apply Exists_app; by right].
    destruct Henv as [Henv | Hx]; [ | right; apply Exists_app; by left].
    left. congruence.
  - rewrite app_nil_r. done.
  - rewrite app_nil_r. done.
Qed.

Lemma Always_weaken {A} (R R' : A → Prop) (m : M A) :
  Always cfg P R m → (∀ a, R a → R' a) → Always cfg P R' m.
Proof.
  intros Hm HR w Hw. destruct (Hm w Hw) as (He & Hf & Hr & Henv).
  repeat split; [done | done | eauto | done].
Qed.

(** A step that emits nothing and changes nothing. *)
Lemma Always_pure {A} (R : A → Prop) (m : M A) :
  (∀ w, events (m w) = [] ∧ final (m w) = w) →
  (∀ w a, config w = cfg → completion (m w) = Normal a → R a) →
  Always cfg P R m.
Proof.
  intros Hm HR w Hw. destruct (Hm w) as [Hev Hfin]. unfold env_kept.
  rewrite Hev, Hfin. repeat split; [constructor | done | eauto | by left].
Qed.

(** A step that emits one event and leaves the environment as it is. *)
Lemma Always_event (m : M unit) e :
  (∀ w, events (m w) = [e] ∧ env (final (m w)) = env w
        ∧ platform (final (m w)) = platform w ∧ inputs (final (m w)) = inputs w) →
  P e → Always cfg P (λ _, True) m.
Proof.
  intros Hm He w Hw. destruct (Hm w) as (Hev & Henv & Hplat & Hin). unfold env_kept.
  rewrite Hev. repeat split; [by repeat constructor | | by left].
  rewrite <- Hw. unfold config. by rewrite Henv, Hplat, Hin.
Qed.

Lemma Always_ret {A} (a : A) : Always cfg P (λ x, x = a) (mret a).
Proof. apply Always_pure; [done | by intros w x _ [= <-]]. Qed.

Lemma Always_return {A} : Always cfg P (λ _ : A, False) return_.
Proof. by apply Always_pure. Qed.

Lemma Always_emit e : P e → Always cfg P (λ _, True) (emit e).
Proof. by apply Always_event. Qed.

Lemma Always_log msg : P (Log msg) → Always cfg P (λ _, True) (console_log msg).
Proof. apply Always_emit. Qed.

Lemma Always_setFailed msg :
  P (SetFailed msg) → Always cfg P (λ _, True) (core_setFailed msg).
Proof. apply Always_emit. Qed.

Lemma Always_exportVariable name val :
  name ≠ "ANDROID_HOME" → P (ExportVariable name val) →
  Always cfg P (λ _, True) (core_exportVariable name val).
Proof.
  intros Hn He w Hw. unfold env_kept.
  repeat split; [by repeat constructor | | right; by repeat constructor].
  rewrite <- Hw. unfold config; simpl. by rewrite lookup_insert_ne.
Qed.

Lemma Always_addPath p : P (AddPath p) → Always cfg P (λ _, True) (core_addPath p).
Proof.
  intros He w Hw. unfold env_kept.
  repeat split; [by repeat constructor | | right; by repeat constructor].
  rewrite <- Hw. unfold config; simpl. by rewrite lookup_insert_ne.
Qed.

Lemma Always_getInput name :
  Always cfg P (λ v, v = Js.trim (Js.or_empty (cfg_inputs cfg !! name)))
    (core_getInput name).
Proof. apply Always_pure; [done | ]. intros w a Hw [= <-]. by rewrite <- Hw. Qed.

Lemma Always_platform : Always cfg P (λ v, v = cfg_platform cfg) process_platform.
Proof. apply Always_pure; [done | ]. intros w a Hw [= <-]. by rewrite <- Hw. Qed.

Lemma Always_env name : Always cfg P (λ _, True) (process_env name).
Proof. by apply Always_pure. Qed.

Lemma Always_env_home :
  Always cfg P (λ v, v = cfg_home cfg) (process_env "ANDROID_HOME").
Proof. apply Always_pure; [done | ]. intros w a Hw [= <-]. by rewrite <- Hw. Qed.

Lemma Always_env_tpl name : Always cfg P (λ _, True) (env_tpl name).
Proof. by apply Always_pure. Qed.

Lemma Always_env_tpl_home :
  Always cfg P (λ v, v = Js.tpl (cfg_home cfg)) (env_tpl "ANDROID_HOME").
Proof. apply Always_pure; [done | ]. intros w a Hw [= <-]. by rewrite <- Hw. Qed.

Lemma Always_now : Always cfg P (λ _, True) Date_now.
Proof. by apply Always_pure. Qed.

Lemma Always_existsSync p : Always cfg P (λ _, True) (fs_existsSync p).
Proof. by apply Always_pure. Qed.

Lemma Always_existsSync_val v : Always cfg P (λ _, True) (fs_existsSync_val v).
Proof. destruct v; [apply Always_existsSync | by apply Always_pure]. Qed.

Lemma Always_writeFileSync p data :
  P (WriteFile p data) → Always cfg P (λ _, True) (fs_writeFileSync p data).
Proof.
  intros He w Hw. unfold fs_writeFileSync, env_kept.
  destruct (is_dir (fs (host w) !! p));
    [repeat split; [constructor | done | by left] | ].
  destruct (fs (host w) !! dirname p) as [[|c]|];
    repeat split; try done; try (by left). by repeat constructor.
Qed.

Lemma Always_mkdirP p : P (MkdirP p) → Always cfg P (λ _, True) (io_mkdirP p).
Proof.
  intros He w Hw. unfold io_mkdirP, env_kept.
  destruct (existsb _ _); [ | destruct (is_file _)];
    repeat split; try done; try (by left); by repeat constructor.
Qed.

Lemma Always_rmRF p : P (RmRF p) → Always cfg P (λ _, True) (io_rmRF p).
Proof. by apply Always_event. Qed.

Lemma Always_exec cmd : P (Exec cmd) → Always cfg P (λ _, True) (exec_exec sys cmd).
Proof. by apply Always_event. Qed.

Lemma Always_when (b : bool) m :
  (b = true → Always cfg P (λ _, True) m) → Always cfg P (λ _, True) (when_ b m).
Proof.
  destruct b; simpl; [auto | intros _].
  eapply Always_weaken; [apply Always_ret | done].
Qed.

Lemma Always_call body :
  Always cfg P (λ _, True) body → Always cfg P (λ _, True) (call body).
Proof.
  intros Hb w Hw. destruct (Hb w Hw) as (He & Hf & _ & Henv).
  unfold env_kept. rewrite events_call, final_call. done.
Qed.

End Always.

(** Proving [Always] along the text of the script: [side] proves that an
    emitted event satisfies the predicate. *)
Ltac head_of t :=
  lazymatch t with
  | ?f _ => head_of f
  | _ => t
  end.

Ltac always_leaf side :=
  first
    [ apply Always_ret
    | apply Always_return
    | apply Always_env_home
    | apply Always_env_tpl_home
    | apply Always_env
    | apply Always_env_tpl
    | apply Always_getInput
    | apply Always_platform
    | apply Always_now
    | apply Always_existsSync
    | apply Always_existsSync_val
    | apply Always_log; side
    | apply Always_setFailed; side
    | apply Always_exportVariable; [discriminate | side]
    | apply Always_addPath; side
    | apply Always_writeFileSync; side
    | apply Always_mkdirP; side
    | apply Always_rmRF; side
    | apply Always_exec; side ].

Ltac always_go side :=
  cbv zeta;
  lazymatch goal with
  | |- Always _ _ _ (_ ≫= _) =>
      eapply Always_bind;
      [ always_go side
      | let a := fresh "a" in let Ha := fresh "Ha" in
        intros a Ha; cbv beta in Ha; try subst a; always_go side ]
  | |- Always _ _ _ (when_ _ _) =>
      first [ apply Always_when | eapply Always_weaken; [apply Always_when | done] ];
      let Hb := fresh "Hb" in
      intros Hb; first [ cbn in Hb; discriminate Hb | always_go side ]
  | |- Always _ _ _ (if ?b then _ else _) =>
      let Hb := fresh "Hb" in destruct b eqn:Hb; always_go side
  | |- Always _ _ _ (call _) =>
      apply Always_call; always_go side
  | |- Always _ _ _ ?m =>
      first
        [ always_leaf side
        | eapply Always_weaken; [always_leaf side | done]
        | let h := head_of m in unfold h; always_go side ]
  end.

Section Helpers.

Variable sys : Shell.

Lemma installBaseSdk_Always cfg P :
  (∀ msg, P (Log msg)) → (∀ n v, P (ExportVariable n v)) → (∀ cmd, P (Exec cmd)) →
  Always cfg P (λ b, b = true) (installBaseSdk sys).
Proof. intros Hl Hx He. always_go ltac:(auto). Qed.

Lemma acceptLicenses_Always cfg P :
  (∀ msg, P (Log msg)) → (∀ cmd, P (Exec cmd)) →
  Always cfg P (λ b, b = true) (acceptLicenses sys).
Proof. intros Hl He. always_go ltac:(auto). Qed.

End Helpers.

(** ** The helpers report success (C3) *)

(** On a host whose commands all exit with 0 the helpers return, and they
    return [true], whatever the commands do to the host. *)
Lemma helpers_return (sys : Shell) w :
  (∀ cmd h, (sys cmd h).1 = 0) →
  completion (installBaseSdk sys w) = Normal true
  ∧ completion (acceptLicenses sys w) = Normal true.
Proof.
  intros Hzero.
  assert (∀ cmd (h : unit → M bool) w' Q,
            wp (h tt) (set_host (sys cmd (host w')).2 w')
              (λ o, Q (prepend [Exec cmd] o)) →
            wp (exec_exec sys cmd ≫= h) w' Q) as Hexec.
  { intros cmd h w' Q Hok. apply wp_bind_exec; [done | ].
    intros code Hcode Hne. by rewrite Hzero in Hcode. }
  split.
  - change (wp (installBaseSdk sys) w (λ o, completion o = Normal true)).
    unfold installBaseSdk. wp_steps.
    apply wp_bind_when; intros _; wp_steps; repeat (apply Hexec; wp_steps); done.
  - change (wp (acceptLicenses sys) w (λ o, completion o = Normal true)).
    unfold acceptLicenses. wp_steps. repeat (apply Hexec; wp_steps). done.
Qed.

(** C3.  [installBaseSdk] and [acceptLicenses] return [true] whenever they
    return, whatever the commands they issued did to the host (and they do
    return when those commands exit with 0); so no run of
    [installAndroidSdk] reports 'Could not install base Android SDK.' or
    'Could not accept Android SDK licenses.'. *)
Theorem helpers_report_success (sys : Shell) :
  (∀ w b, completion (installBaseSdk sys w) = Normal b → b = true)
  ∧ (∀ w b, completion (acceptLicenses sys w) = Normal b → b = true)
  ∧ ((∀ cmd h, (sys cmd h).1 = 0) →
     ∀ w, completion (installBaseSdk sys w) = Normal true
          ∧ completion (acceptLicenses sys w) = Normal true)
  ∧ ∀ apiLevel target arch emulatorBuild ndkVersion cmakeVersion w,
      Forall not_reported
        (events (installAndroidSdk sys apiLevel target arch
                   emulatorBuild ndkVersion cmakeVersion w)).
Proof.
  split; [ | split; [ | split]].
  - intros w b Hb.
    by apply (installBaseSdk_Always sys (config w) (λ _, True)) in Hb.
  - intros w b Hb.
    by apply (acceptLicenses_Always sys (config w) (λ _, True)) in Hb.
  - intros Hzero w. by apply helpers_return.
  - intros apiLevel target arch emulatorBuild ndkVersion cmakeVersion w.
    assert (Always (config w) not_reported (λ _, True)
              (installAndroidSdk sys apiLevel target arch
                 emulatorBuild ndkVersion cmakeVersion)) as H.
    { always_go ltac:(split; discriminate). }
    by apply H.
Qed.

Lemma helpers_report_success_witness :
  (∃ b, completion (installBaseSdk runner linux_fresh) = Normal b ∧ b = true)
  ∧ completion (acceptLicenses runner linux_fresh) = Normal true.
Proof.
  assert (completion (installBaseSdk runner linux_fresh) = Normal true) as Hc
    by (vm_compute; reflexivity).
  assert (∀ cmd h, (runner cmd h).1 = 0) as Hzero.
  { intros cmd h. unfold runner. by destruct (strip_prefix _ _). }
  split.
  - exists true. split; [exact Hc | ].
    exact (proj1 (helpers_report_success runner) linux_fresh true Hc).
  - exact (proj2 (proj1 (proj2 (proj2 (helpers_report_success runner))) Hzero linux_fresh)).
Defined.

(** ** Without ANDROID_HOME (C2) *)

(** C2.  When ANDROID_HOME is unset or empty, [installAndroidSdk] reports
    the configuration error and returns: that report is its only event (no
    command is run, nothing is downloaded, no file is written, no variable
    is exported) and the world is left as it was. *)
Theorem installAndroidSdk_without_ANDROID_HOME
    (sys : Shell) apiLevel target arch emulatorBuild ndkVersion cmakeVersion w :
  Js.falsy (env w !! "ANDROID_HOME") = true →
  installAndroidSdk sys apiLevel target arch emulatorBuild ndkVersion cmakeVersion w =
  mkOutcome
    [SetFailed ("ANDROID_HOME is a required environment variable and is not set."
                +:+ Js.newline +:+ "Please double check your host settings.")]
    w (Normal tt).
Proof.
  intros Hhome.
  assert (checkAndroidHome w =
          mkOutcome
            [SetFailed ("ANDROID_HOME is a required environment variable and is not set."
                        +:+ Js.newline +:+ "Please double check your host settings.")]
            w Return_) as Hcheck.
  { unfold checkAndroidHome.
    rewrite (bind_Normal _ _ w [] w (env w !! "ANDROID_HOME")) by done.
    by rewrite Hhome. }
  unfold installAndroidSdk, call.
  rewrite (bind_Normal _ _ w [] w (platform w)) by done.
  cbv zeta. by rewrite (bind_Return _ _ _ _ _ Hcheck).
Qed.

Lemma installAndroidSdk_without_ANDROID_HOME_witness :
  let w := mkWorld "linux" {[ "ANDROID_HOME" := "" ]} ∅ (mkHost ∅ 0) in
  events (installAndroidSdk runner 30 "google_apis" "x86_64" None None None w) =
    [SetFailed ("ANDROID_HOME is a required environment variable and is not set."
                +:+ Js.newline +:+ "Please double check your host settings.")]
  ∧ final (installAndroidSdk runner 30 "google_apis" "x86_64" None None None w) = w.
Proof.
  intros w.
  rewrite (installAndroidSdk_without_ANDROID_HOME
             runner 30 "google_apis" "x86_64" None None None w);
    [ split; reflexivity | reflexivity ].
Defined.

(** ** Strings *)

Lemma length_append (a b : string) :
  String.length (a +:+ b) = (String.length a + String.length b)%nat.
Proof. induction a as [|x a IH]; simpl; [done | by rewrite IH]. Qed.

Lemma append_inj_r (a b c : string) : a +:+ c = b +:+ c → a = b.
Proof.
  revert b. induction a as [|x a IH]; intros [|y b] H; simpl in H.
  - done.
  - apply (f_equal String.length) in H. rewrite !length_append in H. simpl in H. lia.
  - apply (f_equal String.length) in H. rewrite !length_append in H. simpl in H. lia.
  - injection H as -> H. by rewrite (IH b H).
Qed.

(** ** Splitting and joining a search path *)

Lemma split_not_nil c s : Js.split c s ≠ [].
Proof.
  destruct s as [|a s]; simpl; [done | ].
  destruct (Ascii.eqb a c); [done | ]. by destruct (Js.split c s).
Qed.

(** Splitting at a separator splits both sides of it. *)
Lemma split_app c a b :
  Js.split c (a +:+ String c b) = (Js.split c a ++ Js.split c b)%list.
Proof.
  induction a as [|x a IH]; simpl.
  - by rewrite Ascii.eqb_refl.
  - destruct (Ascii.eqb x c); [by rewrite IH | ].
    rewrite IH. pose proof (split_not_nil c a). by destruct (Js.split c a).
Qed.

(** A segment has no separator in it. *)
Lemma split_segment c s seg : seg ∈ Js.split c s → Js.split c seg = [seg].
Proof.
  revert seg. induction s as [|a s IH]; simpl; intros seg Hin.
  - by apply list_elem_of_singleton in Hin as ->.
  - destruct (Ascii.eqb a c) eqn:Hac.
    + apply elem_of_cons in Hin as [-> | Hin]; [done | by apply IH].
    + pose proof (split_not_nil c s).
      destruct (Js.split c s) as [|seg0 segs]; [done | ].
      apply elem_of_cons in Hin as [-> | Hin].
      * simpl. rewrite Hac, (IH seg0); [done | by left].
      * apply IH. by right.
Qed.

Lemma split_join c l :
  l ≠ [] → (∀ seg, seg ∈ l → Js.split c seg = [seg]) →
  Js.split c (Js.join (String c "") l) = l.
Proof.
  induction l as [|s l IH]; [done | intros _ Hl].
  destruct l as [|s' l].
  - simpl. apply Hl. by left.
  - change (Js.join (String c "") (s :: s' :: l))
      with (s +:+ String c (Js.join (String c "") (s' :: l))).
    rewrite split_app, IH, (Hl s); [done | by left | done | ].
    intros seg Hseg. apply Hl. by right.
Qed.

(** The segments of the filtered path: those of the prior path without
    "Android", or one empty segment when none is left. *)
Lemma split_pathWithoutAndroid path :
  Js.split ":" (pathWithoutAndroid path) =
  match filter (λ entry, Js.includes "Android" entry = false) (Js.split ":" path) with
  | [] => [""]
  | kept => kept
  end.
Proof.
  unfold pathWithoutAndroid.
  destruct (filter _ _) as [|s l] eqn:Hf; [done | ].
  apply split_join; [done | ].
  intros seg Hseg. rewrite <- Hf in Hseg.
  apply list_elem_of_filter in Hseg as [_ Hseg]. by apply split_segment in Hseg.
Qed.

Lemma pathWithoutAndroid_segment path seg :
  seg ∈ Js.split ":" (pathWithoutAndroid path) → Js.includes "Android" seg = false.
Proof.
  rewrite split_pathWithoutAndroid.
  destruct (filter _ _) as [|s l] eqn:Hf.
  - by intros ->%list_elem_of_singleton.
  - rewrite <- Hf. by intros [? _]%list_elem_of_filter.
Qed.

(** ** The base installer *)

(** What a run of [installBaseSdk] emits, and the environment it leaves
    when it returns. *)
Lemma installBaseSdk_run (sys : Shell) w :
  let home := Js.tpl (env w !! "ANDROID_HOME") in
  let prior := Js.or_empty (env w !! "PATH") in
  let plan :=
    baseSdkEvents (String.eqb (platform w) "darwin") home
      (if exists_path (fs (host w)) (home +:+ "/sdk_home")
       then Some (clock (host w)) else None)
      prior in
  let o := installBaseSdk sys w in
  events o `prefix_of` plan
  ∧ ∀ b, completion o = Normal b →
      b = true ∧ events o = plan
      ∧ env (final o) =
        <["PATH" := extraPaths home +:+ ":" +:+ pathWithoutAndroid prior]>
          (<["ANDROID_SDK_HOME" := home +:+ "/sdk_home"]> (env w)).
Proof.
  intros home prior.
  destruct (exists_path (fs (host w)) (home +:+ "/sdk_home")) eqn:Hfound;
    intros plan o; subst o;
    set (Q := λ o : Outcome bool,
      events o `prefix_of` plan
      ∧ ∀ b, completion o = Normal b →
          b = true ∧ events o = plan
          ∧ env (final o) =
            <["PATH" := extraPaths home +:+ ":" +:+ pathWithoutAndroid prior]>
              (<["ANDROID_SDK_HOME" := home +:+ "/sdk_home"]> (env w)));
    change (wp (installBaseSdk sys) w Q);
    (assert (∀ evs w' e, evs `prefix_of` plan → Q (mkOutcome evs w' (Throw e)))
       as Hthrow by (intros evs w' e Hevs; split; [done | intros b [=]]));
    unfold installBaseSdk; do 5 wp_step; outcome_simpl; fold home;
    (apply wp_bind_when; rewrite Hfound; intros [=]).
  - wp_step. wp_step.
    do 5 wp_exec ltac:(apply Hthrow; by eexists).
    do 3 wp_step. subst Q. outcome_simpl.
    rewrite lookup_insert_ne by done. fold prior.
    split; [reflexivity | by intros b [= <-]].
  - do 4 wp_exec ltac:(apply Hthrow; by eexists).
    do 3 wp_step. subst Q. outcome_simpl.
    rewrite lookup_insert_ne by done. fold prior.
    split; [reflexivity | by intros b [= <-]].
Qed.

(** ** The search path after the base installer (C7) *)

(** C7, as the code has it.  When [installBaseSdk] returns, the exported
    PATH is the five tool directories of the SDK root, a colon, and the
    prior PATH without its segments that contain "Android"; it is the last
    thing exported.  No segment after the tool directories contains
    "Android"; a segment of the result that does is one of the tool
    directories (which contain it whenever ANDROID_HOME does). *)
Theorem installBaseSdk_PATH (sys : Shell) w b :
  completion (installBaseSdk sys w) = Normal b →
  let home := Js.tpl (env w !! "ANDROID_HOME") in
  let prior := Js.or_empty (env w !! "PATH") in
  let result := extraPaths home +:+ ":" +:+ pathWithoutAndroid prior in
  env (final (installBaseSdk sys w)) !! "PATH" = Some result
  ∧ last (events (installBaseSdk sys w)) = Some (ExportVariable "PATH" result)
  ∧ Js.split ":" result =
    (Js.split ":" (extraPaths home) ++ Js.split ":" (pathWithoutAndroid prior))%list
  ∧ (∀ seg, seg ∈ Js.split ":" (pathWithoutAndroid prior) →
       Js.includes "Android" seg = false)
  ∧ (∀ seg, seg ∈ Js.split ":" result → Js.includes "Android" seg = true →
       seg ∈ Js.split ":" (extraPaths home)).
Proof.
  intros Hb home prior result.
  destruct (installBaseSdk_run sys w) as [_ Hrun].
  destruct (Hrun b Hb) as (_ & Hev & Henv). fold home prior result in Hev, Henv.
  assert (Js.split ":" result =
          (Js.split ":" (extraPaths home) ++ Js.split ":" (pathWithoutAndroid prior))%list)
    as Hsplit by apply split_app.
  split; [by rewrite Henv, lookup_insert_eq | ].
  split; [rewrite Hev; unfold baseSdkEvents; by destruct (exists_path _ _) | ].
  split; [done | ].
  split; [apply pathWithoutAndroid_segment | ].
  intros seg Hseg Hinc. rewrite Hsplit in Hseg.
  apply elem_of_app in Hseg as [Hseg | Hseg]; [done | ].
  apply pathWithoutAndroid_segment in Hseg. congruence.
Qed.

Lemma installBaseSdk_PATH_witness :
  env (final (installBaseSdk runner linux_fresh)) !! "PATH"
  = Some "/sdk/bin:/sdk/tools:/sdk/tools/bin:/sdk/platform-tools:/sdk/platform-tools/bin:/usr/bin".
Proof.
  assert (completion (installBaseSdk runner linux_fresh) = Normal true) as Hb
    by (vm_compute; reflexivity).
  destruct (installBaseSdk_PATH runner linux_fresh true Hb) as [-> _].
  vm_compute. reflexivity.
Defined.

(** A prior segment that contains "Android" is in the new PATH again when
    it is one of the new tool directories. *)
Lemma installBaseSdk_PATH_keeps_Android_segment :
  ∃ seg result,
    env (final (installBaseSdk runner mac_with_old_path)) !! "PATH" = Some result
    ∧ seg ∈ Js.split ":" (Js.or_empty (env mac_with_old_path !! "PATH"))
    ∧ Js.includes "Android" seg = true
    ∧ seg ∈ Js.split ":" result.
Proof.
  exists "/Users/runner/Library/Android/sdk/tools".
  eexists. split; [vm_compute; reflexivity | ].
  split; [apply list_elem_of_In; vm_compute; tauto | ].
  split; [vm_compute; reflexivity | ].
  apply list_elem_of_In; vm_compute; tauto.
Qed.

(** ** The backup of the SDK home (C8) *)



(** ** The run of [installAndroidSdk], statement by statement *)

Lemma installAndroidSdk_unfold (sys : Shell)
    apiLevel target arch emulatorBuild ndkVersion cmakeVersion w :
  let isOnMac := String.eqb (platform w) "darwin" in
  installAndroidSdk sys apiLevel target arch emulatorBuild ndkVersion cmakeVersion w =
  call
    (checkAndroidHome;;
     ensureBaseSdk sys;;
     configurePermissions sys isOnMac;;
     installCmdlineTools sys isOnMac;;
     writeLicenseFiles isOnMac apiLevel;;
     installBuildTools sys apiLevel;;
     installEmulator sys isOnMac emulatorBuild;;
     installSystemImages sys apiLevel target arch;;
     installNdk sys ndkVersion;;
     installCmake sys cmakeVersion) w.
Proof.
  intros isOnMac. unfold installAndroidSdk, call.
  by rewrite (bind_Normal _ _ w [] w (platform w) eq_refl), prepend_nil.
Qed.

Lemma events_reaches {A B} (m : M A) (k : A → M B) w a w' :
  reaches m w a w' → events ((m ≫= k) w) = (events (m w) ++ events (k a w'))%list.
Proof. intros H. by rewrite (bind_reaches _ _ _ _ _ H). Qed.

Lemma completion_reaches {A B} (m : M A) (k : A → M B) w a w' :
  reaches m w a w' → completion ((m ≫= k) w) = completion (k a w').
Proof. intros H. by rewrite (bind_reaches _ _ _ _ _ H). Qed.

(** The configuration is the same all along a run. *)
Lemma config_final {A} (m : M A) w :
  Always (config w) (λ _, True) (λ _, True) m → config (final (m w)) = config w.
Proof. intros H. by apply H. Qed.

Lemma config_env_home w w' :
  config w' = config w → env w' !! "ANDROID_HOME" = env w !! "ANDROID_HOME".
Proof. by intros [=]. Qed.

Lemma config_inputs w w' : config w' = config w → inputs w' = inputs w.
Proof. by intros [=]. Qed.

Lemma config_platform w w' : config w' = config w → platform w' = platform w.
Proof. by intros [=]. Qed.

(** ** The emulator (C6) *)

Lemma app_eq_app_Forall {X} (P : X → Prop) (l1 l2 evs1 evs2 : list X) x :
  Forall P l1 → ¬ P x → (l1 ++ l2 = evs1 ++ x :: evs2)%list →
  ∃ m, evs1 = (l1 ++ m)%list ∧ l2 = (m ++ x :: evs2)%list.
Proof.
  intros Hl Hx. revert evs1. induction Hl as [|y l1 Hy Hl IH]; intros evs1 Heq.
  - by exists evs1.
  - destruct evs1 as [|z evs1]; simpl in Heq; injection Heq as -> Heq; [done | ].
    destruct (IH _ Heq) as (m & -> & ->). by exists m.
Qed.

(** A run is what it does up to the emulator, and the rest. *)
Lemma installAndroidSdk_at_emulator (sys : Shell)
    apiLevel target arch emulatorBuild ndkVersion cmakeVersion w w1 :
  let isOnMac := String.eqb (platform w) "darwin" in
  let run := installAndroidSdk sys apiLevel target arch
               emulatorBuild ndkVersion cmakeVersion w in
  let before : M unit :=
    checkAndroidHome;; ensureBaseSdk sys;; configurePermissions sys isOnMac;;
    installCmdlineTools sys isOnMac;; writeLicenseFiles isOnMac apiLevel;;
    installBuildTools sys apiLevel in
  let tail :=
    (installEmulator sys isOnMac emulatorBuild;;
     installSystemImages sys apiLevel target arch;;
     installNdk sys ndkVersion;;
     installCmake sys cmakeVersion) w1 in
  reaches before w tt w1 →
  events run = (events (before w) ++ events tail)%list
  ∧ completion run = match completion tail with
                     | Return_ => Normal tt
                     | c => c
                     end
  ∧ env w1 !! "ANDROID_HOME" = env w !! "ANDROID_HOME".
Proof.
  intros isOnMac run before tail Hreach. subst run.
  rewrite installAndroidSdk_unfold, events_call, completion_call. fold isOnMac.
  assert ((checkAndroidHome;; ensureBaseSdk sys;; configurePermissions sys isOnMac;;
           installCmdlineTools sys isOnMac;; writeLicenseFiles isOnMac apiLevel;;
           installBuildTools sys apiLevel;; installEmulator sys isOnMac emulatorBuild;;
           installSystemImages sys apiLevel target arch;; installNdk sys ndkVersion;;
           installCmake sys cmakeVersion) w =
          (before ≫= λ _,
           installEmulator sys isOnMac emulatorBuild;;
           installSystemImages sys apiLevel target arch;;
           installNdk sys ndkVersion;;
           installCmake sys cmakeVersion) w) as ->.
  { subst before. symmetry. regroup. }
  rewrite (bind_reaches _ _ w tt w1 Hreach). simpl.
  repeat split. destruct Hreach as [_ <-].
  apply config_env_home, config_final. subst before. always_go ltac:(exact I).
Qed.

(** [io.rmRF] leaves nothing of the path. *)
Lemma io_rmRF_removed p q w :
  under p q = true → fs (host (final (io_rmRF p w))) !! q = None.
Proof.
  intros Hq. simpl. apply map_lookup_filter_None. right. intros n _. simpl. by rewrite Hq.
Qed.

(** The emulator step with a build given, lines 77-81: the download, the
    removal of the emulator directory, the unpacking on the host that the
    removal leaves, the removal of the archive. *)
Lemma installEmulator_build (sys : Shell) (isOnMac : bool) emulatorBuild (k : M unit) w :
  let home := Js.tpl (env w !! "ANDROID_HOME") in
  let url := emulator_url isOnMac (Js.tpl emulatorBuild) in
  let download := "curl -fo emulator.zip " +:+ url in
  let unzip := "unzip -q emulator.zip -d " +:+ home in
  let log := Log ("Installing emulator build " +:+ Js.tpl emulatorBuild +:+ ".") in
  let w2 := final (io_rmRF (home +:+ "/emulator") (set_host (sys download (host w)).2 w)) in
  let o := (installEmulator sys isOnMac emulatorBuild;; k) w in
  Js.truthy emulatorBuild = true →
  (∀ code, (sys download (host w)).1 = code → code ≠ 0 →
     events o = [log; emulator_download url]
     ∧ completion o = Throw (ExecFailed download code))
  ∧ ((sys download (host w)).1 = 0 →
     (∀ code, (sys unzip (host w2)).1 = code → code ≠ 0 →
        events o = [log; emulator_download url; RmRF (home +:+ "/emulator");
                    emulator_unpack home]
        ∧ completion o = Throw (ExecFailed unzip code))
     ∧ ((sys unzip (host w2)).1 = 0 →
        ∃ rest,
          events o = ([log; emulator_download url; RmRF (home +:+ "/emulator");
                       emulator_unpack home; RmRF "emulator.zip"] ++ rest)%list)).
Proof.
  intros home url download unzip log w2 o Htruthy. subst o.
  set (Q := λ o : Outcome unit,
    (∀ code, (sys download (host w)).1 = code → code ≠ 0 →
       events o = [log; emulator_download url]
       ∧ completion o = Throw (ExecFailed download code))
    ∧ ((sys download (host w)).1 = 0 →
       (∀ code, (sys unzip (host w2)).1 = code → code ≠ 0 →
          events o = [log; emulator_download url; RmRF (home +:+ "/emulator");
                      emulator_unpack home]
          ∧ completion o = Throw (ExecFailed unzip code))
       ∧ ((sys unzip (host w2)).1 = 0 →
          ∃ rest,
            events o = ([log; emulator_download url; RmRF (home +:+ "/emulator");
                         emulator_unpack home; RmRF "emulator.zip"] ++ rest)%list))).
  change (wp (installEmulator sys isOnMac emulatorBuild;; k) w Q).
  unfold installEmulator. rewrite Htruthy. wp_steps.
  lazymatch goal with
  | |- wp (exec_exec sys _ ≫= ?h) _ ?R => change (wp (exec_exec sys download ≫= h) w R)
  end.
  apply wp_bind_exec; [intros Hdl | intros code Hdl Hne].
  - wp_steps.
    lazymatch goal with
    | |- wp (exec_exec sys _ ≫= ?h) _ ?R => change (wp (exec_exec sys unzip ≫= h) w2 R)
    end.
    apply wp_bind_exec; [intros Huz | intros code Huz Hne].
    + wp_steps. unfold wp, Q. outcome_simpl. split; [intros code Hc Hne; congruence | ].
      intros _. split; [intros code Hc Hne; congruence | intros _]. by eexists.
    + subst Q. outcome_simpl. split; [intros c Hc Hc'; congruence | ].
      intros _. split; [ | intros Hz; congruence].
      intros c Hc _. split; [done | congruence].
  - subst Q. outcome_simpl. split; [ | intros Hz; congruence].
    intros c Hc _. split; [done | congruence].
Qed.

(** C6.  With an emulator build given: no run asks the package manager for
    the emulator, an emulator archive that a run downloads is the one of
    that build for the host platform, and wherever the archive is unpacked
    [<ANDROID_HOME>/emulator] has been removed before.  A run that gets to
    the emulator step downloads the archive; if the download fails the run
    ends there.  If not, it removes [<ANDROID_HOME>/emulator], of which
    nothing is left on the host that the archive is then unpacked on; it
    ends there if the unpacking fails, and goes on with the removal of
    the archive if not.  Without a build: no run downloads or unpacks an
    emulator archive, and a run that gets to the emulator step goes on
    with [sdkmanager --install emulator]. *)
Theorem emulator_selection (sys : Shell)
    apiLevel target arch emulatorBuild ndkVersion cmakeVersion w :
  let isOnMac := String.eqb (platform w) "darwin" in
  let home := Js.tpl (env w !! "ANDROID_HOME") in
  let run := installAndroidSdk sys apiLevel target arch
               emulatorBuild ndkVersion cmakeVersion w in
  let before : M unit :=
    checkAndroidHome;; ensureBaseSdk sys;; configurePermissions sys isOnMac;;
    installCmdlineTools sys isOnMac;; writeLicenseFiles isOnMac apiLevel;;
    installBuildTools sys apiLevel in
  (Js.truthy emulatorBuild = true →
     let url := emulator_url isOnMac (Js.tpl emulatorBuild) in
     let download := "curl -fo emulator.zip " +:+ url in
     let unzip := "unzip -q emulator.zip -d " +:+ home in
     let log := Log ("Installing emulator build " +:+ Js.tpl emulatorBuild +:+ ".") in
     Forall (λ e, e ≠ sdkmanager_install_emulator
                  ∧ ∀ u, e = emulator_download u → u = url) (events run)
     ∧ (∀ evs1 evs2 dir, events run = (evs1 ++ emulator_unpack dir :: evs2)%list →
          RmRF (home +:+ "/emulator") ∈ evs1)
     ∧ (∀ w1, reaches before w tt w1 →
          let w2 := final (io_rmRF (home +:+ "/emulator")
                             (set_host (sys download (host w1)).2 w1)) in
          emulator_download url ∈ events run
          ∧ (∀ code, (sys download (host w1)).1 = code → code ≠ 0 →
               events run = (events (before w) ++ [log; emulator_download url])%list
               ∧ completion run = Throw (ExecFailed download code))
          ∧ ((sys download (host w1)).1 = 0 →
             (∀ q, under (home +:+ "/emulator") q = true → fs (host w2) !! q = None)
             ∧ (∀ code, (sys unzip (host w2)).1 = code → code ≠ 0 →
                  events run =
                    (events (before w)
                     ++ [log; emulator_download url; RmRF (home +:+ "/emulator");
                         emulator_unpack home])%list
                  ∧ completion run = Throw (ExecFailed unzip code))
             ∧ ((sys unzip (host w2)).1 = 0 →
                ∃ rest,
                  events run =
                    (events (before w)
                     ++ [log; emulator_download url; RmRF (home +:+ "/emulator");
                         emulator_unpack home; RmRF "emulator.zip"]
                     ++ rest)%list))))
  ∧ (Js.truthy emulatorBuild = false →
     Forall (λ e, (∀ u, e ≠ emulator_download u) ∧ (∀ dir, e ≠ emulator_unpack dir))
       (events run)
     ∧ (∀ w1, reaches before w tt w1 →
          ∃ rest,
            events run =
              (events (before w)
               ++ [Log "Installing latest emulator."; sdkmanager_install_emulator]
               ++ rest)%list)).
Proof.
  intros isOnMac home run before.
  assert (events run =
          events ((before ≫= λ _,
                   installEmulator sys isOnMac emulatorBuild;;
                   installSystemImages sys apiLevel target arch;;
                   installNdk sys ndkVersion;;
                   installCmake sys cmakeVersion) w)) as Hrun.
  { subst run. rewrite installAndroidSdk_unfold, events_call. f_equal.
    symmetry. subst before. regroup. }
  set (rest := installSystemImages _ _ _ _ ≫= _) in Hrun.
  assert (Always (config w) (λ _, True) (λ _, True) before) as Hframe.
  { subst before. always_go ltac:(exact I). }
  split; intros Htruthy.
  - intros url download unzip log. split; [ | split].
    + assert (Always (config w)
                (λ e, e ≠ sdkmanager_install_emulator
                      ∧ ∀ u, e = emulator_download u → u = url)
                (λ _, True)
                (installAndroidSdk sys apiLevel target arch
                   emulatorBuild ndkVersion cmakeVersion)) as H.
      { always_go ltac:(
          first [ congruence
                | split; [discriminate | intros ? [= H]; try discriminate H ] ]).
        exact (eq_sym H). }
      by apply H.
    + intros evs1 evs2 dir Heq. rewrite Hrun, events_bind in Heq.
      assert (Forall (λ e, e ≠ emulator_unpack dir) (events (before w))) as Hbefore.
      { assert (Always (config w) (λ e, e ≠ emulator_unpack dir) (λ _, True) before) as H.
        { subst before. always_go ltac:(discriminate). }
        by apply H. }
      apply (app_eq_app_Forall _ _ _ _ _ _ Hbefore) in Heq as (m & -> & Hm); [ | by intros []].
      apply elem_of_app. right.
      destruct (completion (before w)) as [[]| |e] eqn:Hc;
        [ | by destruct m | by destruct m].
      revert m Hm.
      change (wp (installEmulator sys isOnMac emulatorBuild;; rest) (final (before w))
                (λ o, ∀ m, events o = (m ++ emulator_unpack dir :: evs2)%list →
                        RmRF (home +:+ "/emulator") ∈ m)).
      unfold installEmulator. rewrite Htruthy. wp_steps.
      apply wp_bind_exec; [intros _ | intros code _ _].
      * wp_steps. outcome_simpl.
        rewrite (config_env_home _ _ (config_final _ _ Hframe)). fold home.
        unfold wp. intros m Hm.
        apply (app_eq_app_Forall (λ e, e ≠ emulator_unpack dir) [_; _; _]) in Hm
          as (m' & -> & _); [ | by repeat constructor | by intros [] ].
        set_solver.
      * intros m Hm.
        apply (app_eq_app_Forall (λ e, e ≠ emulator_unpack dir) [_; _] []) in Hm
          as (m' & _ & Hm'); [ | by repeat constructor | by intros [] ].
        by destruct m'.
    + intros w1 Hreach w2.
      destruct (installAndroidSdk_at_emulator sys apiLevel target arch
                  emulatorBuild ndkVersion cmakeVersion w w1 Hreach) as (Hev & Hc & Hhome).
      fold isOnMac run before rest in Hev, Hc.
      pose proof (installEmulator_build sys isOnMac emulatorBuild rest w1) as Hbuild.
      cbv zeta in Hbuild. rewrite Hhome in Hbuild.
      fold home url download unzip log w2 in Hbuild.
      destruct (Hbuild Htruthy) as [Hfail Hok]. clear Hbuild.
      split; [ | split].
      * rewrite Hev. apply elem_of_app. right.
        destruct (decide ((sys download (host w1)).1 = 0)) as [Hz | Hnz].
        -- destruct (Hok Hz) as [Huz Hgo].
           destruct (decide ((sys unzip (host w2)).1 = 0)) as [Hz' | Hnz'].
           ++ destruct (Hgo Hz') as [more ->]. right. by left.
           ++ destruct (Huz _ eq_refl Hnz') as [-> _]. right. by left.
        -- destruct (Hfail _ eq_refl Hnz) as [-> _]. right. by left.
      * intros code Hcode Hne. destruct (Hfail code Hcode Hne) as [Hev' Hc'].
        by rewrite Hev, Hc, Hev', Hc'.
      * intros Hz. destruct (Hok Hz) as [Huz Hgo]. split; [ | split].
        -- intros q Hq. by apply io_rmRF_removed.
        -- intros code Hcode Hne. destruct (Huz code Hcode Hne) as [Hev' Hc'].
           by rewrite Hev, Hc, Hev', Hc'.
        -- intros Hz'. destruct (Hgo Hz') as [more Hev']. exists more.
           by rewrite Hev, Hev'.
  - split.
    + assert (Always (config w)
                (λ e, (∀ u, e ≠ emulator_download u) ∧ (∀ dir, e ≠ emulator_unpack dir))
                (λ _, True)
                (installAndroidSdk sys apiLevel target arch
                   emulatorBuild ndkVersion cmakeVersion)) as H.
      { always_go ltac:(first [ congruence | split; intros ?; discriminate ]). }
      by apply H.
    + intros w1 Hreach. rewrite Hrun, (events_reaches _ _ _ _ _ Hreach).
      change (wp (installEmulator sys isOnMac emulatorBuild;; rest) w1
                (λ o, ∃ more,
                   (events (before w) ++ events o)%list =
                   (events (before w)
                    ++ [Log "Installing latest emulator."; sdkmanager_install_emulator]
                    ++ more)%list)).
      unfold installEmulator. rewrite Htruthy. wp_steps.
      apply wp_bind_exec; [intros _; unfold wp | intros code _ _]; outcome_simpl;
        by eexists.
Qed.

Lemma emulator_selection_witness :
  (∃ rest,
     events (installAndroidSdk runner 30 "google_apis" "x86_64" (Some "6885378") None None
               linux_fresh)
     = (events ((checkAndroidHome;; ensureBaseSdk runner;; configurePermissions runner false;;
                 installCmdlineTools runner false;; writeLicenseFiles false 30;;
                 installBuildTools runner 30) linux_fresh)
        ++ [ Log "Installing emulator build 6885378.";
             emulator_download
               "https://dl.google.com/android/repository/emulator-linux-6885378.zip";
             RmRF "/sdk/emulator";
             emulator_unpack "/sdk";
             RmRF "emulator.zip" ]
        ++ rest)%list)
  ∧ (∃ rest,
       events (installAndroidSdk runner 30 "google_apis" "x86_64" None None None linux_fresh)
       = (events ((checkAndroidHome;; ensureBaseSdk runner;;
                   configurePermissions runner false;;
                   installCmdlineTools runner false;; writeLicenseFiles false 30;;
                   installBuildTools runner 30) linux_fresh)
          ++ [Log "Installing latest emulator."; sdkmanager_install_emulator]
          ++ rest)%list).
Proof.
  split.
  - destruct (emulator_selection runner 30 "google_apis" "x86_64" (Some "6885378")
                None None linux_fresh) as [H _].
    destruct (H eq_refl) as (_ & _ & Hlive).
    edestruct Hlive as (_ & _ & Hok); [split; [vm_compute; reflexivity | reflexivity] | ].
    destruct Hok as (_ & _ & Hgo); [vm_compute; reflexivity | ].
    apply Hgo. vm_compute; reflexivity.
  - destruct (emulator_selection runner 30 "google_apis" "x86_64" None
                None None linux_fresh) as [_ H].
    destruct (H eq_refl) as (_ & Hlive).
    apply (Hlive (final ((checkAndroidHome;; ensureBaseSdk runner;;
                          configurePermissions runner false;;
                          installCmdlineTools runner false;; writeLicenseFiles false 30;;
                          installBuildTools runner 30) linux_fresh))).
    split; [vm_compute; reflexivity | reflexivity].
Defined.

(** ** A runner that has the SDK and the command-line tools (C4, C9) *)

(** On such a runner the run logs that it uses the SDK that is there,
    changes the owner if it has to, and goes on with the license files. *)
Lemma installAndroidSdk_warm (sys : Shell) (P : Event → Prop)
    apiLevel target arch emulatorBuild ndkVersion cmakeVersion w home :
  let tools := home +:+ "/cmdline-tools" in
  let run := installAndroidSdk sys apiLevel target arch
               emulatorBuild ndkVersion cmakeVersion w in
  env w !! "ANDROID_HOME" = Some home → home ≠ "" →
  exists_path (fs (host w)) home = true →
  exists_path (fs (host w)) tools = true →
  chown_keeps sys w home tools →
  (∀ msg, P (Log msg)) → P (chown_step home) →
  Always (config w) P (λ _, True)
    (afterCmdlineTools sys (String.eqb (platform w) "darwin") apiLevel target arch
       emulatorBuild ndkVersion cmakeVersion) →
  Forall P (events run) ∧ env_kept w run.
Proof.
  intros tools run Hhome Hne Hroot Htools Hchown Hlog Hch Hafter. subst run.
  unfold env_kept. rewrite installAndroidSdk_unfold, events_call, final_call.
  fold (afterCmdlineTools sys (String.eqb (platform w) "darwin") apiLevel target arch
          emulatorBuild ndkVersion cmakeVersion).
  set (after := afterCmdlineTools _ _ _ _ _ _ _ _) in *.
  set (Q := λ o : Outcome unit, Forall P (events o) ∧ env_kept w o).
  assert (∀ w', config w' = config w → env w' = env w →
                exists_path (fs (host w')) tools = true →
                wp (installCmdlineTools sys (String.eqb (platform w) "darwin");; after) w' Q)
    as Hgo.
  { intros w' Hcfg Henv Hex. unfold installCmdlineTools. wp_steps.
    rewrite Henv, Hhome. change (Js.tpl (Some home)) with home. fold tools. rewrite Hex.
    apply wp_bind_when; [intros [=] | intros _].
    destruct (Hafter w' Hcfg) as (Hev & _ & _ & Hkept).
    split; [done | ]. unfold env_kept in *. by rewrite <- Henv. }
  change (wp (checkAndroidHome;; ensureBaseSdk sys;;
              configurePermissions sys (String.eqb (platform w) "darwin");;
              installCmdlineTools sys (String.eqb (platform w) "darwin");; after) w Q).
  unfold checkAndroidHome. wp_steps. rewrite Hhome.
  apply wp_bind_when; [intros Hf; simpl in Hf; by apply String.eqb_eq in Hf | intros _].
  unfold ensureBaseSdk. wp_steps. rewrite Hhome. cbv beta iota. rewrite Hroot. wp_steps.
  unfold configurePermissions. wp_steps.
  apply wp_bind_when; [intros Hb | intros _].
  - apply andb_prop in Hb as [Hmac Hfresh].
    apply negb_true_iff, String.eqb_neq in Hmac. apply String.eqb_eq in Hfresh.
    specialize (Hchown Hmac Hfresh).
    wp_steps. rewrite Hhome. change (Js.tpl (Some home)) with home.
    apply wp_bind_exec; [intros _ | intros code _ _].
    + eapply (Hgo (set_host _ w)) in Hchown; [ | done | done].
      destruct Hchown as [Hev Hkept].
      unfold wp. subst Q. unfold env_kept in *. outcome_simpl.
      split; [by repeat (apply Forall_cons; split; [auto | ]) | ].
      destruct Hkept as [Hk | Hk]; [by left | right; by repeat apply Exists_cons_tl].
    + subst Q. unfold env_kept. outcome_simpl.
      split; [ | by left]. by repeat (apply Forall_cons; split; [auto | ]).
  - destruct (Hgo w eq_refl eq_refl Htools) as [Hev Hkept].
    unfold wp. subst Q. unfold env_kept in *. outcome_simpl.
    split; [by repeat (apply Forall_cons; split; [auto | ]) | ].
    destruct Hkept as [Hk | Hk]; [by left | right; by repeat apply Exists_cons_tl].
Qed.

(** C9.  On a runner where the SDK directory and its cmdline-tools
    directory exist, and whose change of owner, where the run makes it,
    leaves the latter in place,
    a run exports nothing: it emits no [core.exportVariable] and no
    [core.addPath], and the environment at its end is the one at its
    start. *)
Theorem warm_runner_exports_nothing (sys : Shell)
    apiLevel target arch emulatorBuild ndkVersion cmakeVersion w home :
  let tools := home +:+ "/cmdline-tools" in
  let run := installAndroidSdk sys apiLevel target arch
               emulatorBuild ndkVersion cmakeVersion w in
  env w !! "ANDROID_HOME" = Some home → home ≠ "" →
  exists_path (fs (host w)) home = true →
  exists_path (fs (host w)) tools = true →
  chown_keeps sys w home tools →
  Forall (λ e, ¬ is_export e) (events run) ∧ env (final run) = env w.
Proof.
  intros tools run Hhome Hne Hroot Htools Hchown.
  destruct (installAndroidSdk_warm sys (λ e, ¬ is_export e)
              apiLevel target arch emulatorBuild ndkVersion cmakeVersion w home
              Hhome Hne Hroot Htools Hchown) as [Hev Hkept].
  - by intros msg [].
  - by intros [].
  - always_go ltac:(by intros []).
  - split; [exact Hev | ].
    destruct Hkept as [Hkept | Hx]; [exact Hkept | ].
    apply Exists_exists in Hx as (e & He & Hx).
    by eapply Forall_forall in Hev.
Qed.

Lemma warm_runner_exports_nothing_witness :
  env (final (installAndroidSdk runner 30 "google_apis" "x86_64" None None None linux_warm))
  = env linux_warm.
Proof.
  apply (warm_runner_exports_nothing runner 30 "google_apis" "x86_64" None None None
           linux_warm "/sdk");
    [ vm_compute; reflexivity | discriminate | vm_compute; reflexivity .. ].
Defined.

(** ** Counting the fetches of a run (C4) *)

Lemma count_app c l1 l2 : count c (l1 ++ l2) = (count c l1 + count c l2)%nat.
Proof. induction l1 as [|e l1 IH]; simpl; [done | rewrite IH; lia]. Qed.

Lemma count_none c l : Forall (λ e, c e = false) l → count c l = 0%nat.
Proof. induction 1 as [|e l He _ IH]; simpl; [done | by rewrite He, IH]. Qed.

Lemma count_prefix c l1 l2 : l1 `prefix_of` l2 → (count c l1 ≤ count c l2)%nat.
Proof. intros [k ->]. rewrite count_app. lia. Qed.

Lemma AtMost_bind {A B} n n' c (m : M A) (k : A → M B) :
  AtMost n c m → (∀ a, AtMost n' c (k a)) → AtMost (n + n') c (m ≫= k).
Proof.
  intros Hm Hk w. rewrite events_bind, count_app. specialize (Hm w).
  destruct (completion (m w)) as [a| |e]; [specialize (Hk a (final (m w))); lia | | ];
    change (count c []) with 0%nat; lia.
Qed.

Lemma AtMost_mono {A} n n' c (m : M A) : AtMost n c m → (n ≤ n')%nat → AtMost n' c m.
Proof. intros Hm Hn w. specialize (Hm w). lia. Qed.

Lemma AtMost_Always {A} c (m : M A) :
  (∀ cfg, Always cfg (λ e, c e = false) (λ _, True) m) → AtMost 0 c m.
Proof. intros H w. rewrite count_none; [done | ]. by apply (H (config w)). Qed.

Lemma AtMost_call n c body : AtMost n c body → AtMost n c (call body).
Proof. intros H w. rewrite events_call. apply H. Qed.

(** A count of events that are given is found by running [count]. *)
Ltac count_le := apply Nat.leb_le; reflexivity.

Section Fetches.

Variable sys : Shell.

Lemma installBaseSdk_AtMost c :
  c = downloads_base_sdk ∨ c = unpacks_base_sdk → AtMost 1 c (installBaseSdk sys).
Proof.
  intros Hc w. destruct (installBaseSdk_run sys w) as [Hpre _].
  etransitivity; [exact (count_prefix c _ _ Hpre) | ].
  unfold baseSdkEvents.
  destruct Hc as [-> | ->]; destruct (exists_path _ _); count_le.
Qed.

Lemma ensureBaseSdk_AtMost c :
  c = downloads_base_sdk ∨ c = unpacks_base_sdk → AtMost 1 c (ensureBaseSdk sys).
Proof.
  intros Hc. unfold ensureBaseSdk.
  apply (AtMost_bind 0 1); [apply AtMost_Always; intros cfg; always_go idtac | intros home].
  apply (AtMost_bind 0 1); [apply AtMost_Always; intros cfg; always_go idtac | intros found].
  destruct found.
  - eapply AtMost_mono; [apply AtMost_Always; intros cfg | lia].
    destruct Hc as [-> | ->]; always_go ltac:(reflexivity).
  - apply (AtMost_bind 1 0); [by apply installBaseSdk_AtMost | intros installed].
    apply AtMost_Always; intros cfg.
    destruct Hc as [-> | ->]; always_go ltac:(reflexivity).
Qed.

Lemma installCmdlineTools_AtMost c isOnMac :
  c = downloads_cmdline_tools ∨ c = unpacks_cmdline_tools →
  AtMost 1 c (installCmdlineTools sys isOnMac).
Proof.
  intros Hc w.
  apply (wp_last (installCmdlineTools sys isOnMac) w (λ o, (count c (events o) ≤ 1)%nat)).
  unfold installCmdlineTools. wp_steps.
  apply wp_bind_when; [intros _ | intros _; wp_step; count_le].
  wp_steps. apply wp_bind_mkdirP; [ | intros d; destruct Hc as [-> | ->]; count_le].
  wp_steps.
  apply wp_bind_exec; [intros _ | intros code _ _; destruct Hc as [-> | ->]; count_le].
  wp_steps.
  apply wp_bind_exec; [intros _ | intros code _ _; destruct Hc as [-> | ->]; count_le].
  wp_steps. destruct Hc as [-> | ->]; count_le.
Qed.

End Fetches.

Lemma fetches_false e :
  fetches e = false →
  downloads_base_sdk e = false ∧ unpacks_base_sdk e = false
  ∧ downloads_cmdline_tools e = false ∧ unpacks_cmdline_tools e = false.
Proof.
  unfold fetches. intros He.
  apply orb_false_elim in He as [He He4]. apply orb_false_elim in He as [He He3].
  apply orb_false_elim in He as [He1 He2].
  exact (conj He1 (conj He2 (conj He3 He4))).
Qed.

(** A run fetches the base SDK at most once. *)
Lemma installAndroidSdk_AtMost_base (sys : Shell)
    apiLevel target arch emulatorBuild ndkVersion cmakeVersion c :
  c = downloads_base_sdk ∨ c = unpacks_base_sdk →
  AtMost 1 c (installAndroidSdk sys apiLevel target arch
                emulatorBuild ndkVersion cmakeVersion).
Proof.
  intros Hc. unfold installAndroidSdk. apply AtMost_call.
  apply (AtMost_bind 0 1); [apply AtMost_Always; intros cfg; always_go idtac | ].
  intros platform. cbv zeta.
  apply (AtMost_bind 0 1);
    [ apply AtMost_Always; intros cfg; destruct Hc as [Hc | Hc]; subst c;
      always_go ltac:(reflexivity) | intros _ ].
  apply (AtMost_bind 1 0); [ by apply ensureBaseSdk_AtMost | intros _ ].
  apply AtMost_Always; intros cfg.
  destruct Hc as [Hc | Hc]; subst c; always_go ltac:(reflexivity).
Qed.

(** A run fetches the command-line tools at most once. *)
Lemma installAndroidSdk_AtMost_tools (sys : Shell)
    apiLevel target arch emulatorBuild ndkVersion cmakeVersion c :
  c = downloads_cmdline_tools ∨ c = unpacks_cmdline_tools →
  AtMost 1 c (installAndroidSdk sys apiLevel target arch
                emulatorBuild ndkVersion cmakeVersion).
Proof.
  intros Hc. unfold installAndroidSdk. apply AtMost_call.
  apply (AtMost_bind 0 1); [apply AtMost_Always; intros cfg; always_go idtac | ].
  intros platform. cbv zeta.
  do 3 (apply (AtMost_bind 0 1);
          [ apply AtMost_Always; intros cfg; destruct Hc as [Hc | Hc]; subst c;
            always_go ltac:(reflexivity) | intros _ ]).
  apply (AtMost_bind 1 0); [ by apply installCmdlineTools_AtMost | intros _ ].
  apply AtMost_Always; intros cfg.
  destruct Hc as [Hc | Hc]; subst c; always_go ltac:(reflexivity).
Qed.

(** C4.  On a runner where the SDK directory and its cmdline-tools
    directory exist, and whose change of owner, where the run makes it,
    leaves the latter in place,
    a run neither downloads nor unpacks the base SDK or the command-line
    tools.  So when a run leaves such a runner behind, that run and the
    next one together download and unpack each of them at most once. *)
Theorem warm_runner_fetches_nothing (sys : Shell)
    apiLevel target arch emulatorBuild ndkVersion cmakeVersion w home :
  let tools := home +:+ "/cmdline-tools" in
  let run := installAndroidSdk sys apiLevel target arch
               emulatorBuild ndkVersion cmakeVersion w in
  let again := installAndroidSdk sys apiLevel target arch
                 emulatorBuild ndkVersion cmakeVersion (final run) in
  env w !! "ANDROID_HOME" = Some home → home ≠ "" →
  (exists_path (fs (host w)) home = true →
   exists_path (fs (host w)) tools = true →
   chown_keeps sys w home tools →
   Forall (λ e, fetches e = false) (events run))
  ∧ (exists_path (fs (host (final run))) home = true →
     exists_path (fs (host (final run))) tools = true →
     chown_keeps sys (final run) home tools →
     Forall (λ c, (count c (events run ++ events again) ≤ 1)%nat)
       [downloads_base_sdk; unpacks_base_sdk;
        downloads_cmdline_tools; unpacks_cmdline_tools]).
Proof.
  intros tools run again Hhome Hne.
  assert (∀ w', env w' !! "ANDROID_HOME" = Some home →
            exists_path (fs (host w')) home = true →
            exists_path (fs (host w')) tools = true →
            chown_keeps sys w' home tools →
            Forall (λ e, fetches e = false)
              (events (installAndroidSdk sys apiLevel target arch
                         emulatorBuild ndkVersion cmakeVersion w'))) as Hwarm.
  { intros w' Hhome' Hroot Htools Hchown.
    apply (installAndroidSdk_warm sys (λ e, fetches e = false)
             apiLevel target arch emulatorBuild ndkVersion cmakeVersion w' home
             Hhome' Hne Hroot Htools Hchown);
      [intros msg; reflexivity | reflexivity | ].
    always_go ltac:(reflexivity). }
  split; [by apply Hwarm | ].
  intros Hroot Htools Hchown.
  assert (env (final run) !! "ANDROID_HOME" = Some home) as Hhome'.
  { rewrite <- Hhome. apply config_env_home, config_final. always_go ltac:(exact I). }
  specialize (Hwarm (final run) Hhome' Hroot Htools Hchown). fold again in Hwarm.
  assert (∀ c, (∀ e, fetches e = false → c e = false) →
               AtMost 1 c (installAndroidSdk sys apiLevel target arch
                             emulatorBuild ndkVersion cmakeVersion) →
               (count c (events run ++ events again) ≤ 1)%nat) as Hboth.
  { intros c Hc Hone. rewrite count_app, (count_none c (events again)).
    - specialize (Hone w). fold run in Hone. lia.
    - eapply Forall_impl; [exact Hwarm | exact Hc]. }
  apply Forall_cons_2; [apply Hboth | ].
  3: apply Forall_cons_2; [apply Hboth | ].
  5: apply Forall_cons_2; [apply Hboth | ].
  7: apply Forall_cons_2; [apply Hboth | apply Forall_nil_2].
  - intros e He. apply fetches_false in He as (H1 & H2 & H3 & H4). exact H1.
  - apply installAndroidSdk_AtMost_base. left. reflexivity.
  - intros e He. apply fetches_false in He as (H1 & H2 & H3 & H4). exact H2.
  - apply installAndroidSdk_AtMost_base. right. reflexivity.
  - intros e He. apply fetches_false in He as (H1 & H2 & H3 & H4). exact H3.
  - apply installAndroidSdk_AtMost_tools. left. reflexivity.
  - intros e He. apply fetches_false in He as (H1 & H2 & H3 & H4). exact H4.
  - apply installAndroidSdk_AtMost_tools. right. reflexivity.
Qed.

Lemma warm_runner_fetches_nothing_witness :
  Forall (λ e, fetches e = false)
    (events (installAndroidSdk runner 30 "google_apis" "x86_64" None None None linux_warm))
  ∧ Forall
      (λ c, (count c
               (events (installAndroidSdk runner 30 "google_apis" "x86_64" None None None
                          linux_fresh)
                ++ events (installAndroidSdk runner 30 "google_apis" "x86_64" None None None
                             (final (installAndroidSdk runner 30 "google_apis" "x86_64"
                                       None None None linux_fresh)))) ≤ 1)%nat)
      [downloads_base_sdk; unpacks_base_sdk; downloads_cmdline_tools; unpacks_cmdline_tools].
Proof.
  split.
  - apply (warm_runner_fetches_nothing runner 30 "google_apis" "x86_64" None None None
             linux_warm "/sdk");
      [ vm_compute; reflexivity | discriminate | vm_compute; reflexivity .. ].
  - apply (warm_runner_fetches_nothing runner 30 "google_apis" "x86_64" None None None
             linux_fresh "/sdk");
      [ vm_compute; reflexivity | discriminate | vm_compute; reflexivity .. ].
Defined.

(** ** The license files (C1, C10) *)

Lemma exists_path_false (f : gmap string Node) p : exists_path f p = false → f !! p = None.
Proof.
  unfold exists_path. intros H%bool_decide_eq_false.
  destruct (f !! p) eqn:Hp; [ | done]. destruct H. by eexists.
Qed.

Lemma exists_path_insert_ne (f : gmap string Node) p q n :
  p ≠ q → exists_path (<[p := n]> f) q = exists_path f q.
Proof. intros Hpq. unfold exists_path. by rewrite lookup_insert_ne. Qed.

Lemma dirname_aux_app home s d :
  dirname_aux s = Some d → dirname_aux (home +:+ s) = Some (home +:+ d).
Proof. intros Hs. induction home as [|c home IH]; simpl; [done | by rewrite IH]. Qed.

Lemma dirname_license home name :
  dirname_aux name = None →
  dirname (home +:+ "/licenses/" +:+ name) = home +:+ "/licenses".
Proof.
  intros Hname. unfold dirname.
  rewrite (dirname_aux_app home ("/licenses/" +:+ name) "/licenses").
  - by destruct home.
  - cbv beta iota delta [String.append]. simpl. by rewrite Hname.
Qed.

(** A run is what it does up to the license files, the license files, and
    the rest. *)
Lemma installAndroidSdk_at_licenses (sys : Shell)
    apiLevel target arch emulatorBuild ndkVersion cmakeVersion w w1 :
  let isOnMac := String.eqb (platform w) "darwin" in
  let run := installAndroidSdk sys apiLevel target arch
               emulatorBuild ndkVersion cmakeVersion w in
  let tail :=
    (writeLicenseFiles isOnMac apiLevel;;
     afterLicenseFiles sys isOnMac apiLevel target arch
       emulatorBuild ndkVersion cmakeVersion) w1 in
  reaches (beforeLicenseFiles sys isOnMac) w tt w1 →
  events run = (events (beforeLicenseFiles sys isOnMac w) ++ events tail)%list
  ∧ completion run = match completion tail with
                     | Return_ => Normal tt
                     | c => c
                     end
  ∧ final run = final tail.
Proof.
  intros isOnMac run tail Hreach. subst run.
  rewrite installAndroidSdk_unfold, events_call, completion_call, final_call.
  fold isOnMac.
  assert ((checkAndroidHome;; ensureBaseSdk sys;; configurePermissions sys isOnMac;;
           installCmdlineTools sys isOnMac;; writeLicenseFiles isOnMac apiLevel;;
           installBuildTools sys apiLevel;; installEmulator sys isOnMac emulatorBuild;;
           installSystemImages sys apiLevel target arch;; installNdk sys ndkVersion;;
           installCmake sys cmakeVersion) w =
          (beforeLicenseFiles sys isOnMac ≫= λ _,
           writeLicenseFiles isOnMac apiLevel;;
           afterLicenseFiles sys isOnMac apiLevel target arch
             emulatorBuild ndkVersion cmakeVersion) w) as ->.
  { unfold beforeLicenseFiles, afterLicenseFiles. symmetry. regroup. }
  by rewrite (bind_reaches _ _ w tt w1 Hreach).
Qed.

(** The license step, when neither file is there: it writes the files it
    has to if the licenses directory exists, and fails at the first of
    them if not. *)
Lemma writeLicenseFiles_run (isOnMac : bool) apiLevel w home :
  let licenses := home +:+ "/licenses" in
  let o := writeLicenseFiles isOnMac apiLevel w in
  let fails (err : string → Error) :=
    events o = []
    ∧ completion o =
      if isOnMac then
        if bool_decide (apiLevel = 30)
        then Throw (err (home +:+ "/licenses/android-sdk-arm-dbt-license"))
        else Normal tt
      else Throw (err (home +:+ "/licenses/android-sdk-preview-license")) in
  env w !! "ANDROID_HOME" = Some home →
  exists_path (fs (host w)) (home +:+ "/licenses/android-sdk-preview-license") = false →
  exists_path (fs (host w)) (home +:+ "/licenses/android-sdk-arm-dbt-license") = false →
  match fs (host w) !! licenses with
  | Some Dir =>
      events o =
        ((if isOnMac then [] else [sdkPreviewLicense home])
         ++ (if bool_decide (apiLevel = 30) then [sdkArmDbtLicense home] else []))%list
      ∧ completion o = Normal tt
  | Some (File _) => fails ENOTDIR
  | None => fails ENOENT
  end.
Proof.
  intros licenses o fails Hhome Hpreview Harm. subst fails o.
  assert (home +:+ "/licenses/android-sdk-preview-license"
          ≠ home +:+ "/licenses/android-sdk-arm-dbt-license") as Hne
    by (by intros H%String.app_inj).
  assert (home +:+ "/licenses/android-sdk-preview-license" ≠ licenses) as Hne'
    by (by intros H%String.app_inj).
  assert (dirname (home +:+ "/licenses/android-sdk-preview-license") = licenses) as Hd1
    by (by apply (dirname_license home "android-sdk-preview-license")).
  assert (dirname (home +:+ "/licenses/android-sdk-arm-dbt-license") = licenses) as Hd2
    by (by apply (dirname_license home "android-sdk-arm-dbt-license")).
  pose proof (exists_path_false _ _ Hpreview) as Hp.
  pose proof (exists_path_false _ _ Harm) as Ha.
  set (Q := λ o : Outcome unit,
    match fs (host w) !! licenses with
    | Some Dir =>
        events o =
          ((if isOnMac then [] else [sdkPreviewLicense home])
           ++ (if bool_decide (apiLevel = 30) then [sdkArmDbtLicense home] else []))%list
        ∧ completion o = Normal tt
    | Some (File _) =>
        events o = []
        ∧ completion o =
          if isOnMac then
            if bool_decide (apiLevel = 30)
            then Throw (ENOTDIR (home +:+ "/licenses/android-sdk-arm-dbt-license"))
            else Normal tt
          else Throw (ENOTDIR (home +:+ "/licenses/android-sdk-preview-license"))
    | None =>
        events o = []
        ∧ completion o =
          if isOnMac then
            if bool_decide (apiLevel = 30)
            then Throw (ENOENT (home +:+ "/licenses/android-sdk-arm-dbt-license"))
            else Normal tt
          else Throw (ENOENT (home +:+ "/licenses/android-sdk-preview-license"))
    end).
  apply (wp_last (writeLicenseFiles isOnMac apiLevel) w Q). subst Q.
  unfold writeLicenseFiles. wp_steps.
  rewrite Hhome. change (Js.tpl (Some home)) with home. rewrite Hpreview.
  apply wp_bind_when; intros Hb1.
  - apply wp_bind_writeFileSync; [by rewrite Hp | rewrite Hd1; intros Hdir .. ].
    + wp_steps. outcome_simpl. rewrite Hhome. change (Js.tpl (Some home)) with home.
      rewrite exists_path_insert_ne, Harm by done.
      destruct (fs (host w) !! licenses) as [[|c]|] eqn:Hl; try discriminate Hdir.
      apply wp_bind_when; intros Hb2.
      * apply wp_bind_writeFileSync; outcome_simpl;
          [ by rewrite lookup_insert_ne, Ha by done
          | rewrite Hd2, lookup_insert_ne by done; intros _
          | rewrite Hd2, lookup_insert_ne, Hl by done; intros [=]
          | rewrite Hd2, lookup_insert_ne, Hl by done; intros [=] ].
        wp_step. cbv beta.
        destruct isOnMac, (bool_decide (apiLevel = 30)); try discriminate; done.
      * wp_step. cbv beta.
        destruct isOnMac, (bool_decide (apiLevel = 30)); try discriminate; done.
    + cbv beta. rewrite Hdir. destruct isOnMac; try discriminate; done.
    + cbv beta. destruct (fs (host w) !! licenses) as [[|c]|]; try discriminate Hdir.
      destruct isOnMac; try discriminate; done.
  - wp_steps. rewrite Hhome. change (Js.tpl (Some home)) with home. rewrite Harm.
    apply wp_bind_when; intros Hb2.
    + apply wp_bind_writeFileSync; [by rewrite Ha | rewrite Hd2; intros Hdir .. ].
      * wp_step. cbv beta.
        destruct (fs (host w) !! licenses) as [[|c]|]; try discriminate Hdir.
        destruct isOnMac, (bool_decide (apiLevel = 30)); try discriminate; done.
      * cbv beta. rewrite Hdir.
        destruct isOnMac, (bool_decide (apiLevel = 30)); try discriminate; done.
      * cbv beta. destruct (fs (host w) !! licenses) as [[|c]|]; try discriminate Hdir.
        destruct isOnMac, (bool_decide (apiLevel = 30)); try discriminate; done.
    + wp_step. cbv beta.
      destruct isOnMac, (bool_decide (apiLevel = 30)); try discriminate;
        by destruct (fs (host w) !! licenses) as [[|c]|].
Qed.

(** A run on a runner that has the SDK directory: it logs that it uses the
    SDK that is there and goes on with [k]. *)
Lemma with_sdk (sys : Shell) (P : Event → Prop) (k : M unit) w home :
  env w !! "ANDROID_HOME" = Some home → home ≠ "" →
  exists_path (fs (host w)) home = true →
  (∀ msg, P (Log msg)) →
  Always (config w) P (λ _, True) k →
  Forall P (events ((checkAndroidHome;; ensureBaseSdk sys;; k) w)).
Proof.
  intros Hhome Hne Hroot Hlog Hk.
  change (wp (checkAndroidHome;; ensureBaseSdk sys;; k) w (λ o, Forall P (events o))).
  unfold checkAndroidHome. wp_steps. rewrite Hhome.
  apply wp_bind_when; [intros Hf; simpl in Hf; by apply String.eqb_eq in Hf | intros _].
  unfold ensureBaseSdk. wp_steps. rewrite Hhome. cbv beta iota. rewrite Hroot. wp_steps.
  unfold wp. outcome_simpl. apply Forall_cons_2; [apply Hlog | by apply Hk].
Qed.

Lemma not_sdkmanager_call_Always (sys : Shell) cfg isOnMac :
  Always cfg (λ e, ¬ sdkmanager_call e) (λ _, True)
    (configurePermissions sys isOnMac;; installCmdlineTools sys isOnMac).
Proof. always_go ltac:(by intros [[? [=]] | [? [=]]]). Qed.

(** C10.  Nothing in [installAndroidSdk] makes the licenses directory when
    the SDK directory is there: no run on such a runner issues the
    [mkdir -p <ANDROID_HOME>/licenses] of [acceptLicenses] or an
    [io.mkdirP] of it.  When such a run gets to the license files and the
    licenses directory (hence either file) does not exist, on a platform
    other than macOS or with API level 30, [fs.writeFileSync] throws for a
    file of that directory: the run is rejected, and no package manager
    call has been made. *)
Theorem license_files_need_licenses_dir (sys : Shell)
    apiLevel target arch emulatorBuild ndkVersion cmakeVersion w home :
  let isOnMac := String.eqb (platform w) "darwin" in
  let licenses := home +:+ "/licenses" in
  let run := installAndroidSdk sys apiLevel target arch
               emulatorBuild ndkVersion cmakeVersion w in
  env w !! "ANDROID_HOME" = Some home → home ≠ "" →
  exists_path (fs (host w)) home = true →
  (∀ w1, reaches (beforeLicenseFiles sys isOnMac) w tt w1 →
     exists_path (fs (host w1)) licenses = false →
     exists_path (fs (host w1)) (home +:+ "/licenses/android-sdk-preview-license") = false →
     exists_path (fs (host w1)) (home +:+ "/licenses/android-sdk-arm-dbt-license") = false →
     isOnMac = false ∨ apiLevel = 30 →
     (∃ p, completion run = Throw (ENOENT p) ∧ dirname p = licenses)
     ∧ Forall (λ e, ¬ sdkmanager_call e) (events run))
  ∧ Forall (λ e, e ≠ Exec ("mkdir -p " +:+ home +:+ "/licenses") ∧ e ≠ MkdirP licenses)
      (events run).
Proof.
  intros isOnMac licenses run Hhome Hne Hroot. split.
  - intros w1 Hreach Hdir Hpreview Harm Hcase.
    destruct (installAndroidSdk_at_licenses sys apiLevel target arch
                emulatorBuild ndkVersion cmakeVersion w w1 Hreach) as (Hev & Hc & _).
    fold isOnMac run in Hev, Hc.
    assert (env w1 !! "ANDROID_HOME" = Some home) as Hhome1.
    { rewrite <- Hhome. destruct Hreach as [_ <-].
      apply config_env_home, config_final. unfold beforeLicenseFiles.
      always_go ltac:(exact I). }
    pose proof (writeLicenseFiles_run isOnMac apiLevel w1 home Hhome1 Hpreview Harm) as Hrun.
    cbv zeta in Hrun. fold licenses in Hrun.
    rewrite (exists_path_false _ _ Hdir) in Hrun. destruct Hrun as [Hev1 Hc1].
    rewrite events_bind, Hev1, Hc1 in Hev. rewrite completion_bind, Hc1 in Hc.
    assert (∃ p, completion (writeLicenseFiles isOnMac apiLevel w1) = Throw (ENOENT p)
                 ∧ dirname p = licenses) as (p & Hp & Hdp).
    { rewrite Hc1. destruct Hcase as [-> | ->].
      - eexists. split; [done | ].
        by apply (dirname_license home "android-sdk-preview-license").
      - destruct isOnMac; eexists; (split; [done | ]).
        + by apply (dirname_license home "android-sdk-arm-dbt-license").
        + by apply (dirname_license home "android-sdk-preview-license"). }
    rewrite <- Hc1, Hp in Hc, Hev. split; [by exists p | ].
    rewrite Hev, app_nil_r. unfold beforeLicenseFiles.
    apply (with_sdk sys _ _ w home Hhome Hne Hroot); [by intros msg [[? [=]] | [? [=]]] | ].
    apply not_sdkmanager_call_Always.
  - subst run. rewrite installAndroidSdk_unfold, events_call.
    apply (with_sdk sys _ _ w home Hhome Hne Hroot); [by intros msg | ].
    assert (config w = mkConfig (platform w) (inputs w) (Some home)) as ->
      by (unfold config; by rewrite Hhome).
    always_go ltac:(
      cbn [cfg_home Js.tpl default];
      split; (let H := fresh "H" in
              intros H;
              first [ discriminate H
                    | injection H as H; apply String.app_inj in H; discriminate H ])).
Qed.

Lemma license_files_need_licenses_dir_witness :
  (∃ p, completion (installAndroidSdk runner 30 "google_apis" "x86_64" None None None
                      linux_without_licenses) = Throw (ENOENT p)
        ∧ dirname p = "/sdk" +:+ "/licenses")
  ∧ Forall (λ e, ¬ sdkmanager_call e)
      (events (installAndroidSdk runner 30 "google_apis" "x86_64" None None None
                 linux_without_licenses)).
Proof.
  destruct (license_files_need_licenses_dir runner 30 "google_apis" "x86_64" None None None
              linux_without_licenses "/sdk") as [H _];
    [ vm_compute; reflexivity | discriminate | vm_compute; reflexivity | ].
  eapply H;
    [ split; [vm_compute; reflexivity | reflexivity]
    | vm_compute; reflexivity .. | left; reflexivity ].
Defined.

(** C1, as the code has it.  When a run gets to the license files with
    the licenses directory there and neither file in it, it writes the
    preview license unless it is on macOS, and the arm-dbt license if the
    API level is 30, on macOS as well.  In no run is the arm-dbt license
    written for another API level, and in no run on macOS is the preview
    license written. *)
Theorem license_files_written (sys : Shell)
    apiLevel target arch emulatorBuild ndkVersion cmakeVersion w home :
  let isOnMac := String.eqb (platform w) "darwin" in
  let run := installAndroidSdk sys apiLevel target arch
               emulatorBuild ndkVersion cmakeVersion w in
  env w !! "ANDROID_HOME" = Some home →
  (∀ w1, reaches (beforeLicenseFiles sys isOnMac) w tt w1 →
     is_dir (fs (host w1) !! (home +:+ "/licenses")) = true →
     exists_path (fs (host w1)) (home +:+ "/licenses/android-sdk-preview-license") = false →
     exists_path (fs (host w1)) (home +:+ "/licenses/android-sdk-arm-dbt-license") = false →
     (isOnMac = false → sdkPreviewLicense home ∈ events run)
     ∧ (apiLevel = 30 → sdkArmDbtLicense home ∈ events run))
  ∧ (apiLevel ≠ 30 →
     Forall (λ e, ∀ p data, e = WriteFile p data → e = sdkPreviewLicense home) (events run))
  ∧ (isOnMac = true →
     Forall (λ e, ∀ p data, e = WriteFile p data → e = sdkArmDbtLicense home ∧ apiLevel = 30)
       (events run)).
Proof.
  intros isOnMac run Hhome. split; [ | split].
  - intros w1 Hreach Hdir Hpreview Harm.
    destruct (installAndroidSdk_at_licenses sys apiLevel target arch
                emulatorBuild ndkVersion cmakeVersion w w1 Hreach) as (Hev & _ & _).
    fold isOnMac run in Hev.
    assert (env w1 !! "ANDROID_HOME" = Some home) as Hhome1.
    { rewrite <- Hhome. destruct Hreach as [_ <-].
      apply config_env_home, config_final. unfold beforeLicenseFiles.
      always_go ltac:(exact I). }
    pose proof (writeLicenseFiles_run isOnMac apiLevel w1 home Hhome1 Hpreview Harm) as Hrun.
    cbv zeta in Hrun.
    destruct (fs (host w1) !! (home +:+ "/licenses")) as [[|c]|]; try discriminate Hdir.
    destruct Hrun as [Hev1 _].
    rewrite events_bind, Hev1 in Hev. rewrite Hev.
    split.
    + intros ->. set_solver.
    + intros ->. rewrite bool_decide_eq_true_2 by done. set_solver.
  - intros Hapi.
    assert (Always (mkConfig (platform w) (inputs w) (Some home))
              (λ e, ∀ p data, e = WriteFile p data → e = sdkPreviewLicense home)
              (λ _, True)
              (installAndroidSdk sys apiLevel target arch
                 emulatorBuild ndkVersion cmakeVersion)) as H.
    { always_go ltac:(
        intros ? ? H;
        first [ discriminate H
              | reflexivity
              | exfalso;
                match goal with
                | Hb : bool_decide _ && _ = true |- _ =>
                    by apply andb_prop in Hb as [Hb%bool_decide_eq_true _]
                end ]). }
    apply H. unfold config. by rewrite Hhome.
  - intros Hmac. apply String.eqb_eq in Hmac.
    assert (Always (mkConfig "darwin" (inputs w) (Some home))
              (λ e, ∀ p data, e = WriteFile p data →
                      e = sdkArmDbtLicense home ∧ apiLevel = 30)
              (λ _, True)
              (installAndroidSdk sys apiLevel target arch
                 emulatorBuild ndkVersion cmakeVersion)) as H.
    { always_go ltac:(
        intros ? ? H;
        first [ discriminate H
              | split; [ reflexivity
                       | match goal with
                         | Hb : bool_decide _ && _ = true |- _ =>
                             by apply andb_prop in Hb as [Hb%bool_decide_eq_true _]
                         end ] ]). }
    apply H. unfold config. by rewrite Hhome, Hmac.
Qed.

Lemma license_files_written_witness :
  sdkPreviewLicense "/sdk"
  ∈ events (installAndroidSdk runner 30 "google_apis" "x86_64" None None None linux_warm)
  ∧ sdkArmDbtLicense "/sdk"
    ∈ events (installAndroidSdk runner 30 "google_apis" "x86_64" None None None linux_warm).
Proof.
  destruct (license_files_written runner 30 "google_apis" "x86_64" None None None
              linux_warm "/sdk") as [H _]; [vm_compute; reflexivity | ].
  destruct (H (final (beforeLicenseFiles runner false linux_warm))) as [Hp Ha];
    [ split; [vm_compute; reflexivity | reflexivity] | vm_compute; reflexivity .. | ].
  split; [by apply Hp | by apply Ha].
Defined.

(** On macOS the arm-dbt license is written for API level 30. *)
Lemma license_files_macOS_api30 :
  platform mac_warm = "darwin"
  ∧ sdkArmDbtLicense "/sdk"
    ∈ events (installAndroidSdk runner 30 "google_apis" "x86_64" None None None mac_warm).
Proof.
  split; [reflexivity | ]. apply list_elem_of_In. vm_compute. tauto.
Qed.

(** ** How a run ends (X1, X2) *)

(** [Stops], like [Always], goes along the text of the script: a sequence
    stops where its first part stops, or where the rest does, after the
    events of the first part. *)
Section Stops.

Variable sys : Shell.
Variable cfg : Config.
Variable T : list Event → option Error → Prop.
Hypothesis T_app : ∀ pre evs c, T evs c → T (pre ++ evs) c.

Lemma Stops_bind {A B} (R : A → Prop) (m : M A) (k : A → M B) :
  Always cfg (λ _, True) R m → Stops cfg T m → (∀ a, R a → Stops cfg T (k a)) →
  Stops cfg T (m ≫= k).
Proof.
  intros Hal Hm Hk w c Hw. specialize (Hm w). destruct (Hal w Hw) as (_ & Hf & Hr & _).
  rewrite events_bind, completion_bind.
  destruct (completion (m w)) as [a| |e] eqn:Hc.
  - intros Hab. apply T_app. by apply (Hk a (Hr a eq_refl)).
  - rewrite app_nil_r. by apply Hm.
  - rewrite app_nil_r. by apply Hm.
Qed.

(** A step that always ends normally. *)
Lemma Stops_normal {A} (m : M A) :
  (∀ w, abrupt (completion (m w)) = None) → Stops cfg T m.
Proof. intros Hm w c _. by rewrite Hm. Qed.

Lemma Stops_when (b : bool) m : (b = true → Stops cfg T m) → Stops cfg T (when_ b m).
Proof. destruct b; simpl; [auto | intros _]. by apply Stops_normal. Qed.

Lemma Stops_return {A} : T [] None → Stops cfg T (@return_ A).
Proof. by intros H w c _ [= <-]. Qed.

Lemma Stops_exec cmd :
  (∀ code, code ≠ 0 → (∃ h, (sys cmd h).1 = code) → T [Exec cmd] (Some (ExecFailed cmd code))) →
  Stops cfg T (exec_exec sys cmd).
Proof.
  intros H w c _. unfold exec_exec; simpl.
  destruct (decide _) as [Hz|Hnz]; simpl; [done | intros [= <-]].
  apply H; [done | by eexists].
Qed.

Lemma Stops_mkdirP p :
  T [MkdirP p] (Some (ENOTDIR p)) → T [MkdirP p] (Some (EEXIST p)) →
  Stops cfg T (io_mkdirP p).
Proof.
  intros H1 H2 w c _. unfold io_mkdirP.
  destruct (existsb _ _); simpl; [by intros [= <-] | ].
  destruct (is_file _); simpl; [by intros [= <-] | done].
Qed.

Lemma Stops_writeFileSync p data :
  T [] (Some (ENOENT p)) → T [] (Some (ENOTDIR p)) → T [] (Some (EISDIR p)) →
  Stops cfg T (fs_writeFileSync p data).
Proof.
  intros H1 H2 H3 w c _. unfold fs_writeFileSync.
  destruct (is_dir (fs (host w) !! p)); simpl; [by intros [= <-] | ].
  destruct (fs (host w) !! dirname p) as [[|d]|]; simpl; [done | by intros [= <-] ..].
Qed.

Lemma Stops_call body : Stops cfg T body → Stops cfg T (call body).
Proof.
  intros Hb w c Hw. rewrite events_call, completion_call. specialize (Hb w).
  destruct (completion (body w)); simpl in *; [done | done | by apply Hb].
Qed.

End Stops.

(** Proving [Stops] along the text of the script: [side] proves [T] where
    a statement can end the run. *)
Ltac stops_leaf side :=
  first
    [ apply Stops_return; side
    | apply Stops_exec; side
    | apply Stops_mkdirP; side
    | apply Stops_writeFileSync; side
    | apply Stops_normal; intros ?; reflexivity ].

Ltac stops_go side :=
  cbv zeta;
  lazymatch goal with
  | |- Stops _ _ (_ ≫= _) =>
      eapply Stops_bind;
      [ assumption
      | always_go ltac:(exact I)
      | stops_go side
      | let a := fresh "a" in let Ha := fresh "Ha" in
        intros a Ha; cbv beta in Ha; try subst a; stops_go side ]
  | |- Stops _ _ (when_ _ _) =>
      apply Stops_when;
      let Hb := fresh "Hb" in
      intros Hb; first [ cbn in Hb; discriminate Hb | stops_go side ]
  | |- Stops _ _ (if ?b then _ else _) =>
      let Hb := fresh "Hb" in destruct b eqn:Hb; stops_go side
  | |- Stops _ _ (call _) =>
      apply Stops_call; stops_go side
  | |- Stops _ _ (fs_existsSync_val ?v) =>
      apply Stops_normal; intros ?; destruct v; reflexivity
  | |- Stops _ _ ?m =>
      first
        [ stops_leaf side
        | let h := head_of m in unfold h; stops_go side ]
  end.

Lemma early_end_app sys cfg pre evs c :
  early_end sys cfg evs c → early_end sys cfg (pre ++ evs) c.
Proof.
  assert (∀ e, last evs = Some e → last (pre ++ evs) = Some e) as Hlast.
  { intros e He. destruct evs as [|x evs] using rev_ind; [done | ].
    rewrite last_snoc in He. by rewrite app_assoc, last_snoc. }
  destruct c as [[cmd code|p|p|p|p]|]; simpl; try done.
  intros (? & ? & ?). auto.
Qed.


Lemma installAndroidSdk_falsy (sys : Shell)
    apiLevel target arch emulatorBuild ndkVersion cmakeVersion w :
  Js.falsy (env w !! "ANDROID_HOME") = true →
  installAndroidSdk sys apiLevel target arch emulatorBuild ndkVersion cmakeVersion w =
  mkOutcome [ANDROID_HOME_not_set] w (Normal tt).
Proof.
  intros Hhome. rewrite installAndroidSdk_unfold.
  set (body := checkAndroidHome ≫= _).
  change (wp body w (λ o, call (λ _, o) w = mkOutcome [ANDROID_HOME_not_set] w (Normal tt))).
  subst body. unfold checkAndroidHome. wp_steps. rewrite Hhome.
  apply wp_bind_when; [intros _ | intros [=]]. wp_steps. done.
Qed.

Lemma installAndroidSdk_no_setFailed (sys : Shell) cfg
    apiLevel target arch emulatorBuild ndkVersion cmakeVersion :
  Js.falsy (cfg_home cfg) = false →
  Always cfg (λ e, ∀ msg, e ≠ SetFailed msg) (λ _, True)
    (installAndroidSdk sys apiLevel target arch emulatorBuild ndkVersion cmakeVersion).
Proof.
  intros Hhome. always_go ltac:(first [ congruence | intros ?; discriminate ]).
Qed.

(** X1.  [core.setFailed] is called in a run if and only if ANDROID_HOME is
    unset or empty, and then with the message of line 21: every other
    failure is an exception.  In particular a run that is rejected has not
    called [core.setFailed]. *)
Theorem setFailed_iff_no_ANDROID_HOME (sys : Shell)
    apiLevel target arch emulatorBuild ndkVersion cmakeVersion w :
  let run := installAndroidSdk sys apiLevel target arch
               emulatorBuild ndkVersion cmakeVersion w in
  ((∃ msg, SetFailed msg ∈ events run) ↔ Js.falsy (env w !! "ANDROID_HOME") = true)
  ∧ (∀ msg, SetFailed msg ∈ events run → SetFailed msg = ANDROID_HOME_not_set)
  ∧ (∀ e, completion run = Throw e → ∀ msg, SetFailed msg ∉ events run).
Proof.
  intros run.
  assert (Js.falsy (env w !! "ANDROID_HOME") = false → ∀ msg, SetFailed msg ∉ events run)
    as Hnone.
  { intros Hhome msg Hin.
    destruct (installAndroidSdk_no_setFailed sys (config w)
                apiLevel target arch emulatorBuild ndkVersion cmakeVersion Hhome w eq_refl)
      as (Hev & _).
    eapply Forall_forall in Hev; [ | exact Hin]. by apply (Hev msg). }
  destruct (Js.falsy (env w !! "ANDROID_HOME")) eqn:Hhome.
  - subst run. rewrite installAndroidSdk_falsy by done. simpl.
    split; [ | split].
    + split; [done | intros _]. eexists. by left.
    + by intros msg ->%list_elem_of_singleton.
    + by intros e [=].
  - split; [ | split].
    + split; [intros [msg Hin] | done]. by apply Hnone in Hin.
    + intros msg Hin. by apply Hnone in Hin.
    + intros _ _. by apply Hnone.
Qed.

Lemma setFailed_iff_no_ANDROID_HOME_witness :
  let w := mkWorld "linux" ∅ ∅ (mkHost ∅ 0) in
  ∃ msg, SetFailed msg
         ∈ events (installAndroidSdk runner 30 "google_apis" "x86_64" None None None w).
Proof.
  intros w.
  apply (proj1 (setFailed_iff_no_ANDROID_HOME runner 30 "google_apis" "x86_64" None None None w)).
  reflexivity.
Defined.



(** ** What a run leaves as it is (X3, X4, X5) *)

Section Changes.

Variable sys : Shell.
Variable vars : list string.

Lemma Changes_bind {A B} (m : M A) (k : A → M B) :
  Changes vars m → (∀ a, Changes vars (k a)) → Changes vars (m ≫= k).
Proof.
  intros Hm Hk w name Hname. rewrite final_bind.
  destruct (completion (m w)); [ | by apply Hm ..].
  rewrite (Hk a) by done. by apply Hm.
Qed.

(** A step that leaves the environment as it is. *)
Lemma Changes_none {A} (m : M A) : (∀ w, env (final (m w)) = env w) → Changes vars m.
Proof. intros Hm w name _. by rewrite Hm. Qed.

Lemma Changes_exportVariable name val :
  name ∈ vars → Changes vars (core_exportVariable name val).
Proof.
  intros Hin w name' Hname. simpl. rewrite lookup_insert_ne; [done | by intros ->].
Qed.

Lemma Changes_addPath p : "PATH" ∈ vars → Changes vars (core_addPath p).
Proof.
  intros Hin w name' Hname. simpl. rewrite lookup_insert_ne; [done | by intros <-].
Qed.

Lemma Changes_when (b : bool) m : Changes vars m → Changes vars (when_ b m).
Proof. destruct b; [done | intros _]. by apply Changes_none. Qed.

Lemma Changes_call body : Changes vars body → Changes vars (call body).
Proof. intros Hb w name Hname. rewrite final_call. by apply Hb. Qed.

Lemma Changes_mkdirP p : Changes vars (io_mkdirP p).
Proof.
  apply Changes_none. intros w. unfold io_mkdirP.
  destruct (existsb _ _); [done | by destruct (is_file _)].
Qed.

Lemma Changes_writeFileSync p data : Changes vars (fs_writeFileSync p data).
Proof.
  apply Changes_none. intros w. unfold fs_writeFileSync.
  destruct (is_dir (fs (host w) !! p)); [done | ].
  by destruct (fs (host w) !! dirname p) as [[|c]|].
Qed.

Lemma Changes_existsSync_val v : Changes vars (fs_existsSync_val v).
Proof. apply Changes_none. intros w. by destruct v. Qed.

End Changes.

(** Proving [Changes] along the text of the script. *)
Ltac changes_go :=
  cbv zeta;
  lazymatch goal with
  | |- Changes _ (_ ≫= _) => apply Changes_bind; [ changes_go | intros ?; changes_go ]
  | |- Changes _ (when_ _ _) => apply Changes_when; changes_go
  | |- Changes _ (if ?b then _ else _) => destruct b; changes_go
  | |- Changes _ (call _) => apply Changes_call; changes_go
  | |- Changes _ (core_exportVariable _ _) => apply Changes_exportVariable; set_solver
  | |- Changes _ (core_addPath _) => apply Changes_addPath; set_solver
  | |- Changes _ (io_mkdirP _) => apply Changes_mkdirP
  | |- Changes _ (fs_writeFileSync _ _) => apply Changes_writeFileSync
  | |- Changes _ (fs_existsSync_val _) => apply Changes_existsSync_val
  | |- Changes _ ?m =>
      first
        [ apply Changes_none; intros ?; reflexivity
        | let h := head_of m in unfold h; changes_go ]
  end.

(** [Keeps] for a relation that is reflexive and transitive. *)
Section Keeps.

Variable sys : Shell.
Variable cfg : Config.
Variable I : World → World → Prop.
Hypothesis I_refl : ∀ w, I w w.
Hypothesis I_trans : ∀ w1 w2 w3, I w1 w2 → I w2 w3 → I w1 w3.

Lemma Keeps_bind {A B} (R : A → Prop) (m : M A) (k : A → M B) :
  Always cfg (λ _, True) R m → Keeps cfg I m → (∀ a, R a → Keeps cfg I (k a)) →
  Keeps cfg I (m ≫= k).
Proof.
  intros Hal Hm Hk w Hw. destruct (Hal w Hw) as (_ & Hf & Hr & _).
  rewrite final_bind. destruct (completion (m w)) as [a| |e]; [ | by apply Hm ..].
  eapply I_trans; [by apply Hm | by apply (Hk a); auto].
Qed.

(** A step that leaves the world as it is. *)
Lemma Keeps_same {A} (m : M A) : (∀ w, final (m w) = w) → Keeps cfg I m.
Proof. intros Hm w _. by rewrite Hm. Qed.

Lemma Keeps_when (b : bool) m : (b = true → Keeps cfg I m) → Keeps cfg I (when_ b m).
Proof. destruct b; simpl; [auto | intros _]. by apply Keeps_same. Qed.

Lemma Keeps_call body : Keeps cfg I body → Keeps cfg I (call body).
Proof. intros Hb w Hw. rewrite final_call. by apply Hb. Qed.

End Keeps.

(** Proving [Keeps] along the text of the script; [side] proves it for a
    statement that changes the world. *)
Ltac keeps_go side :=
  cbv zeta;
  lazymatch goal with
  | |- Keeps _ _ (_ ≫= _) =>
      eapply Keeps_bind;
      [ assumption
      | always_go ltac:(exact I)
      | keeps_go side
      | let a := fresh "a" in let Ha := fresh "Ha" in
        intros a Ha; cbv beta in Ha; try subst a; keeps_go side ]
  | |- Keeps _ _ (when_ _ _) =>
      apply Keeps_when; [ assumption | ];
      let Hb := fresh "Hb" in
      intros Hb; first [ cbn in Hb; discriminate Hb | keeps_go side ]
  | |- Keeps _ _ (if ?b then _ else _) =>
      let Hb := fresh "Hb" in destruct b eqn:Hb; keeps_go side
  | |- Keeps _ _ (call _) => apply Keeps_call; keeps_go side
  | |- Keeps _ _ (exec_exec _ _) => side
  | |- Keeps _ _ (io_mkdirP _) => side
  | |- Keeps _ _ (io_rmRF _) => side
  | |- Keeps _ _ (fs_writeFileSync _ _) => side
  | |- Keeps _ _ (core_exportVariable _ _) => side
  | |- Keeps _ _ (core_addPath _) => side
  | |- Keeps _ _ (fs_existsSync_val ?v) =>
      apply Keeps_same; [ assumption | intros ?; destruct v; reflexivity ]
  | |- Keeps _ _ ?m =>
      first
        [ apply Keeps_same; [ assumption | intros ?; reflexivity ]
        | let h := head_of m in unfold h; keeps_go side ]
  end.

(** What a run exports. *)

Ltac exports_side :=
  cbn [exports_of cfg_home config];
  first
    [ exact I
    | left; split; reflexivity
    | right; split; [reflexivity | eexists; reflexivity]
    | reflexivity ].

Lemma exports_Always (sys : Shell) cfg
    apiLevel target arch emulatorBuild ndkVersion cmakeVersion :
  Always cfg (exports_of (Js.tpl (cfg_home cfg))) (λ _, True)
    (installAndroidSdk sys apiLevel target arch emulatorBuild ndkVersion cmakeVersion).
Proof. always_go exports_side. Qed.

(** What a run asks of the file system by itself. *)

Ltac own_side :=
  cbn [own_operation cfg_home cfg_platform config];
  first
    [ exact I
    | reflexivity
    | left; reflexivity
    | right; split; [assumption | first [left; reflexivity | right; reflexivity]]
    | left; split; [reflexivity | ];
      match goal with
      | Hb : _ && _ = true |- _ => by apply andb_prop in Hb as [Hb%negb_true_iff _]
      end
    | right; split; [reflexivity | ];
      match goal with
      | Hb : _ && _ = true |- _ => by apply andb_prop in Hb as [Hb%bool_decide_eq_true _]
      end ].

Lemma own_operation_Always (sys : Shell) cfg
    apiLevel target arch emulatorBuild ndkVersion cmakeVersion :
  Always cfg
    (own_operation (String.eqb (cfg_platform cfg) "darwin") (Js.tpl (cfg_home cfg))
       apiLevel emulatorBuild)
    (λ _, True)
    (installAndroidSdk sys apiLevel target arch emulatorBuild ndkVersion cmakeVersion).
Proof. always_go own_side. Qed.

(** X3.  What a run exports.  Every [core.exportVariable] of a run is of
    ANDROID_SDK_HOME, to [<ANDROID_HOME>/sdk_home], or of PATH, to the new
    tool directories followed by a filtered search path; every
    [core.addPath] is of the three directories of line 58. *)
Theorem installAndroidSdk_exports (sys : Shell)
    apiLevel target arch emulatorBuild ndkVersion cmakeVersion w :
  let run := installAndroidSdk sys apiLevel target arch
               emulatorBuild ndkVersion cmakeVersion w in
  let home := Js.tpl (env w !! "ANDROID_HOME") in
  Forall (exports_of home) (events run).
Proof.
  intros run home.
  by apply (exports_Always sys (config w)
              apiLevel target arch emulatorBuild ndkVersion cmakeVersion w).
Qed.

(** X4.  What a run asks of the file system by itself.  The only
    directory that [io.mkdirP] is asked to make is
    [<ANDROID_HOME>/cmdline-tools]; the only paths that [io.rmRF] is asked
    to remove are [commandlinetools.zip] and, with an emulator build given,
    [<ANDROID_HOME>/emulator] and [emulator.zip]; the only files written
    are the preview license, off macOS, and the arm-dbt license, for API
    level 30, each with its fixed content. *)
Theorem installAndroidSdk_own_operations (sys : Shell)
    apiLevel target arch emulatorBuild ndkVersion cmakeVersion w :
  let isOnMac := String.eqb (platform w) "darwin" in
  let run := installAndroidSdk sys apiLevel target arch
               emulatorBuild ndkVersion cmakeVersion w in
  let home := Js.tpl (env w !! "ANDROID_HOME") in
  Forall (own_operation isOnMac home apiLevel emulatorBuild) (events run).
Proof.
  intros isOnMac run home.
  by apply (own_operation_Always sys (config w)
              apiLevel target arch emulatorBuild ndkVersion cmakeVersion w).
Qed.

Lemma env_io_mkdirP p w : env (final (io_mkdirP p w)) = env w.
Proof. unfold io_mkdirP. destruct (existsb _ _); [done | by destruct (is_file _)]. Qed.

Lemma env_fs_writeFileSync p data w : env (final (fs_writeFileSync p data w)) = env w.
Proof.
  unfold fs_writeFileSync. destruct (is_dir (fs (host w) !! p)); [done | ].
  by destruct (fs (host w) !! dirname p) as [[|c]|].
Qed.

Lemma installAndroidSdk_Keeps_sdk_home (sys : Shell) cfg v
    apiLevel target arch emulatorBuild ndkVersion cmakeVersion :
  Keeps cfg
    (λ w w', env w !! "ANDROID_SDK_HOME" = v
             ∨ env w !! "ANDROID_SDK_HOME" = Some (Js.tpl (cfg_home cfg) +:+ "/sdk_home") →
             env w' !! "ANDROID_SDK_HOME" = v
             ∨ env w' !! "ANDROID_SDK_HOME" = Some (Js.tpl (cfg_home cfg) +:+ "/sdk_home"))
    (installAndroidSdk sys apiLevel target arch emulatorBuild ndkVersion cmakeVersion).
Proof.
  set (I := λ w w' : World, _).
  assert (∀ w, I w w) as Hrefl by (by intros w H).
  assert (∀ w1 w2 w3, I w1 w2 → I w2 w3 → I w1 w3) as Htrans by (subst I; simpl; auto).
  keeps_go ltac:(intros w Hw H; simpl).
  all: try exact H.
  all: rewrite ?lookup_insert_ne by done; try exact H.
  all: try (right; apply lookup_insert_eq).
  all: by rewrite ?env_io_mkdirP, ?env_fs_writeFileSync.
Qed.

(** X5.  The environment after a run.  Every variable but PATH and
    ANDROID_SDK_HOME has the value it had; ANDROID_SDK_HOME has the value
    it had or [<ANDROID_HOME>/sdk_home]; platform and inputs are as they
    were. *)
Theorem installAndroidSdk_environment (sys : Shell)
    apiLevel target arch emulatorBuild ndkVersion cmakeVersion w :
  let run := installAndroidSdk sys apiLevel target arch
               emulatorBuild ndkVersion cmakeVersion w in
  let home := Js.tpl (env w !! "ANDROID_HOME") in
  (∀ name, name ≠ "PATH" → name ≠ "ANDROID_SDK_HOME" →
     env (final run) !! name = env w !! name)
  ∧ (env (final run) !! "ANDROID_SDK_HOME" = env w !! "ANDROID_SDK_HOME"
     ∨ env (final run) !! "ANDROID_SDK_HOME" = Some (home +:+ "/sdk_home"))
  ∧ platform (final run) = platform w
  ∧ inputs (final run) = inputs w.
Proof.
  intros run home. split; [ | split].
  - intros name Hpath Hsdk.
    assert (Changes ["PATH"; "ANDROID_SDK_HOME"]
              (installAndroidSdk sys apiLevel target arch
                 emulatorBuild ndkVersion cmakeVersion)) as H by changes_go.
    apply H. by intros [->|[->|?%elem_of_nil]%elem_of_cons]%elem_of_cons.
  - apply (installAndroidSdk_Keeps_sdk_home sys (config w) (env w !! "ANDROID_SDK_HOME")
             apiLevel target arch emulatorBuild ndkVersion cmakeVersion w eq_refl).
    by left.
  - assert (config (final run) = config w) as Hcfg.
    { apply config_final. always_go ltac:(exact I). }
    split; [by apply config_platform | by apply config_inputs].
Qed.

Lemma installAndroidSdk_environment_witness :
  env (final (installAndroidSdk runner 30 "google_apis" "x86_64" None None None linux_fresh))
  !! "ANDROID_HOME" = Some "/sdk".
Proof.
  rewrite (proj1 (installAndroidSdk_environment runner 30 "google_apis" "x86_64" None None None
                    linux_fresh) "ANDROID_HOME"); [reflexivity | discriminate | discriminate].
Defined.

(** ** Following a plan *)

Lemma wp_mono {A} (m : M A) w (Q Q' : Outcome A → Prop) :
  wp m w Q → (∀ o, Q o → Q' o) → wp m w Q'.
Proof. unfold wp. auto. Qed.

Lemma follows_cons {A} e plan (o : Outcome A) :
  follows plan o → follows (e :: plan) (prepend [e] o).
Proof.
  intros (Hp & Hr & Hn). split; [ | split]; simpl.
  - by apply prefix_cons.
  - done.
  - intros a Ha. by rewrite (Hn a).
Qed.

Lemma follows_throw {A} e plan w err :
  follows (e :: plan) (mkOutcome (A := A) [e] w (Throw err)).
Proof. split; [ | done]. apply prefix_cons, prefix_nil. Qed.

Lemma follows_nil {A} w (a : A) : follows [] (mkOutcome [] w (Normal a)).
Proof. done. Qed.

(** The next event of the plan has been emitted. *)
Ltac plan_peel :=
  lazymatch goal with
  | |- wp _ _ (λ o, follows (_ :: _) (prepend [_] o)) =>
      eapply wp_mono; [ | intros ?; apply follows_cons ]
  | |- _ => idtac
  end.

(** One statement of a part that follows its plan. *)
Ltac plan_step :=
  first
    [ wp_step; plan_peel
    | apply wp_bind_exec; [ intros _; plan_peel | intros ? _ _; apply follows_throw ] ].

(** ** The packages (X6, X7) *)

Lemma afterLicenseFiles_run (sys : Shell) isOnMac
    apiLevel target arch emulatorBuild ndkVersion cmakeVersion w :
  follows
    (packagesPlan isOnMac (Js.tpl (env w !! "ANDROID_HOME")) apiLevel target arch
       emulatorBuild ndkVersion cmakeVersion)
    (afterLicenseFiles sys isOnMac apiLevel target arch
       emulatorBuild ndkVersion cmakeVersion w).
Proof.
  apply (wp_last (afterLicenseFiles sys isOnMac apiLevel target arch
                    emulatorBuild ndkVersion cmakeVersion) w).
  unfold packagesPlan, afterLicenseFiles, installBuildTools, installEmulator,
    installSystemImages, installNdk, installCmake.
  destruct (Js.truthy emulatorBuild), (Js.truthy ndkVersion), (Js.truthy cmakeVersion);
    cbn [when_ app]; repeat plan_step; apply follows_nil.
Qed.

(** A run is what it does up to the package manager, and the packages. *)
Lemma installAndroidSdk_parts (sys : Shell)
    apiLevel target arch emulatorBuild ndkVersion cmakeVersion w :
  let isOnMac := String.eqb (platform w) "darwin" in
  installAndroidSdk sys apiLevel target arch emulatorBuild ndkVersion cmakeVersion w =
  call
    (beforePackages sys isOnMac apiLevel;;
     afterLicenseFiles sys isOnMac apiLevel target arch
       emulatorBuild ndkVersion cmakeVersion) w.
Proof.
  intros isOnMac. rewrite installAndroidSdk_unfold. fold isOnMac.
  unfold call, beforePackages, afterLicenseFiles.
  assert ((checkAndroidHome;; ensureBaseSdk sys;; configurePermissions sys isOnMac;;
           installCmdlineTools sys isOnMac;; writeLicenseFiles isOnMac apiLevel;;
           installBuildTools sys apiLevel;; installEmulator sys isOnMac emulatorBuild;;
           installSystemImages sys apiLevel target arch;; installNdk sys ndkVersion;;
           installCmake sys cmakeVersion) w =
          ((checkAndroidHome;; ensureBaseSdk sys;; configurePermissions sys isOnMac;;
            installCmdlineTools sys isOnMac;; writeLicenseFiles isOnMac apiLevel) ≫= λ _,
           installBuildTools sys apiLevel;; installEmulator sys isOnMac emulatorBuild;;
           installSystemImages sys apiLevel target arch;; installNdk sys ndkVersion;;
           installCmake sys cmakeVersion) w) as ->; [ | done].
  symmetry. regroup.
Qed.

Lemma beforePackages_Stops (sys : Shell) cfg isOnMac apiLevel :
  isOnMac = String.eqb (cfg_platform cfg) "darwin" →
  Stops cfg (early_end sys cfg) (beforePackages sys isOnMac apiLevel).
Proof.
  intros ->. pose proof (early_end_app sys cfg) as Happ.
  stops_go ltac:(intros; simpl; repeat split; auto).
Qed.

Lemma beforePackages_config (sys : Shell) isOnMac apiLevel w :
  config (final (beforePackages sys isOnMac apiLevel w)) = config w.
Proof. apply config_final. always_go ltac:(exact I). Qed.

(** A run with ANDROID_HOME that ends normally has got through every
    statement. *)
Lemma installAndroidSdk_completed (sys : Shell)
    apiLevel target arch emulatorBuild ndkVersion cmakeVersion w :
  let isOnMac := String.eqb (platform w) "darwin" in
  let run := installAndroidSdk sys apiLevel target arch
               emulatorBuild ndkVersion cmakeVersion w in
  Js.falsy (env w !! "ANDROID_HOME") = false →
  completion run = Normal tt →
  ∃ w1, reaches (beforePackages sys isOnMac apiLevel) w tt w1
        ∧ completion (afterLicenseFiles sys isOnMac apiLevel target arch
                        emulatorBuild ndkVersion cmakeVersion w1) = Normal tt.
Proof.
  intros isOnMac run Hhome Hc. subst run.
  rewrite installAndroidSdk_parts, completion_call, completion_bind in Hc. fold isOnMac in Hc.
  pose proof (beforePackages_Stops sys (config w) isOnMac apiLevel eq_refl w) as Hstop.
  pose proof (afterLicenseFiles_run sys isOnMac apiLevel target arch
                emulatorBuild ndkVersion cmakeVersion
                (final (beforePackages sys isOnMac apiLevel w))) as (_ & Hret & _).
  destruct (completion (beforePackages sys isOnMac apiLevel w)) as [[]| |e] eqn:Hb.
  - exists (final (beforePackages sys isOnMac apiLevel w)). split; [done | ].
    destruct (completion (afterLicenseFiles _ _ _ _ _ _ _ _ _)) as [[]| |e]; done.
  - specialize (Hstop None eq_refl eq_refl). simpl in Hstop. congruence.
  - done.
Qed.

Lemma installAndroidSdk_at_packages (sys : Shell)
    apiLevel target arch emulatorBuild ndkVersion cmakeVersion w w1 :
  let isOnMac := String.eqb (platform w) "darwin" in
  let run := installAndroidSdk sys apiLevel target arch
               emulatorBuild ndkVersion cmakeVersion w in
  let tail := afterLicenseFiles sys isOnMac apiLevel target arch
                emulatorBuild ndkVersion cmakeVersion w1 in
  reaches (beforePackages sys isOnMac apiLevel) w tt w1 →
  events run = (events (beforePackages sys isOnMac apiLevel w) ++ events tail)%list
  ∧ completion run = match completion tail with
                     | Return_ => Normal tt
                     | c => c
                     end
  ∧ final run = final tail
  ∧ env w1 !! "ANDROID_HOME" = env w !! "ANDROID_HOME".
Proof.
  intros isOnMac run tail Hreach. subst run.
  rewrite installAndroidSdk_parts, events_call, completion_call, final_call.
  fold isOnMac. rewrite (bind_reaches _ _ w tt w1 Hreach). simpl.
  repeat split. destruct Hreach as [_ <-].
  apply config_env_home, beforePackages_config.
Qed.



Lemma truthy_Some v : Js.truthy v = true → ∃ s, v = Some s ∧ s ≠ "".
Proof.
  destruct v as [s|]; [ | done]. unfold Js.truthy; simpl.
  intros H%negb_true_iff%String.eqb_neq. by exists s.
Qed.

Ltac optional_side :=
  unfold optional_of, sdkmanager_install_ndk, sdkmanager_install_cmake;
  split;
  (let H := fresh "H" in
   intros ? [= H];
   first
     [ discriminate H
     | repeat match goal with
              | Hb : Js.truthy _ = true |- _ =>
                  apply truthy_Some in Hb as (? & -> & ?)
              end;
       apply String.app_inj, (append_inj_r _ _ ("' > /dev/null" +:+ Js.dquote)) in H;
       simpl in H; by subst ]).

Lemma installAndroidSdk_optional_Always (sys : Shell) cfg
    apiLevel target arch emulatorBuild ndkVersion cmakeVersion :
  Always cfg (optional_of ndkVersion cmakeVersion) (λ _, True)
    (installAndroidSdk sys apiLevel target arch emulatorBuild ndkVersion cmakeVersion).
Proof. always_go optional_side. Qed.

(** X7.  The NDK and CMake.  No run asks the package manager for an NDK or
    a CMake other than the version given, or for any when the version is
    undefined or empty; a run with ANDROID_HOME that ends normally has
    asked for each version given. *)
Theorem optional_packages (sys : Shell)
    apiLevel target arch emulatorBuild ndkVersion cmakeVersion w :
  let run := installAndroidSdk sys apiLevel target arch
               emulatorBuild ndkVersion cmakeVersion w in
  Forall (optional_of ndkVersion cmakeVersion) (events run)
  ∧ (Js.falsy (env w !! "ANDROID_HOME") = false → completion run = Normal tt →
     (∀ v, ndkVersion = Some v → v ≠ "" → sdkmanager_install_ndk v ∈ events run)
     ∧ (∀ v, cmakeVersion = Some v → v ≠ "" → sdkmanager_install_cmake v ∈ events run)).
Proof.
  intros run. split.
  - by apply (installAndroidSdk_optional_Always sys (config w)
                apiLevel target arch emulatorBuild ndkVersion cmakeVersion w).
  - intros Hhome Hc.
    destruct (installAndroidSdk_completed sys apiLevel target arch
                emulatorBuild ndkVersion cmakeVersion w Hhome Hc) as (w1 & Hreach & Htail).
    destruct (installAndroidSdk_at_packages sys apiLevel target arch
                emulatorBuild ndkVersion cmakeVersion w w1 Hreach) as (Hev & _).
    destruct (afterLicenseFiles_run sys (String.eqb (platform w) "darwin")
                apiLevel target arch emulatorBuild ndkVersion cmakeVersion w1)
      as (_ & _ & Hplan).
    fold run in Hev. rewrite Hev, (Hplan tt Htail). unfold packagesPlan.
    split; intros v -> Hv.
    + assert (Js.truthy (Some v) = true) as ->
        by (by apply negb_true_iff, String.eqb_neq).
      rewrite !elem_of_app. right. right. right. right. left.
      apply elem_of_cons. right. by left.
    + assert (Js.truthy (Some v) = true) as ->
        by (by apply negb_true_iff, String.eqb_neq).
      rewrite !elem_of_app. right. right. right. right. right.
      apply elem_of_cons. right. by left.
Qed.

Lemma optional_packages_witness :
  sdkmanager_install_ndk "21.0.6113669"
  ∈ events (installAndroidSdk runner 29 "default" "x86" None (Some "21.0.6113669")
              (Some "3.10.2.4988404") linux_warm)
  ∧ sdkmanager_install_cmake "3.10.2.4988404"
    ∈ events (installAndroidSdk runner 29 "default" "x86" None (Some "21.0.6113669")
                (Some "3.10.2.4988404") linux_warm).
Proof.
  destruct (optional_packages runner 29 "default" "x86" None (Some "21.0.6113669")
              (Some "3.10.2.4988404") linux_warm) as [_ H].
  destruct H as [Hndk Hcmake]; [vm_compute; reflexivity | vm_compute; reflexivity | ].
  split; [by apply Hndk | by apply Hcmake].
Defined.

Lemma follows_bind {A B} p1 p2 (m : M A) (k : A → M B) w :
  follows p1 (m w) →
  (∀ a, completion (m w) = Normal a → follows p2 (k a (final (m w)))) →
  follows (p1 ++ p2) ((m ≫= k) w).
Proof.
  intros (Hp & Hr & Hn) Hk. unfold follows.
  rewrite events_bind, completion_bind.
  destruct (completion (m w)) as [x| |err].
  - destruct (Hk x eq_refl) as (Hp' & Hr' & Hn'). rewrite (Hn x eq_refl).
    split; [by apply prefix_app | ]. split; [done | ].
    intros b Hb. by rewrite (Hn' b).
  - done.
  - rewrite app_nil_r. split; [by apply prefix_app_r | done].
Qed.

Lemma follows_starts_as {A B} plan (m : M A) (k : A → M B) w :
  follows plan (m w) → starts_as plan ((m ≫= k) w).
Proof.
  intros (Hp & Hr & Hn). unfold starts_as.
  rewrite events_bind, completion_bind.
  destruct (completion (m w)) as [x| |err].
  - rewrite (Hn x eq_refl). split; [right | intros _]; by apply prefix_app_r.
  - done.
  - rewrite app_nil_r. split; [by left | intros H; by destruct (H err)].
Qed.

Lemma starts_as_call plan body w : starts_as plan (body w) → starts_as plan (call body w).
Proof.
  intros [Hp Hn]. unfold starts_as. rewrite events_call, completion_call.
  split; [done | ]. intros Ha. apply Hn. intros e He. apply (Ha e). by rewrite He.
Qed.

(** ** A runner without the SDK directory (X8, X9) *)

Lemma acceptLicenses_run (sys : Shell) w :
  follows
    (acceptLicensesEvents (Js.tpl (env w !! "ANDROID_HOME"))
       (Js.tpl (env w !! "ANDROID_SDK_HOME")))
    (acceptLicenses sys w).
Proof.
  change (wp (acceptLicenses sys) w
            (follows (acceptLicensesEvents (Js.tpl (env w !! "ANDROID_HOME"))
               (Js.tpl (env w !! "ANDROID_SDK_HOME"))))).
  unfold acceptLicensesEvents, acceptLicenses.
  repeat plan_step. apply follows_nil.
Qed.

Lemma installBaseSdk_no_return (sys : Shell) w : completion (installBaseSdk sys w) ≠ Return_.
Proof.
  assert (Stops (config w) (λ _ c, c ≠ None) (installBaseSdk sys)) as H.
  { assert (∀ (pre evs : list Event) (c : option Error), c ≠ None → c ≠ None) as Happ
      by done.
    stops_go ltac:(done). }
  intros Hc. apply (H w None eq_refl); [by rewrite Hc | done].
Qed.

(** On a runner without the SDK directory [ensureBaseSdk] installs the
    base SDK and accepts the licenses, for the SDK home that
    [installBaseSdk] has just exported. *)
Lemma ensureBaseSdk_fresh (sys : Shell) w home :
  env w !! "ANDROID_HOME" = Some home →
  exists_path (fs (host w)) home = false →
  follows
    (baseSdkEvents (String.eqb (platform w) "darwin") home
       (if exists_path (fs (host w)) (home +:+ "/sdk_home")
        then Some (clock (host w)) else None)
       (Js.or_empty (env w !! "PATH"))
     ++ acceptLicensesEvents home (home +:+ "/sdk_home"))
    (ensureBaseSdk sys w).
Proof.
  intros Hhome Hroot.
  assert (ensureBaseSdk sys w =
          (installBaseSdk sys ≫= λ installed,
           when_ (negb installed)
             (core_setFailed "Could not install base Android SDK.";; return_);;
           licenses ← acceptLicenses sys;
           when_ (negb installed || negb licenses)
             (core_setFailed "Could not accept Android SDK licenses.";; return_)) w) as ->.
  { unfold ensureBaseSdk.
    rewrite (bind_Normal _ _ w [] w (env w !! "ANDROID_HOME") eq_refl), prepend_nil.
    rewrite Hhome.
    rewrite (bind_Normal _ _ w [] w false), prepend_nil; [done | ].
    simpl. unfold fs_existsSync. by rewrite Hroot. }
  pose proof (installBaseSdk_run sys w) as [Hp Hn]. cbv zeta in Hp, Hn.
  rewrite Hhome in Hp, Hn. change (Js.tpl (Some home)) with home in Hp, Hn.
  apply follows_bind.
  - split; [exact Hp | ]. split; [apply installBaseSdk_no_return | ].
    intros b Hb. by apply Hn in Hb as (_ & Hb & _).
  - intros b Hb. apply Hn in Hb as (-> & _ & Henv).
    set (w1 := final (installBaseSdk sys w)) in *.
    assert (env w1 !! "ANDROID_HOME" = Some home) as Hhome1
      by (by rewrite Henv, !lookup_insert_ne).
    assert (env w1 !! "ANDROID_SDK_HOME" = Some (home +:+ "/sdk_home")) as Hsdk1.
    { rewrite Henv, lookup_insert_ne by done. apply lookup_insert_eq. }
    pose proof (acceptLicenses_run sys w1) as Hacc. rewrite Hhome1, Hsdk1 in Hacc.
    change (Js.tpl (Some ?x)) with x in Hacc.
    pose proof (acceptLicenses_Always sys (config w1) (λ _, True)) as Htrue.
    destruct (Htrue ltac:(done) ltac:(done) w1 eq_refl) as (_ & _ & Hb & _).
    simpl. rewrite (bind_Normal _ _ w1 [] w1 tt eq_refl), prepend_nil.
    rewrite <- (app_nil_r (acceptLicensesEvents _ _)).
    apply follows_bind; [exact Hacc | ].
    intros b Hc. rewrite (Hb b Hc). simpl. by apply follows_nil.
Qed.

Lemma checkAndroidHome_truthy w :
  Js.falsy (env w !! "ANDROID_HOME") = false →
  checkAndroidHome w = mkOutcome [] w (Normal tt).
Proof.
  intros Hhome. unfold checkAndroidHome.
  rewrite (bind_Normal _ _ w [] w (env w !! "ANDROID_HOME") eq_refl), prepend_nil.
  by rewrite Hhome.
Qed.

Lemma falsy_Some home : home ≠ "" → Js.falsy (Some home) = false.
Proof. intros H. by apply String.eqb_neq. Qed.

(** A run with ANDROID_HOME is the base SDK step and what follows it. *)
Lemma installAndroidSdk_at_base (sys : Shell)
    apiLevel target arch emulatorBuild ndkVersion cmakeVersion w :
  let isOnMac := String.eqb (platform w) "darwin" in
  Js.falsy (env w !! "ANDROID_HOME") = false →
  installAndroidSdk sys apiLevel target arch emulatorBuild ndkVersion cmakeVersion w =
  call
    (ensureBaseSdk sys;;
     configurePermissions sys isOnMac;;
     installCmdlineTools sys isOnMac;;
     afterCmdlineTools sys isOnMac apiLevel target arch
       emulatorBuild ndkVersion cmakeVersion) w.
Proof.
  intros isOnMac Hhome. rewrite installAndroidSdk_unfold. fold isOnMac.
  unfold call, afterCmdlineTools.
  by rewrite (bind_Normal _ _ w [] w tt (checkAndroidHome_truthy w Hhome)), prepend_nil.
Qed.

Lemma Forall_events_bind {A B} (P : Event → Prop) (m : M A) (k : A → M B) w :
  Forall P (events (m w)) →
  (∀ a, completion (m w) = Normal a → Forall P (events (k a (final (m w))))) →
  Forall P (events ((m ≫= k) w)).
Proof.
  intros Hm Hk. rewrite events_bind. apply Forall_app. split; [done | ].
  destruct (completion (m w)); [by apply Hk | done | done].
Qed.

Lemma Forall_prefix {X} (P : X → Prop) (l1 l2 : list X) :
  l1 `prefix_of` l2 → Forall P l2 → Forall P l1.
Proof. intros [l ->] H. by apply Forall_app in H as [H _]. Qed.

(** X8.  A runner without the SDK directory.  The run starts with the
    events of [installBaseSdk] followed by those of [acceptLicenses], as
    far as it gets, and with all of them when it ends normally;
    [acceptLicenses] works on [<ANDROID_HOME>/sdk_home], the SDK home that
    [installBaseSdk] has just exported, whatever ANDROID_SDK_HOME was
    before. *)
Theorem fresh_install (sys : Shell)
    apiLevel target arch emulatorBuild ndkVersion cmakeVersion w home :
  let run := installAndroidSdk sys apiLevel target arch
               emulatorBuild ndkVersion cmakeVersion w in
  let plan :=
    (baseSdkEvents (String.eqb (platform w) "darwin") home
       (if exists_path (fs (host w)) (home +:+ "/sdk_home")
        then Some (clock (host w)) else None)
       (Js.or_empty (env w !! "PATH"))
     ++ acceptLicensesEvents home (home +:+ "/sdk_home"))%list in
  env w !! "ANDROID_HOME" = Some home → home ≠ "" →
  exists_path (fs (host w)) home = false →
  (events run `prefix_of` plan ∨ plan `prefix_of` events run)
  ∧ (completion run = Normal tt → plan `prefix_of` events run).
Proof.
  intros run plan Hhome Hne Hroot.
  assert (starts_as plan run) as [Hp Hn].
  { subst run. rewrite installAndroidSdk_at_base by (rewrite Hhome; by apply falsy_Some).
    by apply starts_as_call, follows_starts_as, ensureBaseSdk_fresh. }
  split; [exact Hp | ]. intros Hc. apply Hn. intros e He.
  rewrite He in Hc. discriminate Hc.
Qed.

Lemma fresh_install_witness :
  let w := set_env <["ANDROID_SDK_HOME" := "/home/runner/.android"]> linux_fresh in
  (baseSdkEvents false "/sdk" None "/usr/bin:/opt/Android/tools"
   ++ acceptLicensesEvents "/sdk" "/sdk/sdk_home")%list
  `prefix_of`
  events (installAndroidSdk runner 30 "google_apis" "x86_64" None None None w).
Proof.
  intros w.
  refine (proj2 (fresh_install runner 30 "google_apis" "x86_64" None None None w "/sdk"
                   _ _ _) _);
    [ reflexivity | discriminate | vm_compute; reflexivity | vm_compute; reflexivity ].
Defined.

Lemma falsy_false v : Js.falsy v = false → ∃ s, v = Some s ∧ s ≠ "".
Proof.
  destruct v as [s|]; [ | done]. simpl. intros H%String.eqb_neq. by exists s.
Qed.

Lemma afterBaseSdk_no_backup (sys : Shell) cfg isOnMac
    apiLevel target arch emulatorBuild ndkVersion cmakeVersion :
  Always cfg (λ e, backs_up e = false) (λ _, True)
    (configurePermissions sys isOnMac;;
     installCmdlineTools sys isOnMac;;
     afterCmdlineTools sys isOnMac apiLevel target arch
       emulatorBuild ndkVersion cmakeVersion).
Proof. always_go ltac:(reflexivity). Qed.

Lemma ensureBaseSdk_config (sys : Shell) w :
  config (final (ensureBaseSdk sys w)) = config w.
Proof. apply config_final. always_go ltac:(exact I). Qed.

(** X9.  The backup of line 110 is out of reach of [installAndroidSdk].
    On a filesystem where [<ANDROID_HOME>/sdk_home] exists only if
    [<ANDROID_HOME>] does, no run issues the [mv] of the backup:
    [installBaseSdk] is called only when [<ANDROID_HOME>] does not
    exist. *)
Theorem backup_out_of_reach (sys : Shell)
    apiLevel target arch emulatorBuild ndkVersion cmakeVersion w :
  let run := installAndroidSdk sys apiLevel target arch
               emulatorBuild ndkVersion cmakeVersion w in
  let home := Js.tpl (env w !! "ANDROID_HOME") in
  (exists_path (fs (host w)) (home +:+ "/sdk_home") = true →
   exists_path (fs (host w)) home = true) →
  Forall (λ e, backs_up e = false) (events run).
Proof.
  intros run home Htree. subst run.
  destruct (Js.falsy (env w !! "ANDROID_HOME")) eqn:Hfalsy.
  { rewrite installAndroidSdk_falsy by done. by repeat constructor. }
  rewrite installAndroidSdk_at_base, events_call by done.
  apply falsy_false in Hfalsy as (h & Hhome & Hne).
  subst home. rewrite Hhome in Htree. change (Js.tpl (Some h)) with h in Htree.
  apply Forall_events_bind.
  - destruct (exists_path (fs (host w)) h) eqn:Hroot.
    + assert (events (ensureBaseSdk sys w) =
              [Log "Using previous installation of base Android SDK, found on ${process.env.ANDROID_HOME}"])
        as ->; [ | by repeat constructor].
      unfold ensureBaseSdk.
      rewrite (bind_Normal _ _ w [] w (env w !! "ANDROID_HOME") eq_refl), prepend_nil.
      rewrite Hhome.
      rewrite (bind_Normal _ _ w [] w true), prepend_nil; [done | ].
      simpl. unfold fs_existsSync. by rewrite Hroot.
    + destruct (ensureBaseSdk_fresh sys w h Hhome Hroot) as (Hp & _).
      eapply Forall_prefix; [exact Hp | ].
      destruct (exists_path (fs (host w)) (h +:+ "/sdk_home")); [by specialize (Htree eq_refl) | ].
      unfold baseSdkEvents, acceptLicensesEvents.
      repeat (apply Forall_cons_2; [reflexivity | ]). apply Forall_nil_2.
  - intros [] _.
    by apply (afterBaseSdk_no_backup sys (config (final (ensureBaseSdk sys w)))).
Qed.

Lemma backup_out_of_reach_witness :
  Forall (λ e, backs_up e = false)
    (events (installAndroidSdk runner 30 "google_apis" "x86_64" None None None
               linux_with_sdk_home)).
Proof.
  apply (backup_out_of_reach runner 30 "google_apis" "x86_64" None None None
           linux_with_sdk_home).
  intros _. vm_compute; reflexivity.
Defined.

(** ** The search path that is kept (X10, X11) *)

Lemma join_cons c s l :
  l ≠ [] → Js.join (String c "") (s :: l) = s +:+ String c (Js.join (String c "") l).
Proof. by destruct l. Qed.

(** Joining the segments of a string gives the string back. *)
Lemma join_split c s : Js.join (String c "") (Js.split c s) = s.
Proof.
  induction s as [|a s IH]; simpl; [done | ].
  pose proof (split_not_nil c s) as Hne.
  destruct (Ascii.eqb a c) eqn:Hac.
  - apply Ascii.eqb_eq in Hac as ->. by rewrite join_cons, IH.
  - destruct (Js.split c s) as [|seg segs]; [done | ].
    destruct segs as [|seg' segs].
    + simpl in *. by rewrite IH.
    + rewrite join_cons in IH by done. rewrite <- IH.
      by rewrite join_cons.
Qed.

Lemma filter_all {X} (P : X → Prop) `{∀ x, Decision (P x)} (l : list X) :
  Forall P l → filter P l = l.
Proof.
  induction 1 as [|x l Hx Hl IH]; [done | ].
  by rewrite filter_cons_True, IH.
Qed.

Lemma filter_none {X} (P : X → Prop) `{∀ x, Decision (P x)} (l : list X) :
  Forall (λ x, ¬ P x) l → filter P l = [].
Proof.
  induction 1 as [|x l Hx Hl IH]; [done | ].
  by rewrite filter_cons_False, IH.
Qed.

Lemma pathWithoutAndroid_clean path :
  Forall (λ seg, Js.includes "Android" seg = false) (Js.split ":" path) →
  pathWithoutAndroid path = path.
Proof.
  intros Hclean. unfold pathWithoutAndroid. rewrite filter_all by done.
  apply (join_split ":").
Qed.

Lemma pathWithoutAndroid_idemp path :
  pathWithoutAndroid (pathWithoutAndroid path) = pathWithoutAndroid path.
Proof.
  apply pathWithoutAndroid_clean, Forall_forall. intros seg.
  apply pathWithoutAndroid_segment.
Qed.

Lemma pathWithoutAndroid_none path :
  path = "" ∨ Forall (λ seg, Js.includes "Android" seg = true) (Js.split ":" path) →
  pathWithoutAndroid path = "".
Proof.
  intros [-> | Hall]; [done | ].
  unfold pathWithoutAndroid. rewrite filter_none; [done | ].
  eapply Forall_impl; [exact Hall | ]. intros seg ->. done.
Qed.

(** X10.  A search path without "Android" is kept as it is: when no
    segment of the prior PATH contains "Android", the PATH that
    [installBaseSdk] exports is the new tool directories, a colon and the
    prior PATH unchanged.  Filtering a filtered path changes nothing. *)
Theorem clean_PATH_is_kept (sys : Shell) w b :
  let home := Js.tpl (env w !! "ANDROID_HOME") in
  let prior := Js.or_empty (env w !! "PATH") in
  let o := installBaseSdk sys w in
  completion o = Normal b →
  Forall (λ seg, Js.includes "Android" seg = false) (Js.split ":" prior) →
  env (final o) !! "PATH" = Some (extraPaths home +:+ ":" +:+ prior)
  ∧ pathWithoutAndroid (pathWithoutAndroid prior) = pathWithoutAndroid prior.
Proof.
  intros home prior o Hc Hclean.
  destruct (installBaseSdk_run sys w) as [_ Hn]. apply Hn in Hc as (_ & _ & Henv).
  fold o home prior in Henv. rewrite Henv, lookup_insert_eq.
  by rewrite !pathWithoutAndroid_clean.
Qed.

Lemma clean_PATH_is_kept_witness :
  env (final (installBaseSdk runner linux_warm)) !! "PATH"
  = Some (extraPaths "/sdk" +:+ ":" +:+ "/usr/bin").
Proof.
  refine (proj1 (clean_PATH_is_kept runner linux_warm true _ _));
    [ vm_compute; reflexivity | by repeat constructor ].
Defined.

(** X11.  When PATH is unset or empty, or each of its segments contains
    "Android", the PATH that [installBaseSdk] exports is the new tool
    directories followed by a colon: its last segment is empty. *)
Theorem empty_PATH_trailing_colon (sys : Shell) w b :
  let home := Js.tpl (env w !! "ANDROID_HOME") in
  let o := installBaseSdk sys w in
  completion o = Normal b →
  env w !! "PATH" = None ∨ env w !! "PATH" = Some ""
  ∨ (∃ prior, env w !! "PATH" = Some prior
              ∧ Forall (λ seg, Js.includes "Android" seg = true) (Js.split ":" prior)) →
  env (final o) !! "PATH" = Some (extraPaths home +:+ ":")
  ∧ last (Js.split ":" (extraPaths home +:+ ":")) = Some "".
Proof.
  intros home o Hc Hprior.
  destruct (installBaseSdk_run sys w) as [_ Hn]. apply Hn in Hc as (_ & _ & Henv).
  fold o home in Henv. rewrite Henv, lookup_insert_eq. split.
  - rewrite pathWithoutAndroid_none; [done | ].
    destruct Hprior as [-> | [-> | (prior & -> & Hall)]]; [by left | by left | by right].
  - rewrite (split_app ":" (extraPaths home) "").
    change (Js.split ":" "") with [""]. by rewrite last_snoc.
Qed.

Lemma empty_PATH_trailing_colon_witness :
  let w := mkWorld "linux" {[ "ANDROID_HOME" := "/sdk" ]} ∅ (mkHost ∅ 0) in
  env (final (installBaseSdk runner w)) !! "PATH" = Some (extraPaths "/sdk" +:+ ":").
Proof.
  intros w.
  refine (proj1 (empty_PATH_trailing_colon runner w true _ _));
    [ vm_compute; reflexivity | by left ].
Defined.

(** ** The base installer, when a command fails (X12) *)

(** X12.  A rejected base install.  When [installBaseSdk] is rejected, it
    is by a command that exited with a code other than 0, the last thing
    it did; ANDROID_SDK_HOME has been exported and nothing else of the
    environment has changed: PATH is as it was. *)
Theorem installBaseSdk_rejected (sys : Shell) w e :
  let home := Js.tpl (env w !! "ANDROID_HOME") in
  let o := installBaseSdk sys w in
  completion o = Throw e →
  env (final o) = <["ANDROID_SDK_HOME" := home +:+ "/sdk_home"]> (env w)
  ∧ ∃ cmd code, e = ExecFailed cmd code ∧ code ≠ 0 ∧ last (events o) = Some (Exec cmd).
Proof.
  intros home o. subst o.
  set (Q := λ o : Outcome bool,
    completion o = Throw e →
    env (final o) = <["ANDROID_SDK_HOME" := home +:+ "/sdk_home"]> (env w)
    ∧ ∃ cmd code, e = ExecFailed cmd code ∧ code ≠ 0 ∧ last (events o) = Some (Exec cmd)).
  change (wp (installBaseSdk sys) w Q).
  assert (∀ cmd w' code, code ≠ 0 →
            env w' = <["ANDROID_SDK_HOME" := home +:+ "/sdk_home"]> (env w) →
            Q (mkOutcome [Exec cmd] w' (Throw (ExecFailed cmd code)))) as Hthrow.
  { intros cmd w' code Hcode Henv [= <-]. split; [done | ]. by exists cmd, code. }
  assert (∀ ev o, Q o → Q (prepend [ev] o)) as Hpeel.
  { intros ev o Ho Hc. destruct (Ho Hc) as (Henv & cmd & code & -> & Hcode & Hlast).
    split; [done | ]. exists cmd, code. split; [done | ]. split; [done | ].
    simpl. by rewrite last_cons, Hlast. }
  unfold installBaseSdk.
  repeat (first
    [ wp_step
    | apply wp_bind_when; intros _
    | apply wp_bind_exec;
      [ intros _ | intros ? _ ?; apply Hthrow; [ done | outcome_simpl; reflexivity ] ] ];
    lazymatch goal with
    | |- wp _ _ (λ o, _ (prepend [_] o)) =>
        eapply wp_mono; [ | intros ?; apply Hpeel ]
    | |- _ => idtac
    end).
  all: by intros [=].
Qed.

Lemma installBaseSdk_rejected_witness :
  env (final (installBaseSdk (failing (starts_with "unzip")) linux_fresh)) !! "PATH"
  = Some "/usr/bin:/opt/Android/tools".
Proof.
  destruct (installBaseSdk_rejected (failing (starts_with "unzip")) linux_fresh
              (ExecFailed "unzip -q /tmp/android-sdk.zip -d /sdk" 1)) as [Henv _];
    [ vm_compute; reflexivity | ].
  rewrite Henv. reflexivity.
Defined.

(** ** The command-line tools (X13, X14) *)

Lemma installCmdlineTools_skip (sys : Shell) isOnMac w :
  exists_path (fs (host w)) (Js.tpl (env w !! "ANDROID_HOME") +:+ "/cmdline-tools") = true →
  installCmdlineTools sys isOnMac w = mkOutcome [] w (Normal tt).
Proof.
  intros Hex. unfold installCmdlineTools.
  rewrite (bind_Normal _ _ w [] w (Js.tpl (env w !! "ANDROID_HOME")) eq_refl), prepend_nil.
  rewrite (bind_Normal _ _ w [] w true), prepend_nil; [done | ].
  unfold fs_existsSync. by rewrite Hex.
Qed.

Lemma installCmdlineTools_run (sys : Shell) isOnMac w :
  let home := Js.tpl (env w !! "ANDROID_HOME") in
  let o := installCmdlineTools sys isOnMac w in
  exists_path (fs (host w)) (home +:+ "/cmdline-tools") = false →
  follows (cmdlineToolsEvents isOnMac home) o
  ∧ (completion o = Normal tt →
     env (final o) = <["PATH" := cmdlineToolsPaths home +:+ ":" +:+ Js.tpl (env w !! "PATH")]>
                       (env w)).
Proof.
  intros home o Hex. subst o. split.
  - apply (wp_last (installCmdlineTools sys isOnMac) w).
    unfold installCmdlineTools, cmdlineToolsEvents. wp_steps. cbv beta zeta. fold home. rewrite Hex.
    apply wp_bind_when; [intros _ | intros [=]].
    repeat plan_step.
    apply wp_bind_mkdirP; [plan_peel | intros d; apply follows_throw].
    repeat plan_step. apply follows_nil.
  - apply (wp_last (installCmdlineTools sys isOnMac) w
             (λ o, completion o = Normal tt →
                   env (final o) =
                   <["PATH" := cmdlineToolsPaths home +:+ ":" +:+ Js.tpl (env w !! "PATH")]>
                     (env w))).
    unfold installCmdlineTools. wp_steps. cbv beta zeta. fold home. rewrite Hex.
    apply wp_bind_when; [intros _ | intros [=]].
    wp_steps. apply wp_bind_mkdirP; [ | by intros d [=]].
    wp_steps. apply wp_bind_exec; [intros _ | by intros code _ _ [=]].
    wp_steps. apply wp_bind_exec; [intros _ | by intros code _ _ [=]].
    wp_steps. intros _. reflexivity.
Qed.

Lemma afterCmdlineTools_Changes (sys : Shell) isOnMac
    apiLevel target arch emulatorBuild ndkVersion cmakeVersion :
  Changes [] (afterCmdlineTools sys isOnMac apiLevel target arch
                emulatorBuild ndkVersion cmakeVersion).
Proof. changes_go. Qed.

(** A run is what it does up to the command-line tools, their
    installation, and the rest. *)
Lemma installAndroidSdk_at_tools (sys : Shell)
    apiLevel target arch emulatorBuild ndkVersion cmakeVersion w w1 :
  let isOnMac := String.eqb (platform w) "darwin" in
  let run := installAndroidSdk sys apiLevel target arch
               emulatorBuild ndkVersion cmakeVersion w in
  let tail :=
    (installCmdlineTools sys isOnMac;;
     afterCmdlineTools sys isOnMac apiLevel target arch
       emulatorBuild ndkVersion cmakeVersion) w1 in
  reaches (beforeCmdlineTools sys isOnMac) w tt w1 →
  events run = (events (beforeCmdlineTools sys isOnMac w) ++ events tail)%list
  ∧ completion run = match completion tail with
                     | Return_ => Normal tt
                     | c => c
                     end
  ∧ final run = final tail
  ∧ env w1 !! "ANDROID_HOME" = env w !! "ANDROID_HOME".
Proof.
  intros isOnMac run tail Hreach. subst run.
  rewrite installAndroidSdk_unfold, events_call, completion_call, final_call.
  fold isOnMac.
  assert ((checkAndroidHome;; ensureBaseSdk sys;; configurePermissions sys isOnMac;;
           installCmdlineTools sys isOnMac;; writeLicenseFiles isOnMac apiLevel;;
           installBuildTools sys apiLevel;; installEmulator sys isOnMac emulatorBuild;;
           installSystemImages sys apiLevel target arch;; installNdk sys ndkVersion;;
           installCmake sys cmakeVersion) w =
          (beforeCmdlineTools sys isOnMac ≫= λ _,
           installCmdlineTools sys isOnMac;;
           afterCmdlineTools sys isOnMac apiLevel target arch
             emulatorBuild ndkVersion cmakeVersion) w) as ->.
  { unfold beforeCmdlineTools, afterCmdlineTools. symmetry. regroup. }
  rewrite (bind_reaches _ _ w tt w1 Hreach). simpl.
  repeat split. destruct Hreach as [_ <-].
  apply config_env_home, config_final. always_go ltac:(exact I).
Qed.

(** X13.  The command-line tools.  When a run gets to line 48 and the
    cmdline-tools directory does not exist, it goes on with the plan
    [cmdlineToolsEvents] as far as it gets: it makes the directory,
    downloads the archive for the platform, unpacks it there, removes the
    archive, adds the three directories to the search path.  When the run
    ends normally, PATH is these directories, a colon and the PATH of
    before line 58. *)
Theorem cmdline_tools_installation (sys : Shell)
    apiLevel target arch emulatorBuild ndkVersion cmakeVersion w w1 :
  let isOnMac := String.eqb (platform w) "darwin" in
  let run := installAndroidSdk sys apiLevel target arch
               emulatorBuild ndkVersion cmakeVersion w in
  let home := Js.tpl (env w !! "ANDROID_HOME") in
  let plan := cmdlineToolsEvents isOnMac home in
  reaches (beforeCmdlineTools sys isOnMac) w tt w1 →
  exists_path (fs (host w1)) (home +:+ "/cmdline-tools") = false →
  ∃ evs,
    events run = (events (beforeCmdlineTools sys isOnMac w) ++ evs)%list
    ∧ (evs `prefix_of` plan ∨ plan `prefix_of` evs)
    ∧ (completion run = Normal tt →
       plan `prefix_of` evs
       ∧ env (final run) !! "PATH"
         = Some (cmdlineToolsPaths home +:+ ":" +:+ Js.tpl (env w1 !! "PATH"))).
Proof.
  intros isOnMac run home plan Hreach Hex.
  destruct (installAndroidSdk_at_tools sys apiLevel target arch
              emulatorBuild ndkVersion cmakeVersion w w1 Hreach) as (Hev & Hc & Hf & Hhome).
  fold isOnMac run in Hev, Hc, Hf.
  destruct (installCmdlineTools_run sys isOnMac w1) as [Hplan Henv];
    [by rewrite Hhome | ].
  rewrite Hhome in Hplan, Henv. fold home plan in Hplan, Henv.
  set (after := afterCmdlineTools sys isOnMac apiLevel target arch
                  emulatorBuild ndkVersion cmakeVersion) in *.
  destruct (follows_starts_as plan (installCmdlineTools sys isOnMac) (λ _, after) w1 Hplan)
    as [Hp Hn].
  eexists. split; [exact Hev | ]. split; [exact Hp | ].
  intros Hrun. rewrite Hrun in Hc. split.
  - apply Hn. intros e He. by rewrite He in Hc.
  - rewrite Hf, final_bind.
    rewrite completion_bind in Hc.
    destruct Hplan as (_ & Hret & _).
    destruct (completion (installCmdlineTools sys isOnMac w1)) as [[]| |e]; [ | done | done].
    rewrite (afterCmdlineTools_Changes sys isOnMac apiLevel target arch
               emulatorBuild ndkVersion cmakeVersion _ "PATH") by apply not_elem_of_nil.
    rewrite Henv by done. apply lookup_insert_eq.
Qed.

Lemma cmdline_tools_installation_witness :
  env (final (installAndroidSdk runner 30 "google_apis" "x86_64" None None None linux_fresh))
  !! "PATH"
  = Some (cmdlineToolsPaths "/sdk" +:+ ":" +:+ extraPaths "/sdk" +:+ ":/usr/bin").
Proof.
  destruct (cmdline_tools_installation runner 30 "google_apis" "x86_64" None None None
              linux_fresh (final (beforeCmdlineTools runner false linux_fresh)))
    as (evs & _ & _ & H);
    [ split; [vm_compute; reflexivity | reflexivity] | vm_compute; reflexivity | ].
  destruct H as [_ H]; [vm_compute; reflexivity | ].
  rewrite H. vm_compute. reflexivity.
Defined.

Lemma lookup_foldr_insert_Dir_in (f : gmap string Node) dirs q :
  q ∈ dirs → foldr (λ d g, <[d := Dir]> g) f dirs !! q = Some Dir.
Proof.
  induction dirs as [|d dirs IH]; simpl; [by intros ?%elem_of_nil | ].
  destruct (decide (q = d)) as [-> | Hne]; [by rewrite lookup_insert_eq | ].
  intros [? | Hin]%elem_of_cons; [done | ]. by rewrite lookup_insert_ne, IH.
Qed.

Lemma io_mkdirP_made p w :
  completion (io_mkdirP p w) = Normal tt →
  io_mkdirP p w =
    mkOutcome [MkdirP p]
      (set_fs (λ f, foldr (λ d g, <[d := Dir]> g) f (ancestors p ++ [p])%list) w) (Normal tt)
  ∧ is_dir (fs (host (final (io_mkdirP p w))) !! p) = true.
Proof.
  unfold io_mkdirP. destruct (existsb _ _); [done | ].
  destruct (is_file _); [done | intros _]. split; [done | ].
  simpl. rewrite lookup_foldr_insert_Dir_in; [done | ].
  apply elem_of_app. right. by left.
Qed.

Lemma wp_bind_mkdirP_ok {B} p (h : unit → M B) w Q :
  completion (io_mkdirP p w) = Normal tt →
  wp (h tt)
    (set_fs (λ f, foldr (λ d g, <[d := Dir]> g) f (ancestors p ++ [p])%list) w)
    (λ o, Q (prepend [MkdirP p] o)) →
  wp (io_mkdirP p ≫= h) w Q.
Proof.
  intros Hmk Hok. apply io_mkdirP_made in Hmk as [Hmk _].
  unfold wp. by rewrite (bind_Normal _ _ w _ _ tt Hmk).
Qed.

(** X14.  A failed download of the command-line tools leaves their
    directory behind.  When a run gets to line 48 without that directory,
    makes it, and the download of line 53 exits with a code other than 0,
    the run is rejected by that command, and the directory was there when
    the command ran; if the command leaves it, it is there after the run,
    so that the next run takes the command-line tools for installed. *)
Theorem cmdline_tools_download_fails (sys : Shell)
    apiLevel target arch emulatorBuild ndkVersion cmakeVersion w w1 code :
  let isOnMac := String.eqb (platform w) "darwin" in
  let run := installAndroidSdk sys apiLevel target arch
               emulatorBuild ndkVersion cmakeVersion w in
  let tools := Js.tpl (env w !! "ANDROID_HOME") +:+ "/cmdline-tools" in
  let download :=
    "curl -fo commandlinetools.zip "
    +:+ (if isOnMac then CMDLINE_TOOLS_URL_MAC else CMDLINE_TOOLS_URL_LINUX) in
  let made := host (final (io_mkdirP tools w1)) in
  reaches (beforeCmdlineTools sys isOnMac) w tt w1 →
  exists_path (fs (host w1)) tools = false →
  completion (io_mkdirP tools w1) = Normal tt →
  (sys download made).1 = code → code ≠ 0 →
  completion run = Throw (ExecFailed download code)
  ∧ host (final run) = (sys download made).2
  ∧ is_dir (fs made !! tools) = true
  ∧ (fs (sys download made).2 !! tools = fs made !! tools →
     exists_path (fs (host (final run))) tools = true).
Proof.
  intros isOnMac run tools download made Hreach Hex Hmk Hcode Hne.
  destruct (installAndroidSdk_at_tools sys apiLevel target arch
              emulatorBuild ndkVersion cmakeVersion w w1 Hreach) as (_ & Hc & Hf & Hhome).
  fold isOnMac run in Hc, Hf.
  destruct (io_mkdirP_made tools w1 Hmk) as [Hmade Hdir]. fold made in Hdir.
  set (after := afterCmdlineTools sys isOnMac apiLevel target arch
                  emulatorBuild ndkVersion cmakeVersion) in *.
  assert (made =
          host (set_fs (λ f, foldr (λ d g, <[d := Dir]> g) f (ancestors tools ++ [tools])%list)
                  w1)) as Hmadeq by (subst made; by rewrite Hmade).
  clearbody made. subst made.
  set (w2 := set_fs _ w1) in *.
  assert (wp (installCmdlineTools sys isOnMac;; after) w1
            (λ o, completion o = Throw (ExecFailed download code)
                  ∧ host (final o) = (sys download (host w2)).2)) as [Hc' Hf'].
  { unfold installCmdlineTools. wp_steps. cbv beta zeta. rewrite Hhome. fold tools.
    rewrite Hex. apply wp_bind_when; [intros _ | intros [=]].
    wp_steps. cbv beta zeta. rewrite Hhome. fold tools.
    apply wp_bind_mkdirP_ok; [exact Hmk | fold w2].
    wp_steps. fold download.
    apply wp_bind_exec; rewrite Hcode; [done | ].
    intros code' <- _. done. }
  rewrite Hc, Hf, Hc', Hf'. repeat split; [done | ].
  intros Hkeep. unfold exists_path. rewrite Hkeep.
  apply bool_decide_eq_true. by destruct (fs (host w2) !! tools) as [[]|].
Qed.

Lemma cmdline_tools_download_fails_witness :
  let run := installAndroidSdk (failing (starts_with "curl -fo")) 30 "google_apis" "x86_64"
               None None None linux_fresh in
  exists_path (fs (host (final run))) "/sdk/cmdline-tools" = true.
Proof.
  intros run.
  apply (cmdline_tools_download_fails (failing (starts_with "curl -fo")) 30 "google_apis"
           "x86_64" None None None linux_fresh
           (final (beforeCmdlineTools (failing (starts_with "curl -fo")) false linux_fresh)) 1);
    [ split; [vm_compute; reflexivity | reflexivity]
    | vm_compute; reflexivity
    | vm_compute; reflexivity
    | vm_compute; reflexivity
    | discriminate
    | reflexivity ].
Defined.

(** ** Platform branching (C5) *)

Ltac platform_side :=
  unfold on_platform, base_sdk_download, cmdline_tools_download, chown_step,
    chown_command;
  cbn [cfg_platform cfg_inputs config];
  repeat split;
  (let H := fresh "H" in
   intros ? [= H];
   repeat match goal with
          | Heq : (_ =? _)%string = _ |- _ => rewrite Heq in H
          end;
   first
     [ discriminate H
     | apply String.app_inj in H; simpl in H; by subst
     | apply String.app_inj, (append_inj_r _ _ " -o /tmp/android-sdk.zip -s") in H;
       simpl in H; by subst
     | match goal with
       | Hb : _ && _ = true |- _ =>
           apply andb_prop in Hb as [_ Hb]; apply String.eqb_eq in Hb; exact Hb
       end ]).

(** The base SDK is downloaded when there is no SDK directory. *)
Lemma base_sdk_downloaded (sys : Shell)
    apiLevel target arch emulatorBuild ndkVersion cmakeVersion w :
  let isOnMac := String.eqb (platform w) "darwin" in
  let run := installAndroidSdk sys apiLevel target arch
               emulatorBuild ndkVersion cmakeVersion w in
  let home := Js.tpl (env w !! "ANDROID_HOME") in
  Js.truthy (env w !! "ANDROID_HOME") = true →
  exists_path (fs (host w)) home = false →
  exists_path (fs (host w)) (home +:+ "/sdk_home") = false →
  base_sdk_download
    (if isOnMac then BASE_ANDROID_SDK_URL_MAC else BASE_ANDROID_SDK_URL_LINUX)
  ∈ events run.
Proof.
  intros isOnMac run home Htruthy Hroot Hsdk. subst run.
  apply truthy_Some in Htruthy as (h & Hhome & Hne).
  rewrite installAndroidSdk_at_base, events_call by (rewrite Hhome; by apply falsy_Some).
  fold isOnMac. set (rest := configurePermissions _ _ ≫= _).
  subst home. rewrite Hhome in Hroot, Hsdk. change (Js.tpl (Some h)) with h in Hroot, Hsdk.
  change (wp (ensureBaseSdk sys;; rest) w
            (λ o, base_sdk_download
                    (if isOnMac then BASE_ANDROID_SDK_URL_MAC else BASE_ANDROID_SDK_URL_LINUX)
                  ∈ events o)).
  unfold ensureBaseSdk. wp_steps. rewrite Hhome. cbv beta iota. rewrite Hroot.
  unfold installBaseSdk. wp_steps. fold isOnMac.
  rewrite Hhome. change (Js.tpl (Some h)) with h.
  wp_steps. change (host (set_env ?f w)) with (host w). rewrite Hsdk.
  apply wp_bind_when; [intros [=] | intros _].
  wp_steps. apply wp_bind_exec; [intros _; unfold wp | intros code _ _]; outcome_simpl; set_solver.
Qed.

(** The command-line tools are downloaded when line 48 is reached without
    their directory and line 52 makes it. *)
Lemma cmdline_tools_downloaded (sys : Shell)
    apiLevel target arch emulatorBuild ndkVersion cmakeVersion w w1 :
  let isOnMac := String.eqb (platform w) "darwin" in
  let run := installAndroidSdk sys apiLevel target arch
               emulatorBuild ndkVersion cmakeVersion w in
  let tools := Js.tpl (env w !! "ANDROID_HOME") +:+ "/cmdline-tools" in
  reaches (beforeCmdlineTools sys isOnMac) w tt w1 →
  exists_path (fs (host w1)) tools = false →
  completion (io_mkdirP tools w1) = Normal tt →
  cmdline_tools_download
    (if isOnMac then CMDLINE_TOOLS_URL_MAC else CMDLINE_TOOLS_URL_LINUX)
  ∈ events run.
Proof.
  intros isOnMac run tools Hreach Hex Hmk.
  destruct (installAndroidSdk_at_tools sys apiLevel target arch
              emulatorBuild ndkVersion cmakeVersion w w1 Hreach) as (Hev & _ & _ & Hhome).
  fold isOnMac run in Hev. rewrite Hev. apply elem_of_app. right.
  set (after := afterCmdlineTools sys isOnMac apiLevel target arch
                  emulatorBuild ndkVersion cmakeVersion).
  change (wp (installCmdlineTools sys isOnMac;; after) w1
            (λ o, cmdline_tools_download
                    (if isOnMac then CMDLINE_TOOLS_URL_MAC else CMDLINE_TOOLS_URL_LINUX)
                  ∈ events o)).
  unfold installCmdlineTools. wp_steps. cbv beta zeta. rewrite Hhome. fold tools.
  rewrite Hex. apply wp_bind_when; [intros _ | intros [=]].
  wp_steps. cbv beta zeta. rewrite Hhome. fold tools.
  apply wp_bind_mkdirP_ok; [exact Hmk | ].
  wp_steps.
  apply wp_bind_exec; [intros _; unfold wp | intros code _ _]; outcome_simpl; set_solver.
Qed.

(** C5, as the code has it.  On macOS every download of the base SDK and
    of the command-line tools that a run makes is from the macOS address,
    and the owner is never changed.  On any other platform the downloads
    are from the Linux addresses, and the owner is changed only if the
    fresh-sdk-installation input is empty once [core.getInput] has taken
    the white space around it away; if it is, the owner is changed in
    every run that gets past the base SDK step.  On either platform the
    base SDK is downloaded, from the address of the platform, when there
    is no SDK directory, and the command-line tools when line 48 is
    reached without their directory and line 52 makes it. *)
Theorem platform_branching (sys : Shell)
    apiLevel target arch emulatorBuild ndkVersion cmakeVersion w :
  let isOnMac := String.eqb (platform w) "darwin" in
  let run := installAndroidSdk sys apiLevel target arch
               emulatorBuild ndkVersion cmakeVersion w in
  let home := Js.tpl (env w !! "ANDROID_HOME") in
  let freshInstall := Js.trim (Js.or_empty (inputs w !! "fresh-sdk-installation")) in
  let fetches (base_url tools_url : string) : Prop :=
    (Js.truthy (env w !! "ANDROID_HOME") = true →
     exists_path (fs (host w)) home = false →
     exists_path (fs (host w)) (home +:+ "/sdk_home") = false →
     base_sdk_download base_url ∈ events run)
    ∧ (∀ w1, reaches (beforeCmdlineTools sys isOnMac) w tt w1 →
         exists_path (fs (host w1)) (home +:+ "/cmdline-tools") = false →
         completion (io_mkdirP (home +:+ "/cmdline-tools") w1) = Normal tt →
         cmdline_tools_download tools_url ∈ events run) in
  (platform w = "darwin" →
     Forall (on_platform BASE_ANDROID_SDK_URL_MAC CMDLINE_TOOLS_URL_MAC False)
       (events run)
     ∧ fetches BASE_ANDROID_SDK_URL_MAC CMDLINE_TOOLS_URL_MAC)
  ∧ (platform w ≠ "darwin" →
     Forall (on_platform BASE_ANDROID_SDK_URL_LINUX CMDLINE_TOOLS_URL_LINUX
               (freshInstall = ""))
       (events run)
     ∧ fetches BASE_ANDROID_SDK_URL_LINUX CMDLINE_TOOLS_URL_LINUX
     ∧ (freshInstall = "" →
        ∀ w1, reaches (checkAndroidHome;; ensureBaseSdk sys) w tt w1 →
          chown_step home ∈ events run)).
Proof.
  intros isOnMac run home freshInstall fetches.
  assert (fetches
            (if isOnMac then BASE_ANDROID_SDK_URL_MAC else BASE_ANDROID_SDK_URL_LINUX)
            (if isOnMac then CMDLINE_TOOLS_URL_MAC else CMDLINE_TOOLS_URL_LINUX))
    as Hfetches.
  { split.
    - apply base_sdk_downloaded.
    - apply cmdline_tools_downloaded. }
  split; [intros Hmac | intros Hlinux; split; [ | split]].
  - split.
    + assert (Always (mkConfig "darwin" (inputs w) (env w !! "ANDROID_HOME"))
                (on_platform BASE_ANDROID_SDK_URL_MAC CMDLINE_TOOLS_URL_MAC False)
                (λ _, True)
                (installAndroidSdk sys apiLevel target arch
                   emulatorBuild ndkVersion cmakeVersion)) as H.
      { always_go platform_side. }
      apply H. unfold config. by rewrite Hmac.
    + apply String.eqb_eq in Hmac. fold isOnMac in Hmac. by rewrite Hmac in Hfetches.
  - apply String.eqb_neq in Hlinux.
    assert (Always (config w)
              (on_platform BASE_ANDROID_SDK_URL_LINUX CMDLINE_TOOLS_URL_LINUX
                 (freshInstall = ""))
              (λ _, True)
              (installAndroidSdk sys apiLevel target arch
                 emulatorBuild ndkVersion cmakeVersion)) as H.
    { subst freshInstall. always_go platform_side. }
    by apply H.
  - apply String.eqb_neq in Hlinux. fold isOnMac in Hlinux. by rewrite Hlinux in Hfetches.
  - intros Hfresh w1 [Hc Hw1]. subst run.
    rewrite installAndroidSdk_unfold, events_call.
    set (rest := installCmdlineTools _ _ ≫= _).
    assert (config w1 = config w) as Hcfg.
    { rewrite <- Hw1. apply config_final. always_go ltac:(exact I). }
    assert ((checkAndroidHome;; ensureBaseSdk sys;;
             configurePermissions sys (String.eqb (platform w) "darwin");; rest) w =
            ((checkAndroidHome;; ensureBaseSdk sys) ≫= λ _,
             configurePermissions sys (String.eqb (platform w) "darwin");; rest) w)
      as -> by (symmetry; regroup).
    rewrite (events_reaches _ _ w tt w1 (conj Hc Hw1)).
    apply elem_of_app. right.
    apply String.eqb_neq in Hlinux. rewrite Hlinux.
    change (wp (configurePermissions sys false;; rest) w1 (λ o, chown_step home ∈ events o)).
    unfold configurePermissions. do 2 wp_step.
    rewrite (config_inputs _ _ Hcfg). fold freshInstall. rewrite Hfresh.
    apply wp_bind_when; [intros _ | intros [=]].
    do 2 wp_step. rewrite (config_env_home _ _ Hcfg). fold home.
    apply wp_bind_exec; [intros _; unfold wp | intros code _ _]; by left.
Qed.

Lemma platform_branching_witness :
  Forall (on_platform BASE_ANDROID_SDK_URL_MAC CMDLINE_TOOLS_URL_MAC False)
    (events (installAndroidSdk runner 30 "google_apis" "x86_64" None None None
               mac_with_old_path))
  ∧ base_sdk_download BASE_ANDROID_SDK_URL_MAC
    ∈ events (installAndroidSdk runner 30 "google_apis" "x86_64" None None None
                mac_with_old_path)
  ∧ cmdline_tools_download CMDLINE_TOOLS_URL_LINUX
    ∈ events (installAndroidSdk runner 30 "google_apis" "x86_64" None None None
                linux_fresh)
  ∧ chown_step "/sdk"
    ∈ events (installAndroidSdk runner 30 "google_apis" "x86_64" None None None
                linux_fresh).
Proof.
  assert (platform linux_fresh ≠ "darwin") as Hlinux by discriminate.
  pose proof (proj1 (platform_branching runner 30 "google_apis" "x86_64" None None None
                       mac_with_old_path) eq_refl) as [Hmac [Hbase _]].
  pose proof (proj2 (platform_branching runner 30 "google_apis" "x86_64" None None None
                       linux_fresh) Hlinux) as (_ & [_ Htools] & Hchown).
  split; [exact Hmac | split; [ | split]].
  - apply Hbase; vm_compute; reflexivity.
  - apply (Htools (final (beforeCmdlineTools runner false linux_fresh)));
      [split; [vm_compute; reflexivity | reflexivity] | vm_compute; reflexivity ..].
  - apply (Hchown eq_refl (final ((checkAndroidHome;; ensureBaseSdk runner) linux_fresh))).
    split; [vm_compute; reflexivity | reflexivity].
Defined.

(** An input of two spaces is not the empty string, and the owner is
    changed: [core.getInput] gives the input without the white space
    around it, and line 44 tests what it gives. *)
Lemma platform_branching_blank_input :
  platform linux_warm_blank_input ≠ "darwin"
  ∧ Js.or_empty (inputs linux_warm_blank_input !! "fresh-sdk-installation") ≠ ""
  ∧ chown_step "/sdk"
    ∈ events (installAndroidSdk runner 30 "google_apis" "x86_64" None None None
                linux_warm_blank_input).
Proof.
  split; [discriminate | ]. split; [discriminate | ].
  apply list_elem_of_In. vm_compute. tauto.
Qed.

(** ** The license files, step by step (X15, X16) *)

Lemma exists_path_insert (f : gmap string Node) p n : exists_path (<[p := n]> f) p = true.
Proof. unfold exists_path. rewrite lookup_insert_eq. by apply bool_decide_eq_true. Qed.

(** A write under the guard [b && !fs.existsSync(p)]: skipped, made, or
    failed for want of a directory to write in. *)
Lemma wp_bind_when_write {B} (b : bool) p d (h : unit → M B) w (Q : Outcome B → Prop) :
  (b = false ∨ exists_path (fs (host w)) p = true → wp (h tt) w Q) →
  (b = true → exists_path (fs (host w)) p = false →
   wp (h tt) (set_fs <[p := File d]> w) (λ o, Q (prepend [WriteFile p d] o))) →
  (b = true → exists_path (fs (host w)) p = false →
   ∀ e, Q (mkOutcome [] w (Throw e))) →
  wp (when_ (b && negb (exists_path (fs (host w)) p)) (fs_writeFileSync p d) ≫= h) w Q.
Proof.
  intros Hskip Hmade Hfail.
  destruct b; [ | apply wp_bind_when; [intros [=] | intros _; apply Hskip; by left]].
  destruct (exists_path (fs (host w)) p) eqn:Hex;
    [apply wp_bind_when; [intros [=] | intros _; apply Hskip; by right] | ].
  apply wp_bind_when; [intros _ | intros [=]].
  apply wp_bind_writeFileSync; [by rewrite (exists_path_false _ _ Hex) | intros _ ..]; auto.
Qed.

(** The license step writes a file only where there is none, and leaves
    what is there. *)
Lemma writeLicenseFiles_step (isOnMac : bool) apiLevel w :
  let home := Js.tpl (env w !! "ANDROID_HOME") in
  let preview := home +:+ "/licenses/android-sdk-preview-license" in
  let armDbt := home +:+ "/licenses/android-sdk-arm-dbt-license" in
  let o := writeLicenseFiles isOnMac apiLevel w in
  (∀ p d, WriteFile p d ∈ events o → exists_path (fs (host w)) p = false)
  ∧ (∀ q n, fs (host w) !! q = Some n → fs (host (final o)) !! q = Some n)
  ∧ (completion o = Normal tt →
     (isOnMac = false → exists_path (fs (host (final o))) preview = true)
     ∧ (apiLevel = 30 → exists_path (fs (host (final o))) armDbt = true)).
Proof.
  intros home preview armDbt o. subst o.
  assert (preview ≠ armDbt) as Hne by (by intros H%String.app_inj).
  apply (wp_last (writeLicenseFiles isOnMac apiLevel) w
           (λ o,
              (∀ p d, WriteFile p d ∈ events o → exists_path (fs (host w)) p = false)
              ∧ (∀ q n, fs (host w) !! q = Some n → fs (host (final o)) !! q = Some n)
              ∧ (completion o = Normal tt →
                 (isOnMac = false → exists_path (fs (host (final o))) preview = true)
                 ∧ (apiLevel = 30 → exists_path (fs (host (final o))) armDbt = true)))).
  unfold writeLicenseFiles. wp_steps. cbv beta zeta. fold home preview.
  apply wp_bind_when_write; [intros Hskip1 | intros Hmac Hex1 | intros Hmac Hex1 err].
  - wp_steps. cbv beta zeta. fold home armDbt.
    assert (isOnMac = false → exists_path (fs (host w)) preview = true) as Hp.
    { intros ->. by destruct Hskip1. }
    apply wp_bind_when_write; [intros Hskip2 | intros Hapi Hex2 | intros Hapi Hex2 err].
    + wp_step. simpl. split; [by intros ? ? ?%elem_of_nil | ]. split; [done | intros _].
      split; [done | intros ->]. by destruct Hskip2.
    + wp_step. outcome_simpl. split; [ | split].
      * by intros p d [= -> ->]%list_elem_of_singleton.
      * intros q n Hq. rewrite lookup_insert_ne; [done | ].
        intros <-. apply exists_path_false in Hex2. congruence.
      * intros _. split; [ | intros _; apply exists_path_insert].
        intros Hm. rewrite exists_path_insert_ne by done. auto.
    + simpl. split; [by intros ? ? ?%elem_of_nil | done].
  - wp_steps. cbv beta zeta.
    change (env (set_fs ?f w)) with (env w). fold home armDbt.
    pose proof (exists_path_false _ _ Hex1) as Hnone1.
    apply wp_bind_when_write;
      [intros Hskip2 | intros Hapi Hex2 | intros Hapi Hex2 err];
      [ assert (bool_decide (apiLevel = 30) = false
                ∨ exists_path (<[preview := File (Js.newline +:+ "84831b9409646a918e30573bab4c9c91346d8abd")]> (fs (host w))) armDbt = true) as Hskip2' by exact Hskip2;
        clear Hskip2; rename Hskip2' into Hskip2
      | assert (exists_path (<[preview := File (Js.newline +:+ "84831b9409646a918e30573bab4c9c91346d8abd")]> (fs (host w))) armDbt = false) as Hex2' by exact Hex2;
        clear Hex2; rename Hex2' into Hex2
      | ].
    + wp_step. outcome_simpl. split; [ | split].
      * by intros p d [= -> ->]%list_elem_of_singleton.
      * intros q n Hq. rewrite lookup_insert_ne; [done | ]. intros <-. congruence.
      * intros _. split; [intros _; apply exists_path_insert | intros ->].
        by destruct Hskip2.
    + rewrite exists_path_insert_ne in Hex2 by done.
      pose proof (exists_path_false _ _ Hex2) as Hnone2.
      wp_step. outcome_simpl. split; [ | split].
      * intros p d [[= -> ->] | [= -> ->]%list_elem_of_singleton]%elem_of_cons; done.
      * intros q n Hq. rewrite !lookup_insert_ne; [done | intros <-; congruence ..].
      * intros _. split; [intros _ | intros _; apply exists_path_insert].
        rewrite exists_path_insert_ne by done. apply exists_path_insert.
    + outcome_simpl. split; [ | split; [ | done]].
      * by intros p d [= -> ->]%list_elem_of_singleton.
      * intros q n Hq. rewrite lookup_insert_ne; [done | ]. intros <-. congruence.
  - simpl. split; [by intros ? ? ?%elem_of_nil | done].
Qed.

Lemma not_write_Always_before (sys : Shell) cfg isOnMac :
  Always cfg (λ e, ¬ is_write e ∧ installs_packages e = false) (λ _, True)
    (beforeLicenseFiles sys isOnMac).
Proof. always_go ltac:(split; [by intros [] | reflexivity]). Qed.

Lemma not_write_Always_after (sys : Shell) cfg isOnMac
    apiLevel target arch emulatorBuild ndkVersion cmakeVersion :
  Always cfg (λ e, ¬ is_write e) (λ _, True)
    (afterLicenseFiles sys isOnMac apiLevel target arch
       emulatorBuild ndkVersion cmakeVersion).
Proof. always_go ltac:(by intros []). Qed.

Lemma writeLicenseFiles_Always cfg isOnMac apiLevel :
  Always cfg (λ e, installs_packages e = false) (λ _, True)
    (writeLicenseFiles isOnMac apiLevel).
Proof. always_go ltac:(reflexivity). Qed.

(** The events of three steps in a row. *)
Lemma events_three {A B C} cfg (P1 P2 P3 : Event → Prop)
    (m1 : M A) (m2 : M B) (m3 : M C) w :
  Always cfg P1 (λ _, True) m1 → Always cfg P2 (λ _, True) m2 →
  Always cfg P3 (λ _, True) m3 → config w = cfg →
  ∃ l1 l2 l3,
    events ((m1 ≫= λ _, m2 ≫= λ _, m3) w) = (l1 ++ l2 ++ l3)%list
    ∧ l1 = events (m1 w)
    ∧ Forall P1 l1 ∧ Forall P2 l2 ∧ Forall P3 l3
    ∧ (∀ a, completion (m1 w) = Normal a → l2 = events (m2 (final (m1 w)))).
Proof.
  intros H1 H2 H3 Hw. destruct (H1 w Hw) as (He1 & Hc1 & _).
  exists (events (m1 w)). rewrite events_bind.
  destruct (completion (m1 w)) as [a| |e].
  - destruct (H2 _ Hc1) as (He2 & Hc2 & _). rewrite events_bind.
    exists (events (m2 (final (m1 w)))).
    destruct (completion (m2 (final (m1 w)))) as [b| |e].
    + destruct (H3 _ Hc2) as (He3 & _). eexists. by repeat split.
    + exists []. by repeat split.
    + exists []. by repeat split.
  - exists [], []. by repeat split.
  - exists [], []. by repeat split.
Qed.

Lemma app_eq_app_prefix {X} (P : X → Prop) (l2 l3 m evs2 : list X) x :
  Forall P l3 → ¬ P x → (l2 ++ l3 = m ++ x :: evs2)%list → m `prefix_of` l2.
Proof.
  intros Hl3 Hx. revert m. induction l2 as [|a l2 IH]; intros m Heq; simpl in Heq.
  - subst l3. apply Forall_app in Hl3 as [_ Hl3]. by apply Forall_cons in Hl3 as [? _].
  - destruct m as [|b m]; [apply prefix_nil | ].
    simpl in Heq. injection Heq as -> Heq. apply prefix_cons. by apply IH.
Qed.

(** A run, as in [installAndroidSdk_at_licenses], without the call. *)
Lemma installAndroidSdk_three (sys : Shell)
    apiLevel target arch emulatorBuild ndkVersion cmakeVersion w :
  let isOnMac := String.eqb (platform w) "darwin" in
  events (installAndroidSdk sys apiLevel target arch emulatorBuild ndkVersion cmakeVersion w) =
  events ((beforeLicenseFiles sys isOnMac ≫= λ _,
           writeLicenseFiles isOnMac apiLevel ≫= λ _,
           afterLicenseFiles sys isOnMac apiLevel target arch
             emulatorBuild ndkVersion cmakeVersion) w).
Proof.
  intros isOnMac. rewrite installAndroidSdk_unfold, events_call. fold isOnMac.
  f_equal. unfold beforeLicenseFiles, afterLicenseFiles. symmetry. regroup.
Qed.

(** X15.  The license files come first: no package has been installed by
    the package manager before a license file is written. *)
Theorem licenses_before_packages (sys : Shell)
    apiLevel target arch emulatorBuild ndkVersion cmakeVersion w evs1 p d evs2 :
  let run := installAndroidSdk sys apiLevel target arch
               emulatorBuild ndkVersion cmakeVersion w in
  events run = (evs1 ++ WriteFile p d :: evs2)%list →
  Forall (λ e, installs_packages e = false) evs1.
Proof.
  intros run Hrun.
  set (isOnMac := String.eqb (platform w) "darwin").
  destruct (events_three (config w) _ _ _ _ _ _ w
              (not_write_Always_before sys (config w) isOnMac)
              (writeLicenseFiles_Always (config w) isOnMac apiLevel)
              (not_write_Always_after sys (config w) isOnMac apiLevel target arch
                 emulatorBuild ndkVersion cmakeVersion) eq_refl)
    as (l1 & l2 & l3 & Hev & _ & Hl1 & Hl2 & Hl3 & _).
  pose proof (installAndroidSdk_three sys apiLevel target arch
                emulatorBuild ndkVersion cmakeVersion w) as Hthree.
  cbv zeta in Hthree. fold isOnMac run in Hthree. rewrite <- Hthree in Hev. clear Hthree.
  rewrite Hev in Hrun.
  apply (app_eq_app_Forall (λ e, ¬ is_write e ∧ installs_packages e = false)) in Hrun
    as (m & -> & Hm); [ | done | by intros [H _]; apply H].
  apply (app_eq_app_prefix (λ e, ¬ is_write e)) in Hm; [ | done | by intros H; apply H].
  apply Forall_app. split.
  - eapply Forall_impl; [exact Hl1 | ]. by intros e [_ He].
  - by eapply Forall_prefix.
Qed.

Lemma licenses_before_packages_witness :
  Forall (λ e, installs_packages e = false)
    (take 20 (events (installAndroidSdk runner 30 "google_apis" "x86_64" None None None
                        linux_fresh))).
Proof.
  apply (licenses_before_packages runner 30 "google_apis" "x86_64" None None None linux_fresh
           _ ("/sdk" +:+ "/licenses/android-sdk-arm-dbt-license")
           (Js.newline +:+ "859f317696f67ef3d7f30a50a5560e7834b43903")
           (drop 21 (events (installAndroidSdk runner 30 "google_apis" "x86_64" None None None
                               linux_fresh)))).
  vm_compute; reflexivity.
Defined.

(** X16.  The license step keeps what is there.  A run that gets to line
    62 writes a license file only where there was no file; the license
    step, when it ends normally, leaves every entry of the filesystem as
    it was, and after it the preview license exists off macOS and the
    arm-dbt license exists with API level 30. *)
Theorem license_files_kept (sys : Shell)
    apiLevel target arch emulatorBuild ndkVersion cmakeVersion w w1 :
  let isOnMac := String.eqb (platform w) "darwin" in
  let run := installAndroidSdk sys apiLevel target arch
               emulatorBuild ndkVersion cmakeVersion w in
  let home := Js.tpl (env w !! "ANDROID_HOME") in
  reaches (beforeLicenseFiles sys isOnMac) w tt w1 →
  (∀ p d, WriteFile p d ∈ events run → exists_path (fs (host w1)) p = false)
  ∧ ∀ w2, reaches (writeLicenseFiles isOnMac apiLevel) w1 tt w2 →
      (∀ q n, fs (host w1) !! q = Some n → fs (host w2) !! q = Some n)
      ∧ (isOnMac = false →
         exists_path (fs (host w2)) (home +:+ "/licenses/android-sdk-preview-license") = true)
      ∧ (apiLevel = 30 →
         exists_path (fs (host w2)) (home +:+ "/licenses/android-sdk-arm-dbt-license") = true).
Proof.
  intros isOnMac run home Hreach.
  destruct (events_three (config w) _ _ _ _ _ _ w
              (not_write_Always_before sys (config w) isOnMac)
              (writeLicenseFiles_Always (config w) isOnMac apiLevel)
              (not_write_Always_after sys (config w) isOnMac apiLevel target arch
                 emulatorBuild ndkVersion cmakeVersion) eq_refl)
    as (l1 & l2 & l3 & Hev & Hl1eq & Hl1 & Hl2 & Hl3 & Hl2eq).
  pose proof (installAndroidSdk_three sys apiLevel target arch
                emulatorBuild ndkVersion cmakeVersion w) as Hthree.
  cbv zeta in Hthree. fold isOnMac run in Hthree. rewrite <- Hthree in Hev. clear Hthree.
  split.
  - intros p d Hin. rewrite Hev in Hin.
    destruct Hreach as [Hc Hw1]. rewrite (Hl2eq tt Hc), Hw1 in Hin.
    apply elem_of_app in Hin as [Hin | Hin];
      [eapply Forall_forall in Hl1 as [Hl1 _]; [ | exact Hin]; by destruct Hl1 | ].
    apply elem_of_app in Hin as [Hin | Hin];
      [ | eapply Forall_forall in Hl3; [ | exact Hin]; by destruct Hl3].
    by apply (writeLicenseFiles_step isOnMac apiLevel w1) in Hin.
  - intros w2 [Hc2 Hw2].
    destruct (writeLicenseFiles_step isOnMac apiLevel w1) as (_ & Hkeep & Hpost).
    rewrite Hw2 in Hkeep, Hpost. specialize (Hpost Hc2).
    assert (env w1 !! "ANDROID_HOME" = env w !! "ANDROID_HOME") as Hhome.
    { destruct Hreach as [_ <-]. apply config_env_home, config_final.
      always_go ltac:(exact I). }
    rewrite Hhome in Hpost. fold home in Hpost. split; [exact Hkeep | exact Hpost].
Qed.

Lemma license_files_kept_witness :
  let w1 := final (beforeLicenseFiles runner false linux_warm) in
  let w2 := final (writeLicenseFiles false 30 w1) in
  exists_path (fs (host w2)) ("/sdk" +:+ "/licenses/android-sdk-preview-license") = true
  ∧ exists_path (fs (host w2)) ("/sdk" +:+ "/licenses/android-sdk-arm-dbt-license") = true.
Proof.
  intros w1 w2.
  destruct (license_files_kept runner 30 "google_apis" "x86_64" None None None linux_warm w1)
    as [_ H]; [split; [vm_compute; reflexivity | reflexivity] | ].
  destruct (H w2) as (_ & Hp & Ha); [split; [vm_compute; reflexivity | reflexivity] | ].
  split; [by apply Hp | by apply Ha].
Defined.
